(** * dsbot: the technical-indicator calculator (package [indicator])

    A shallow embedding of [Calculator] and its helpers
    ([calculateSMA], [calculateEMA], [calculateMACDValues], [calculateRSI],
    [calculateBollingerBands], [max], [min], the three entry points) and the
    properties of the indicator pipeline.

    Go's [int] is a 64-bit two's-complement integer: it is modelled as [Z]
    with the wrap-around written out ([wrap64]).  Go's [float64] is IEEE-754
    binary64: the code is written once over an interface [Arith] of the
    operations it uses, and instantiated with Rocq's primitive binary64
    floats ([binary64], the arithmetic the program runs with) and with the
    real numbers ([exact], the arithmetic the indicator formulas are
    designed in).  On binary64 every operation is rounded on its own, as
    the Go compiler does on amd64 (no fused multiply-add).  A run-time
    panic of the Go program (slice bounds, index out of range, negative
    [make]) is the outcome [Panic].

    The receiver [c *Calculator] holds nothing but its [config]: the
    methods below take that parameter set as their argument [c].

    Around the calculator the development embeds the parts of the bot that
    decide something: the alignment of the scheduler
    ([timedschedulers], [main]), the validation of the configuration and the
    exchange factory ([config], [exchange]), the symbol and candle helpers
    and the order sizing of the OKX client, the session bookkeeping of the
    AI client ([ai]), the risk manager and the order logic of the trading
    bot ([strategy]).  Network calls, clocks and JSON decoding are inputs of
    the functions that use their results. *)

From Stdlib Require Import Ascii String ZArith List Bool Lia.
From Stdlib Require Import Floats.
From Stdlib Require Import Reals Lra.
Import ListNotations.

Local Open Scope Z_scope.

(** ** Go integers *)

Definition max_int : Z := 2 ^ 63 - 1.
Definition min_int : Z := - 2 ^ 63.

(** Two's-complement wrap-around of a 64-bit signed result. *)
Definition wrap64 (z : Z) : Z := (z + 2 ^ 63) mod 2 ^ 64 - 2 ^ 63.

(** [len(s)] of a slice, as a Go [int]. *)
Definition len {A : Type} (s : list A) : Z := Z.of_nat (List.length s).

(** ** Outcomes: a value, or a run-time panic *)

Inductive outcome (A : Type) : Type :=
| Ret (a : A)
| Panic.
Arguments Ret {A} a.
Arguments Panic {A}.

Definition bind {A B : Type} (m : outcome A) (k : A -> outcome B) : outcome B :=
  match m with
  | Ret a => k a
  | Panic => Panic
  end.

Notation "x <- m ;; k" := (bind m (fun x => k))
  (at level 61, m at next level, right associativity).

(** Sequencing a list of outcomes, left to right, as a loop that appends. *)
Fixpoint collect {A : Type} (ms : list (outcome A)) : outcome (list A) :=
  match ms with
  | [] => Ret []
  | m :: ms' => a <- m ;; r <- collect ms' ;; Ret (a :: r)
  end.

(** ** The arithmetic the calculator needs from [float64] *)

Class Arith (F : Type) : Type := {
  of_int : Z -> F;          (* float64(n), and the integer literals 0.0, 1.0, 2.0 *)
  add : F -> F -> F;
  sub : F -> F -> F;
  mul : F -> F -> F;
  div : F -> F -> F;
  opp : F -> F;
  fsqrt : F -> F;           (* math.Sqrt *)
  feqb : F -> F -> bool;    (* == *)
  fltb : F -> F -> bool     (* <  ;  a > b is [fltb b a] *)
}.

(** binary64, the arithmetic of the Go program.  The conversion of an
    integer rounds to nearest, ties to even. *)
#[export] Instance binary64 : Arith float := {|
  of_int := fun z => SF2Prim (binary_normalize prec emax z 0 false);
  add := PrimFloat.add;
  sub := PrimFloat.sub;
  mul := PrimFloat.mul;
  div := PrimFloat.div;
  opp := PrimFloat.opp;
  fsqrt := PrimFloat.sqrt;
  feqb := PrimFloat.eqb;
  fltb := PrimFloat.ltb
|}.

(** Exact real arithmetic. *)
#[export] Instance exact : Arith R := {|
  of_int := IZR;
  add := Rplus;
  sub := Rminus;
  mul := Rmult;
  div := Rdiv;
  opp := Ropp;
  fsqrt := R_sqrt.sqrt;
  feqb := fun x y => if Req_dec_T x y then true else false;
  fltb := fun x y => if Rlt_dec x y then true else false
|}.

(** ** Slices and loops *)

(** [s[:hi]].  Go checks [0 <= hi <= cap(s)]; every use below has
    [hi <= len(s)] when it does not panic. *)
Definition slice_to {A : Type} (s : list A) (hi : Z) : outcome (list A) :=
  if (hi <? 0) || (len s <? hi) then Panic else Ret (firstn (Z.to_nat hi) s).

(** [s[lo:]]. *)
Definition slice_from {A : Type} (s : list A) (lo : Z) : outcome (list A) :=
  if (lo <? 0) || (len s <? lo) then Panic else Ret (skipn (Z.to_nat lo) s).

(** [s[i]]. *)
Definition index {A : Type} (s : list A) (i : Z) : outcome A :=
  if i <? 0 then Panic
  else match nth_error s (Z.to_nat i) with
       | Some a => Ret a
       | None => Panic
       end.

(** [for i := start; i < len(s); i++ { acc = body(acc, s[i]) }]:
    a negative [start] indexes out of range at once, a [start] beyond the
    end runs no iteration. *)
Definition for_from {A B : Type} (s : list A) (start : Z)
    (body : B -> A -> B) (acc : B) : outcome B :=
  if start <? 0 then Panic
  else Ret (fold_left body (skipn (Z.to_nat start) s) acc).

(** The integers [lo, lo+1, ..., hi] visited by
    [for i := lo; i <= hi; i++]. *)
Definition int_range (lo hi : Z) : list Z :=
  map (fun k => lo + Z.of_nat k) (seq 0 (Z.to_nat (hi - lo + 1))).

(** ** Data model (package [models] and [IndicatorConfig]) *)

Record OHLCV (F : Type) : Type := mkOHLCV {
  Timestamp : Z;
  Open : F;
  High : F;
  Low : F;
  Close : F;
  Volume : F
}.
Arguments mkOHLCV {F}.
Arguments Timestamp {F}.
Arguments Open {F}.
Arguments High {F}.
Arguments Low {F}.
Arguments Close {F}.
Arguments Volume {F}.

Record IndicatorConfig (F : Type) : Type := mkIndicatorConfig {
  SMA5Period : Z;
  SMA20Period : Z;
  SMA50Period : Z;
  EMA12Period : Z;
  EMA26Period : Z;
  MACDFastPeriod : Z;
  MACDSlowPeriod : Z;
  MACDSignalPeriod : Z;
  RSIPeriod : Z;
  RSINeutralValue : F;
  RSIMaxValue : F;
  BBPeriod : Z;
  BBStdDev : F;
  BBMinThreshold : F;
  BBDefaultPos : F;
  BBUpperAdjust : F;
  BBLowerAdjust : F;
  VolumeMAPeriod : Z;
  DefaultVolumeRatio : F;
  SupportResistanceLookback : Z
}.
Arguments mkIndicatorConfig {F}.
Arguments SMA5Period {F}.
Arguments SMA20Period {F}.
Arguments SMA50Period {F}.
Arguments EMA12Period {F}.
Arguments EMA26Period {F}.
Arguments MACDFastPeriod {F}.
Arguments MACDSlowPeriod {F}.
Arguments MACDSignalPeriod {F}.
Arguments RSIPeriod {F}.
Arguments RSINeutralValue {F}.
Arguments RSIMaxValue {F}.
Arguments BBPeriod {F}.
Arguments BBStdDev {F}.
Arguments BBMinThreshold {F}.
Arguments BBDefaultPos {F}.
Arguments BBUpperAdjust {F}.
Arguments BBLowerAdjust {F}.
Arguments VolumeMAPeriod {F}.
Arguments DefaultVolumeRatio {F}.
Arguments SupportResistanceLookback {F}.

Record TechnicalData (F : Type) : Type := mkTechnicalData {
  SMA5 : F;
  SMA20 : F;
  SMA50 : F;
  EMA12 : F;
  EMA26 : F;
  MACD : F;
  MACDSignal : F;
  MACDHistogram : F;
  RSI : F;
  BBUpper : F;
  BBMiddle : F;
  BBLower : F;
  BBPosition : F;
  VolumeMA : F;
  VolumeRatio : F;
  Resistance : F;
  Support : F
}.
Arguments mkTechnicalData {F}.
Arguments SMA5 {F}.
Arguments SMA20 {F}.
Arguments SMA50 {F}.
Arguments EMA12 {F}.
Arguments EMA26 {F}.
Arguments MACD {F}.
Arguments MACDSignal {F}.
Arguments MACDHistogram {F}.
Arguments RSI {F}.
Arguments BBUpper {F}.
Arguments BBMiddle {F}.
Arguments BBLower {F}.
Arguments BBPosition {F}.
Arguments VolumeMA {F}.
Arguments VolumeRatio {F}.
Arguments Resistance {F}.
Arguments Support {F}.

Record TrendAnalysis (F : Type) : Type := mkTrendAnalysis {
  ShortTerm : string;
  MediumTerm : string;
  MACDTrend : string;      (* field [MACD] of [TrendAnalysis] *)
  Overall : string;
  RSILevel : F
}.
Arguments mkTrendAnalysis {F}.
Arguments ShortTerm {F}.
Arguments MediumTerm {F}.
Arguments MACDTrend {F}.
Arguments Overall {F}.
Arguments RSILevel {F}.

Record LevelsAnalysis (F : Type) : Type := mkLevelsAnalysis {
  StaticResistance : F;
  StaticSupport : F;
  DynamicResistance : F;
  DynamicSupport : F;
  PriceVsResistance : F;
  PriceVsSupport : F
}.
Arguments mkLevelsAnalysis {F}.
Arguments StaticResistance {F}.
Arguments StaticSupport {F}.
Arguments DynamicResistance {F}.
Arguments DynamicSupport {F}.
Arguments PriceVsResistance {F}.
Arguments PriceVsSupport {F}.

(** ** The calculator *)

Section Calculator.

Context {F : Type} {arith : Arith F}.

(** The [float64] constants [0.0], [1.0], [2.0] and [100]. *)
Definition f0 : F := of_int 0.
Definition f1 : F := of_int 1.
Definition f2 : F := of_int 2.
Definition f100 : F := of_int 100.

Definition extractCloses (ohlcvList : list (OHLCV F)) : list F := map Close ohlcvList.
Definition extractHighs (ohlcvList : list (OHLCV F)) : list F := map High ohlcvList.
Definition extractLows (ohlcvList : list (OHLCV F)) : list F := map Low ohlcvList.
Definition extractVolumes (ohlcvList : list (OHLCV F)) : list F := map Volume ohlcvList.

(** [max]: starts from [values[0]] and takes [v] whenever [v > maxVal]. *)
Definition max (values : list F) : F :=
  match values with
  | [] => f0
  | v0 :: _ => fold_left (fun maxVal v => if fltb maxVal v then v else maxVal) values v0
  end.

(** [min]: starts from [values[0]] and takes [v] whenever [v < minVal]. *)
Definition min (values : list F) : F :=
  match values with
  | [] => f0
  | v0 :: _ => fold_left (fun minVal v => if fltb v minVal then v else minVal) values v0
  end.

(** [calculateSMA]. *)
Definition calculateSMA (values : list F) (period : Z) : outcome F :=
  if len values =? 0 then Ret f0
  else
    let period := if len values <? period then len values else period in
    if period =? 0 then Ret f0
    else
      let startIdx := wrap64 (len values - period) in
      sum <- for_from values startIdx add f0 ;;
      Ret (div sum (of_int period)).

(** [calculateEMA]. *)
Definition calculateEMA (values : list F) (period : Z) : outcome F :=
  if len values =? 0 then Ret f0
  else if len values <? period then calculateSMA values (len values)
  else
    let multiplier := div f2 (of_int (wrap64 (period + 1))) in
    seed <- slice_to values period ;;
    ema <- calculateSMA seed period ;;
    for_from values period
      (fun ema v => add (mul v multiplier) (mul ema (sub f1 multiplier))) ema.

(** [calculateEMAFromValues]. *)
Definition calculateEMAFromValues (values : list F) (period : Z) : outcome F :=
  calculateEMA values period.

(** One iteration of the history loop of [calculateMACDValues]. *)
Definition macd_at (closes : list F) (fast slow : Z) (i : Z) : outcome F :=
  subset <- slice_to closes i ;;
  ema12 <- calculateEMA subset fast ;;
  ema26 <- calculateEMA subset slow ;;
  Ret (sub ema12 ema26).

(** [calculateMACDValues]. *)
Definition calculateMACDValues (closes : list F) (fast slow : Z) : outcome (list F) :=
  if len closes <? slow then Ret [f0]
  else
    let minLength := slow in
    if len closes <? minLength then Ret [f0]
    else
      macdValues <- collect (map (macd_at closes fast slow) (int_range slow (len closes))) ;;
      if len macdValues =? 0 then
        ema12 <- calculateEMA closes fast ;;
        ema26 <- calculateEMA closes slow ;;
        Ret (macdValues ++ [sub ema12 ema26])
      else Ret macdValues.

(** [changes[i-1] = values[i] - values[i-1]] for [i = 1 .. len-1]. *)
Fixpoint price_changes (values : list F) : list F :=
  match values with
  | prev :: (cur :: _) as rest => sub cur prev :: price_changes rest
  | _ => []
  end.

Definition gain_of (change : F) : F := if fltb f0 change then change else f0.
Definition loss_of (change : F) : F := if fltb f0 change then f0 else opp change.

(** [calculateRSI].  The two running averages are updated together, as in
    the source loops. *)
Definition calculateRSI (c : IndicatorConfig F) (values : list F) (period : Z)
    : outcome F :=
  if len values <? wrap64 (period + 1) then Ret (RSINeutralValue c)
  else if len values - 1 <? 0 then Panic      (* make([]float64, -1) *)
  else
    let changes := price_changes values in
    if len changes <? period then Ret (RSINeutralValue c)
    else
      let gains := map gain_of changes in
      let losses := map loss_of changes in
      let sums :=
        fold_left (fun (a : F * F) (gl : F * F) => (add (fst a) (fst gl), add (snd a) (snd gl)))
                  (firstn (Z.to_nat period) (combine gains losses)) (f0, f0) in
      let avgGain := div (fst sums) (of_int period) in
      let avgLoss := div (snd sums) (of_int period) in
      avgs <- for_from (combine gains losses) period
                (fun (a : F * F) (gl : F * F) =>
                   (div (add (mul (fst a) (of_int (wrap64 (period - 1)))) (fst gl)) (of_int period),
                    div (add (mul (snd a) (of_int (wrap64 (period - 1)))) (snd gl)) (of_int period)))
                (avgGain, avgLoss) ;;
      let avgGain := fst avgs in
      let avgLoss := snd avgs in
      if feqb avgLoss f0 then
        if feqb avgGain f0 then Ret (RSINeutralValue c) else Ret (RSIMaxValue c)
      else
        let rs := div avgGain avgLoss in
        Ret (sub (RSIMaxValue c) (div (RSIMaxValue c) (add f1 rs))).

(** [calculateBollingerBands]: (middle, upper, lower). *)
Definition calculateBollingerBands (c : IndicatorConfig F) (values : list F)
    (period : Z) (stdDev : F) : outcome (F * F * F) :=
  if len values =? 0 then Ret (f0, f0, f0)
  else
    let period := if len values <? period then len values else period in
    if period =? 0 then Ret (f0, f0, f0)
    else
      middle <- calculateSMA values period ;;
      let startIdx := wrap64 (len values - period) in
      variance <- for_from values startIdx
                    (fun variance v => let diff := sub v middle in add variance (mul diff diff))
                    f0 ;;
      let std := fsqrt (div variance (of_int period)) in
      let upper := add middle (mul std stdDev) in
      let lower := sub middle (mul std stdDev) in
      if feqb upper lower
      then Ret (middle, mul middle (BBUpperAdjust c), mul middle (BBLowerAdjust c))
      else Ret (middle, upper, lower).

(** [Calculate]: [Ret None] is the nil result. *)
Definition Calculate (c : IndicatorConfig F) (ohlcvList : list (OHLCV F))
    : outcome (option (TechnicalData F)) :=
  if len ohlcvList =? 0 then Ret None
  else
    let closes := extractCloses ohlcvList in
    let highs := extractHighs ohlcvList in
    let lows := extractLows ohlcvList in
    let volumes := extractVolumes ohlcvList in
    sma5 <- calculateSMA closes (SMA5Period c) ;;
    sma20 <- calculateSMA closes (SMA20Period c) ;;
    sma50 <- calculateSMA closes (SMA50Period c) ;;
    rsi <- calculateRSI c closes (RSIPeriod c) ;;
    volumeMA <- calculateSMA volumes (VolumeMAPeriod c) ;;
    ema12 <- calculateEMA closes (EMA12Period c) ;;
    ema26 <- calculateEMA closes (EMA26Period c) ;;
    let macd := sub ema12 ema26 in
    macdValues <- calculateMACDValues closes (MACDFastPeriod c) (MACDSlowPeriod c) ;;
    macdSignal <- calculateEMAFromValues macdValues (MACDSignalPeriod c) ;;
    let macdHistogram := sub macd macdSignal in
    bb <- calculateBollingerBands c closes (BBPeriod c) (BBStdDev c) ;;
    let bbMiddle := fst (fst bb) in
    let bbUpper := snd (fst bb) in
    let bbLower := snd bb in
    bbPosition <-
      (if fltb bbLower bbUpper && fltb (BBMinThreshold c) (sub bbUpper bbLower) then
         currentPrice <- index closes (len closes - 1) ;;
         Ret (div (sub currentPrice bbLower) (sub bbUpper bbLower))
       else Ret (BBDefaultPos c)) ;;
    volumeRatio <-
      (if (0 <? len volumes) && fltb f0 volumeMA then
         currentVolume <- index volumes (len volumes - 1) ;;
         Ret (div currentVolume volumeMA)
       else Ret (DefaultVolumeRatio c)) ;;
    let lookbackPeriod := SupportResistanceLookback c in
    let lookbackPeriod := if len highs <? lookbackPeriod then len highs else lookbackPeriod in
    levels <-
      (if 0 <? lookbackPeriod then
         let startIdx := wrap64 (len highs - lookbackPeriod) in
         hs <- slice_from highs startIdx ;;
         ls <- slice_from lows startIdx ;;
         Ret (max hs, min ls)
       else
         currentPrice <- index closes (len closes - 1) ;;
         Ret (currentPrice, currentPrice)) ;;
    Ret (Some {| SMA5 := sma5; SMA20 := sma20; SMA50 := sma50;
                 EMA12 := ema12; EMA26 := ema26;
                 MACD := macd; MACDSignal := macdSignal; MACDHistogram := macdHistogram;
                 RSI := rsi;
                 BBUpper := bbUpper; BBMiddle := bbMiddle; BBLower := bbLower;
                 BBPosition := bbPosition;
                 VolumeMA := volumeMA; VolumeRatio := volumeRatio;
                 Resistance := fst levels; Support := snd levels |}).

(** [CalculateTrendAnalysis]: [tech = None] is the nil pointer. *)
Definition CalculateTrendAnalysis (c : IndicatorConfig F) (ohlcvList : list (OHLCV F))
    (tech : option (TechnicalData F)) : outcome (option (TrendAnalysis F)) :=
  match tech with
  | None => Ret None
  | Some tech =>
    if len ohlcvList =? 0 then Ret None
    else
      last <- index ohlcvList (len ohlcvList - 1) ;;
      let currentPrice := Close last in
      let shortTerm := if fltb (SMA20 tech) currentPrice then "上涨"%string else "下跌"%string in
      let mediumTerm := if fltb (SMA50 tech) currentPrice then "上涨"%string else "下跌"%string in
      let macdTrend := if fltb (MACDSignal tech) (MACD tech) then "bullish"%string else "bearish"%string in
      let overall :=
        if String.eqb shortTerm "上涨" && String.eqb mediumTerm "上涨" then "强势上涨"%string
        else if String.eqb shortTerm "下跌" && String.eqb mediumTerm "下跌" then "强势下跌"%string
        else "震荡整理"%string in
      Ret (Some {| ShortTerm := shortTerm; MediumTerm := mediumTerm;
                   MACDTrend := macdTrend; Overall := overall;
                   RSILevel := RSI tech |})
  end.

(** [CalculateLevelsAnalysis]. *)
Definition CalculateLevelsAnalysis (c : IndicatorConfig F) (ohlcvList : list (OHLCV F))
    (tech : option (TechnicalData F)) : outcome (option (LevelsAnalysis F)) :=
  match tech with
  | None => Ret None
  | Some tech =>
    if len ohlcvList =? 0 then Ret None
    else
      last <- index ohlcvList (len ohlcvList - 1) ;;
      let currentPrice := Close last in
      let lookback := SupportResistanceLookback c in
      let lookback := if len ohlcvList <? lookback then len ohlcvList else lookback in
      if lookback =? 0 then
        Ret (Some {| StaticResistance := currentPrice; StaticSupport := currentPrice;
                     DynamicResistance := BBUpper tech; DynamicSupport := BBLower tech;
                     PriceVsResistance := f0; PriceVsSupport := f0 |})
      else
        recentData <- slice_from ohlcvList (wrap64 (len ohlcvList - lookback)) ;;
        let highs := extractHighs recentData in
        let lows := extractLows recentData in
        let staticResistance := max highs in
        let staticSupport := min lows in
        let priceVsResistance :=
          if fltb f0 currentPrice
          then mul (div (sub staticResistance currentPrice) currentPrice) f100
          else f0 in
        let priceVsSupport :=
          if fltb f0 staticSupport
          then mul (div (sub currentPrice staticSupport) staticSupport) f100
          else f0 in
        Ret (Some {| StaticResistance := staticResistance; StaticSupport := staticSupport;
                     DynamicResistance := BBUpper tech; DynamicSupport := BBLower tech;
                     PriceVsResistance := priceVsResistance; PriceVsSupport := priceVsSupport |})
  end.

(** A decimal constant [m / 10^k] of the source ([0.0001], [1.001], ...):
    for binary64 the correctly rounded quotient of two exactly represented
    integers is the nearest double, which is what the Go compiler stores. *)
Definition dec (m : Z) (k : Z) : F := div (of_int m) (of_int (10 ^ k)).

(** [DefaultConfig]. *)
Definition DefaultConfig : IndicatorConfig F := {|
  SMA5Period := 5; SMA20Period := 20; SMA50Period := 50;
  EMA12Period := 12; EMA26Period := 26;
  MACDFastPeriod := 12; MACDSlowPeriod := 26; MACDSignalPeriod := 9;
  RSIPeriod := 14; RSINeutralValue := of_int 50; RSIMaxValue := of_int 100;
  BBPeriod := 20; BBStdDev := of_int 2;
  BBMinThreshold := dec 1 4; BBDefaultPos := dec 5 1;
  BBUpperAdjust := dec 1001 3; BBLowerAdjust := dec 999 3;
  VolumeMAPeriod := 20; DefaultVolumeRatio := of_int 1;
  SupportResistanceLookback := 20
|}.

(** [AggressiveConfig]. *)
Definition AggressiveConfig : IndicatorConfig F := {|
  SMA5Period := 3; SMA20Period := 10; SMA50Period := 30;
  EMA12Period := 12; EMA26Period := 26;
  MACDFastPeriod := 12; MACDSlowPeriod := 26; MACDSignalPeriod := 9;
  RSIPeriod := 10; RSINeutralValue := of_int 50; RSIMaxValue := of_int 100;
  BBPeriod := 15; BBStdDev := of_int 2;
  BBMinThreshold := dec 1 4; BBDefaultPos := dec 5 1;
  BBUpperAdjust := dec 1001 3; BBLowerAdjust := dec 999 3;
  VolumeMAPeriod := 15; DefaultVolumeRatio := of_int 1;
  SupportResistanceLookback := 15
|}.

(** [ConservativeConfig]. *)
Definition ConservativeConfig : IndicatorConfig F := {|
  SMA5Period := 10; SMA20Period := 30; SMA50Period := 100;
  EMA12Period := 12; EMA26Period := 26;
  MACDFastPeriod := 12; MACDSlowPeriod := 26; MACDSignalPeriod := 9;
  RSIPeriod := 21; RSINeutralValue := of_int 50; RSIMaxValue := of_int 100;
  BBPeriod := 30; BBStdDev := dec 25 1;
  BBMinThreshold := dec 1 4; BBDefaultPos := dec 5 1;
  BBUpperAdjust := dec 1001 3; BBLowerAdjust := dec 999 3;
  VolumeMAPeriod := 30; DefaultVolumeRatio := of_int 1;
  SupportResistanceLookback := 30
|}.

End Calculator.

(** ** Reference definitions, following the specification's wording *)

Section Reference.

Context {F : Type} {arith : Arith F}.

(** The running sum of a sequence, accumulated from [0.0] left to right. *)
Definition sum (l : list F) : F := fold_left add l f0.

(** Arithmetic mean: the sum divided by the number of entries. *)
Definition arithmetic_mean (l : list F) : F := div (sum l) (of_int (len l)).

(** The last [n] entries of a sequence. *)
Definition last_n (n : Z) (l : list F) : list F := skipn (Z.to_nat (len l - n)) l.

(** SMA(values, period): the mean of the last [min(period, len)] entries,
    and 0 when there is no entry to average. *)
Definition SMA_ref (values : list F) (period : Z) : F :=
  let q := Z.min period (len values) in
  if q =? 0 then f0 else arithmetic_mean (last_n q values).

(** The EMA recurrence [ema = value*multiplier + ema*(1-multiplier)]. *)
Definition ema_step (multiplier : F) (ema value : F) : F :=
  add (mul value multiplier) (mul ema (sub f1 multiplier)).

(** EMA(values, period): SMA over everything when the history is shorter
    than the period; otherwise the recurrence with multiplier
    [2/(period+1)], seeded with the SMA of the first [period] values and run
    forward over the values at indices [period .. len-1]. *)
Definition EMA_ref (values : list F) (period : Z) : F :=
  if len values <? period then SMA_ref values (len values)
  else
    fold_left (ema_step (div f2 (of_int (period + 1))))
              (skipn (Z.to_nat period) values)
              (SMA_ref (firstn (Z.to_nat period) values) period).

(** The prefix [closes[:i]]. *)
Definition prefix (closes : list F) (i : Z) : list F := firstn (Z.to_nat i) closes.

(** The historical MACD line: for every prefix length from [slow] up to the
    full length, EMA(fast) minus EMA(slow) of that prefix, in increasing
    order of the prefix length. *)
Definition macd_history (closes : list F) (fast slow : Z) : list F :=
  map (fun i => sub (EMA_ref (prefix closes i) fast) (EMA_ref (prefix closes i) slow))
      (int_range slow (len closes)).

(** Wilder's smoothed average of a sequence [xs]: seeded with the plain
    mean of the first [period] entries, then
    [avg = (avg*(period-1) + new)/period] for every later entry. *)
Definition wilder_step (period : Z) (avg new : F) : F :=
  div (add (mul avg (of_int (period - 1))) new) (of_int period).

Definition wilder_average (period : Z) (xs : list F) : F :=
  fold_left (wilder_step period) (skipn (Z.to_nat period) xs)
            (div (sum (firstn (Z.to_nat period) xs)) (of_int period)).

(** Gains and losses of a value sequence: the positive part of each first
    difference, and the sign-flipped non-positive part. *)
Definition gains_of (values : list F) : list F := map gain_of (price_changes values).
Definition losses_of (values : list F) : list F := map loss_of (price_changes values).

(** The MACD values handed to the signal-line smoothing: the single entry
    [0] when the series is shorter than the slow period, the historical
    MACD line otherwise. *)
Definition macd_values_ref (closes : list F) (fast slow : Z) : list F :=
  if len closes <? slow then [f0] else macd_history closes fast slow.

(** RSI(values, period): the neutral value on insufficient history;
    otherwise from Wilder's averages of the gains and of the losses, with
    the zero-loss cases decided first. *)
Definition RSI_ref (c : IndicatorConfig F) (values : list F) (period : Z) : F :=
  if len values <? period + 1 then RSINeutralValue c
  else
    let avgGain := wilder_average period (gains_of values) in
    let avgLoss := wilder_average period (losses_of values) in
    if feqb avgLoss f0 then
      if feqb avgGain f0 then RSINeutralValue c else RSIMaxValue c
    else sub (RSIMaxValue c) (div (RSIMaxValue c) (add f1 (div avgGain avgLoss))).

(** The window of the Bollinger bands: the last [min(period, len)] values. *)
Definition bb_window (values : list F) (period : Z) : list F :=
  last_n (Z.min period (len values)) values.

(** Population variance of the window around [middle]. *)
Definition bb_variance (values : list F) (period : Z) (middle : F) : F :=
  div (fold_left (fun variance v => add variance (mul (sub v middle) (sub v middle)))
                 (bb_window values period) f0)
      (of_int (Z.min period (len values))).

(** Bollinger bands (middle, upper, lower): the SMA, plus and minus the
    standard deviation times the multiplier; a zero-width band is replaced
    by the middle scaled by the two adjustment factors. *)
Definition BB_ref (c : IndicatorConfig F) (values : list F) (period : Z) (stdDev : F)
    : F * F * F :=
  if Z.min period (len values) =? 0 then (f0, f0, f0)
  else
    let middle := SMA_ref values period in
    let std := fsqrt (bb_variance values period middle) in
    let upper := add middle (mul std stdDev) in
    let lower := sub middle (mul std stdDev) in
    if feqb upper lower
    then (middle, mul middle (BBUpperAdjust c), mul middle (BBLowerAdjust c))
    else (middle, upper, lower).

(** The lookback window of the level stage: the last
    [min(lookback, available)] entries. *)
Definition lookback_window {A : Type} (lookback : Z) (l : list A) : list A :=
  skipn (Z.to_nat (len l - Z.min lookback (len l))) l.

(** The Technical Snapshot of a non-empty bar sequence, stage by stage. *)
Definition Technical_ref (c : IndicatorConfig F) (ohlcvList : list (OHLCV F))
    : TechnicalData F :=
  let closes := extractCloses ohlcvList in
  let highs := extractHighs ohlcvList in
  let lows := extractLows ohlcvList in
  let volumes := extractVolumes ohlcvList in
  let ema12 := EMA_ref closes (EMA12Period c) in
  let ema26 := EMA_ref closes (EMA26Period c) in
  let macd := sub ema12 ema26 in
  let macdSignal :=
    EMA_ref (macd_values_ref closes (MACDFastPeriod c) (MACDSlowPeriod c))
            (MACDSignalPeriod c) in
  let bb := BB_ref c closes (BBPeriod c) (BBStdDev c) in
  let bbUpper := snd (fst bb) in
  let bbLower := snd bb in
  let volumeMA := SMA_ref volumes (VolumeMAPeriod c) in
  let lookback := Z.min (SupportResistanceLookback c) (len highs) in
  {| SMA5 := SMA_ref closes (SMA5Period c);
     SMA20 := SMA_ref closes (SMA20Period c);
     SMA50 := SMA_ref closes (SMA50Period c);
     EMA12 := ema12; EMA26 := ema26;
     MACD := macd; MACDSignal := macdSignal; MACDHistogram := sub macd macdSignal;
     RSI := RSI_ref c closes (RSIPeriod c);
     BBUpper := bbUpper; BBMiddle := fst (fst bb); BBLower := bbLower;
     BBPosition :=
       if fltb bbLower bbUpper && fltb (BBMinThreshold c) (sub bbUpper bbLower)
       then div (sub (last closes f0) bbLower) (sub bbUpper bbLower)
       else BBDefaultPos c;
     VolumeMA := volumeMA;
     VolumeRatio :=
       if (0 <? len volumes) && fltb f0 volumeMA
       then div (last volumes f0) volumeMA
       else DefaultVolumeRatio c;
     Resistance :=
       if 0 <? lookback
       then max (lookback_window (SupportResistanceLookback c) highs)
       else last closes f0;
     Support :=
       if 0 <? lookback
       then min (lookback_window (SupportResistanceLookback c) lows)
       else last closes f0 |}.

(** A period whose successor does not overflow. *)
Definition period_ok (p : Z) : Prop := 0 <= p < max_int.

(** A parameter set whose periods are counts. *)
Definition periods_ok (c : IndicatorConfig F) : Prop :=
  period_ok (SMA5Period c) /\ period_ok (SMA20Period c) /\ period_ok (SMA50Period c) /\
  period_ok (EMA12Period c) /\ period_ok (EMA26Period c) /\
  period_ok (MACDFastPeriod c) /\ period_ok (MACDSlowPeriod c) /\
  period_ok (MACDSignalPeriod c) /\ period_ok (RSIPeriod c) /\
  period_ok (BBPeriod c) /\ period_ok (VolumeMAPeriod c) /\
  period_ok (SupportResistanceLookback c).

End Reference.

(** ** Concrete inputs *)

(** A bar given by its high, low, close and volume (open = close,
    timestamp 0). *)
Definition bar {F : Type} (h l cl v : F) : OHLCV F :=
  {| Timestamp := 0; Open := cl; High := h; Low := l; Close := cl; Volume := v |}.

(** A custom parameter set: [c] with other MACD fast and slow periods. *)
Definition with_macd_periods {F : Type} (c : IndicatorConfig F) (fast slow : Z)
    : IndicatorConfig F :=
  {| SMA5Period := SMA5Period c; SMA20Period := SMA20Period c; SMA50Period := SMA50Period c;
     EMA12Period := EMA12Period c; EMA26Period := EMA26Period c;
     MACDFastPeriod := fast; MACDSlowPeriod := slow;
     MACDSignalPeriod := MACDSignalPeriod c;
     RSIPeriod := RSIPeriod c; RSINeutralValue := RSINeutralValue c;
     RSIMaxValue := RSIMaxValue c;
     BBPeriod := BBPeriod c; BBStdDev := BBStdDev c;
     BBMinThreshold := BBMinThreshold c; BBDefaultPos := BBDefaultPos c;
     BBUpperAdjust := BBUpperAdjust c; BBLowerAdjust := BBLowerAdjust c;
     VolumeMAPeriod := VolumeMAPeriod c; DefaultVolumeRatio := DefaultVolumeRatio c;
     SupportResistanceLookback := SupportResistanceLookback c |}.


(** Three rising bars. *)
Definition rising_bars : list (OHLCV float) :=
  [bar 1 1 1 1; bar 2 2 2 1; bar 4 4 4 1]%float.

(** Twenty-six bars at the same price. *)
Definition flat_bars : list (OHLCV float) := repeat (bar 1 1 1 1)%float 26.

(** One bar whose recorded high (1) lies below its recorded low (2). *)
Definition inverted_bars : list (OHLCV float) := [bar 1 2 1.5 10]%float.

(** A snapshot with every field zero, to stand for any non-nil [tech]. *)
Definition zero_snapshot : TechnicalData float :=
  (mkTechnicalData 0 0 0 0 0 0 0 0 0 0 0 0 0 0 0 0 0)%float.


Definition with_lookback {F : Type} (c : IndicatorConfig F) (lookback : Z)
    : IndicatorConfig F :=
  {| SMA5Period := SMA5Period c; SMA20Period := SMA20Period c; SMA50Period := SMA50Period c;
     EMA12Period := EMA12Period c; EMA26Period := EMA26Period c;
     MACDFastPeriod := MACDFastPeriod c; MACDSlowPeriod := MACDSlowPeriod c;
     MACDSignalPeriod := MACDSignalPeriod c;
     RSIPeriod := RSIPeriod c; RSINeutralValue := RSINeutralValue c;
     RSIMaxValue := RSIMaxValue c;
     BBPeriod := BBPeriod c; BBStdDev := BBStdDev c;
     BBMinThreshold := BBMinThreshold c; BBDefaultPos := BBDefaultPos c;
     BBUpperAdjust := BBUpperAdjust c; BBLowerAdjust := BBLowerAdjust c;
     VolumeMAPeriod := VolumeMAPeriod c; DefaultVolumeRatio := DefaultVolumeRatio c;
     SupportResistanceLookback := lookback |}.

(** * Scheduling (package [timedschedulers] and [main]) *)

(** [time.Duration] is an [int64] count of nanoseconds. *)
Definition Second : Z := 1000000000.
Definition Minute : Z := 60 * Second.
Definition Hour : Z := 60 * Minute.

(** [Duration.Minutes()]: [float64(d / Minute) + float64(d % Minute) / (60 * 1e9)],
    with Go's truncating integer division. *)
Definition Minutes (d : Z) : float :=
  (of_int (Z.quot d Minute) + of_int (Z.rem d Minute) / 60000000000)%float.

(** [int(f)] of a [float64]: the fraction is discarded.  Outside the range
    of [int] (and for NaN) Go leaves the result to the implementation; amd64
    gives the smallest [int]. *)
Definition int_of_float64 (f : float) : Z :=
  match Prim2SF f with
  | S754_zero _ => 0
  | S754_finite s m e =>
      let a := if 0 <=? e then Z.pos m * 2 ^ e else Z.pos m / 2 ^ (- e) in
      let v := if s then - a else a in
      if (min_int <=? v) && (v <=? max_int) then v else min_int
  | _ => min_int
  end.

(** [for minute := 0; minute < 60; minute += step { points = append(points, minute) }],
    run for at most [fuel] iterations: [None] when the loop has not ended
    by then. *)
Fixpoint align_loop (fuel : nat) (minute step : Z) (points : list Z)
    : option (list Z) :=
  if minute <? 60 then
    match fuel with
    | O => None
    | S fuel' => align_loop fuel' (wrap64 (minute + step)) step (points ++ [minute])
    end
  else Some points.

(** The interval clamped to 1..60 minutes. *)
Definition clamp_minutes (intervalMinutes : Z) : Z :=
  let m := if intervalMinutes <? 1 then 1 else intervalMinutes in
  if 60 <? m then 60 else m.

(** [calculateAlignMinutes]; sixty iterations are granted to its loop. *)
Definition calculateAlignMinutes (interval : Z) : option (list Z) :=
  align_loop 60 0 (clamp_minutes (int_of_float64 (Minutes interval))) [].

(** [main.calculateAlignPoints]: the same loop, without the clamp. *)
Definition calculateAlignPoints (fuel : nat) (intervalMinutes : Z) : option (list Z) :=
  align_loop fuel 0 intervalMinutes [].

(** [Scheduler.calculateNextAlignedTime].  The clock is read as the minute
    of the hour, and the result is given in nanoseconds after the start of
    the current hour: [time.Date(..., now.Hour(), nextMinute, 0, 0, ...)],
    plus one hour when no alignment point lies after the current minute,
    plus the delay. *)
Definition calculateNextAlignedTime (alignMinutes : list Z) (delay : Z)
    (currentMinute : Z) : outcome Z :=
  match find (fun min => currentMinute <? min) alignMinutes with
  | Some nextMinute => Ret (nextMinute * Minute + delay)
  | None =>
      nextMinute <- index alignMinutes 0 ;;
      Ret (nextMinute * Minute + Hour + delay)
  end.

(** The alignment points of an interval of [m] minutes: the multiples of
    [m] below 60. *)
Definition multiples_below_60 (m : Z) : list Z :=
  map (fun k => k * m) (int_range 0 (59 / m)).

(** * Configuration (package [config]) and the exchange factory *)

Module config.

Definition ExchangeOKX : string := "okx".
Definition ExchangeBinance : string := "binance".
Definition TradingModeSpot : string := "spot".
Definition TradingModeFutures : string := "futures".

Record RiskManagementConfig (F : Type) : Type := mkRiskManagementConfig {
  EnableStopLoss : bool;
  EnableTakeProfit : bool;
  StopLossPercent : F;
  TakeProfitPercent : F;
  EnableTrailingStop : bool;
  TrailingStopDistance : F;
  CheckIntervalSeconds : Z
}.
Arguments mkRiskManagementConfig {F}.
Arguments EnableStopLoss {F}.
Arguments EnableTakeProfit {F}.
Arguments StopLossPercent {F}.
Arguments TakeProfitPercent {F}.
Arguments EnableTrailingStop {F}.
Arguments TrailingStopDistance {F}.
Arguments CheckIntervalSeconds {F}.

Record TradingConfig : Type := mkTradingConfig {
  SymbolA : string;
  SymbolB : string;
  Amount : float;
  Leverage : Z;
  Timeframe : string;
  TestMode : bool;
  DataPoints : Z;
  ScheduleIntervalMinutes : Z;
  TradingMode : string;
  RiskManagement : RiskManagementConfig float
}.

Record APIConfig : Type := mkAPIConfig {
  DeepSeekAPIKey : string;
  DeepSeekBaseURL : string;
  OKXAPIKey : string;
  OKXSecret : string;
  OKXPassword : string;
  BinanceAPIKey : string;
  BinanceSecret : string;
  ExchangeType : string
}.

Record LoggingConfig : Type := mkLoggingConfig {
  LogLevelConsole : string;
  LogLevelFile : string;
  LogDir : string;
  EnableFileLogging : bool
}.

Record Config : Type := mkConfig {
  Trading : TradingConfig;
  API : APIConfig;
  Logging : LoggingConfig
}.

(** The errors [Validate] returns, one constructor per [fmt.Errorf]. *)
Inductive ValidateError : Type :=
| DeepSeekKeyMissing
| OKXCredentialsIncomplete
| BinanceCredentialsIncomplete
| UnsupportedExchange (exchangeType : string)
| AmountNotPositive
| LeverageNotPositive
| UnsupportedTradingMode (tradingMode : string).

(** [Validate]: [None] is Go's [nil] error. *)
Definition Validate (c : Config) : option ValidateError :=
  if (DeepSeekAPIKey (API c) =? "")%string then Some DeepSeekKeyMissing
  else
    let exchangeType := ExchangeType (API c) in
    let credentials :=
      if (exchangeType =? ExchangeOKX)%string then
        if (OKXAPIKey (API c) =? "")%string || (OKXSecret (API c) =? "")%string
           || (OKXPassword (API c) =? "")%string
        then Some OKXCredentialsIncomplete else None
      else if (exchangeType =? ExchangeBinance)%string then
        if (BinanceAPIKey (API c) =? "")%string || (BinanceSecret (API c) =? "")%string
        then Some BinanceCredentialsIncomplete else None
      else Some (UnsupportedExchange exchangeType) in
    match credentials with
    | Some e => Some e
    | None =>
        if PrimFloat.leb (Amount (Trading c)) 0 then Some AmountNotPositive
        else
          let tradingMode :=
            if (TradingMode (Trading c) =? "")%string then TradingModeFutures
            else TradingMode (Trading c) in
          if (tradingMode =? TradingModeSpot)%string then None
          else if (tradingMode =? TradingModeFutures)%string then
            if Leverage (Trading c) <=? 0 then Some LeverageNotPositive else None
          else Some (UnsupportedTradingMode tradingMode)
    end.

Definition GetTradingMode (c : Config) : string :=
  if (TradingMode (Trading c) =? "")%string then TradingModeFutures
  else TradingMode (Trading c).

Definition IsSpotMode (c : Config) : bool :=
  (GetTradingMode c =? TradingModeSpot)%string.

Definition IsFuturesMode (c : Config) : bool :=
  (GetTradingMode c =? TradingModeFutures)%string.

End config.

Module exchange.

(** The fields of [OKXClient] that its pure methods read. *)
Record OKXClient : Type := mkOKXClient {
  apiKey : string;
  secret : string;
  password : string;
  tradingMode : string
}.

(** [NewOKXClient]: [nets.NewHttpClient] has no failing path, so the client
    is never [nil]. *)
Definition NewOKXClient (cfg : config.APIConfig) (tradingMode : string) : option OKXClient :=
  Some {| apiKey := config.OKXAPIKey cfg;
          secret := config.OKXSecret cfg;
          password := config.OKXPassword cfg;
          tradingMode := tradingMode |}.

Inductive NewExchangeError : Type :=
| OKXClientFailed
| UnsupportedExchangeType (exchangeType : string).

Definition NewExchange (cfg : config.APIConfig) (tradingMode : string)
    : OKXClient + NewExchangeError :=
  if (config.ExchangeType cfg =? config.ExchangeOKX)%string then
    match NewOKXClient cfg tradingMode with
    | Some client => inl client
    | None => inr OKXClientFailed
    end
  else inr (UnsupportedExchangeType (config.ExchangeType cfg)).

Definition GetSupportedExchanges : list string := ["okx"; "binance"]%string.

End exchange.

(** A complete futures configuration for the exchange type given. *)
Definition sample_config (exchangeType : string) : config.Config :=
  {| config.Trading :=
       {| config.SymbolA := "BTC"; config.SymbolB := "USDT";
          config.Amount := 100%float; config.Leverage := 10;
          config.Timeframe := "15m"; config.TestMode := false;
          config.DataPoints := 96; config.ScheduleIntervalMinutes := 15;
          config.TradingMode := "";
          config.RiskManagement :=
            {| config.EnableStopLoss := true; config.EnableTakeProfit := true;
               config.StopLossPercent := 2%float; config.TakeProfitPercent := 4%float;
               config.EnableTrailingStop := false;
               config.TrailingStopDistance := 1%float;
               config.CheckIntervalSeconds := 10 |} |};
     config.API :=
       {| config.DeepSeekAPIKey := "k"; config.DeepSeekBaseURL := "u";
          config.OKXAPIKey := "a"; config.OKXSecret := "s"; config.OKXPassword := "p";
          config.BinanceAPIKey := "b"; config.BinanceSecret := "t";
          config.ExchangeType := exchangeType |};
     config.Logging :=
       {| config.LogLevelConsole := "INFO"; config.LogLevelFile := "DEBUG";
          config.LogDir := "logs"; config.EnableFileLogging := false |} |}.

(** * The OKX client's pure helpers (package [exchange]) *)

(** Go strings are byte sequences, as Rocq's [string]. [strings.Split(s, sep)]
    for a one-byte separator: the pieces between the occurrences of [sep],
    one piece more than there are occurrences. *)
Fixpoint Split (s : string) (sep : Ascii.ascii) : list string :=
  match s with
  | EmptyString => [EmptyString]
  | String c s' =>
      if Ascii.eqb c sep then EmptyString :: Split s' sep
      else match Split s' sep with
           | p :: ps => String c p :: ps
           | [] => [String c EmptyString]
           end
  end.

(** [strings.Contains(s, sep)] for a one-byte [sep]. *)
Fixpoint Contains (s : string) (sep : Ascii.ascii) : bool :=
  match s with
  | EmptyString => false
  | String c s' => Ascii.eqb c sep || Contains s' sep
  end.

(** [fmt.Sprintf("%s/%s:%s", symbolA, symbolB, symbolB)]. *)
Definition ParseSymbols (symbolA symbolB : string) : string :=
  (symbolA ++ "/" ++ symbolB ++ ":" ++ symbolB)%string.

Definition convertSymbol (c : exchange.OKXClient) (symbol : string) : string :=
  match Split symbol "/"%char with
  | [base; rest] =>
      match Split rest ":"%char with
      | quote :: _ =>
          if (exchange.tradingMode c =? config.TradingModeSpot)%string
          then (base ++ "-" ++ quote)%string
          else (base ++ "-" ++ quote ++ "-SWAP")%string
      | [] => symbol
      end
  | _ => symbol
  end.

(** [s[i] = x] on a slice. *)
Definition set_index {A : Type} (s : list A) (i : Z) (x : A) : outcome (list A) :=
  if (i <? 0) || (len s <=? i) then Panic
  else Ret (firstn (Z.to_nat i) s ++ x :: skipn (S (Z.to_nat i)) s).

(** [for i, j := 0, len(data)-1; i < j; i, j = i+1, j-1 { data[i], data[j] = data[j], data[i] }]
    from the state [(i, j, data)], for at most [fuel] iterations. *)
Fixpoint reverse_loop {A : Type} (fuel : nat) (i j : Z) (data : list A)
    : outcome (option (list A)) :=
  if i <? j then
    match fuel with
    | O => Ret None
    | S fuel' =>
        a <- index data j ;;
        b <- index data i ;;
        data1 <- set_index data i a ;;
        data2 <- set_index data1 j b ;;
        reverse_loop fuel' (i + 1) (j - 1) data2
    end
  else Ret (Some data).

(** [reverseOHLCV]: the slice after the in-place reversal; as many
    iterations as the slice has elements are granted. *)
Definition reverseOHLCV {A : Type} (data : list A) : outcome (option (list A)) :=
  reverse_loop (List.length data) 0 (len data - 1) data.

Definition spot_client : exchange.OKXClient :=
  {| exchange.apiKey := "a"; exchange.secret := "s"; exchange.password := "p";
     exchange.tradingMode := "spot" |}.

Definition futures_client : exchange.OKXClient :=
  {| exchange.apiKey := "a"; exchange.secret := "s"; exchange.password := "p";
     exchange.tradingMode := "futures" |}.

(** * Signals and sessions (packages [models] and [ai]) *)

Module TradeSignal.
Record t : Type := mk {
  Signal : string;
  Reason : string;
  Confidence : string;
  Timestamp : string;
  IsFallback : bool;
  TradingPair : string
}.
End TradeSignal.

Module SignalStats.
Record t : Type := mk {
  BuyCount : Z;
  SellCount : Z;
  HoldCount : Z;
  Total : Z
}.
End SignalStats.

Module SessionContext.
Record t : Type := mk {
  TradingPair : string;
  SignalHistory : list TradeSignal.t;
  LastUpdate : string;
  Stats : SignalStats.t
}.
End SessionContext.

Module ai.

(** [DeepSeekClient.sessions], a Go map from trading pair to a pointer to
    its session: a finite map read by [m k] and written by [store]; the
    session is reached through the map alone, so an update of the session
    is an update of the map. *)
Definition sessions : Type := string -> option SessionContext.t.

Definition no_sessions : sessions := fun _ => None.

Definition store (m : sessions) (k : string) (v : SessionContext.t) : sessions :=
  fun k' => if (k' =? k)%string then Some v else m k'.

(** [getOrCreateSession]; [now] is the formatted [time.Now()]. *)
Definition getOrCreateSession (now : string) (m : sessions) (tradingPair : string)
    : sessions * SessionContext.t :=
  match m tradingPair with
  | Some session => (m, session)
  | None =>
      let session :=
        {| SessionContext.TradingPair := tradingPair;
           SessionContext.SignalHistory := [];
           SessionContext.LastUpdate := now;
           SessionContext.Stats :=
             {| SignalStats.BuyCount := 0; SignalStats.SellCount := 0;
                SignalStats.HoldCount := 0; SignalStats.Total := 0 |} |} in
      (store m tradingPair session, session)
  end.

(** The [switch signal.Signal] of [updateSession]. *)
Definition count_signal (stats : SignalStats.t) (signal : string) : SignalStats.t :=
  let total := wrap64 (SignalStats.Total stats + 1) in
  if (signal =? "BUY")%string then
    {| SignalStats.BuyCount := wrap64 (SignalStats.BuyCount stats + 1);
       SignalStats.SellCount := SignalStats.SellCount stats;
       SignalStats.HoldCount := SignalStats.HoldCount stats;
       SignalStats.Total := total |}
  else if (signal =? "SELL")%string then
    {| SignalStats.BuyCount := SignalStats.BuyCount stats;
       SignalStats.SellCount := wrap64 (SignalStats.SellCount stats + 1);
       SignalStats.HoldCount := SignalStats.HoldCount stats;
       SignalStats.Total := total |}
  else if (signal =? "HOLD")%string then
    {| SignalStats.BuyCount := SignalStats.BuyCount stats;
       SignalStats.SellCount := SignalStats.SellCount stats;
       SignalStats.HoldCount := wrap64 (SignalStats.HoldCount stats + 1);
       SignalStats.Total := total |}
  else
    {| SignalStats.BuyCount := SignalStats.BuyCount stats;
       SignalStats.SellCount := SignalStats.SellCount stats;
       SignalStats.HoldCount := SignalStats.HoldCount stats;
       SignalStats.Total := total |}.

(** [updateSession]: the session is read from the map without a check, so
    a missing one is a nil-pointer dereference. *)
Definition updateSession (m : sessions) (tradingPair : string) (signal : TradeSignal.t)
    : outcome sessions :=
  match m tradingPair with
  | None => Panic
  | Some session =>
      let history := SessionContext.SignalHistory session ++ [signal] in
      let stats := count_signal (SessionContext.Stats session) (TradeSignal.Signal signal) in
      history' <- (if 30 <? len history then slice_from history 1 else Ret history) ;;
      Ret (store m tradingPair
             {| SessionContext.TradingPair := SessionContext.TradingPair session;
                SessionContext.SignalHistory := history';
                SessionContext.LastUpdate := TradeSignal.Timestamp signal;
                SessionContext.Stats := stats |})
  end.

Definition GetSessionInfo (m : sessions) (tradingPair : string) : option SessionContext.t :=
  m tradingPair.

Definition createFallbackSignal (now : string) (tradingPair : string) : TradeSignal.t :=
  {| TradeSignal.Signal := "HOLD";
     TradeSignal.Reason := "因技术分析暂时不可用，采取保守策略";
     TradeSignal.Confidence := "LOW";
     TradeSignal.Timestamp := now;
     TradeSignal.IsFallback := true;
     TradeSignal.TradingPair := tradingPair |}.

(** The end of [parseSignal]: [decoded] is what the JSON object found in
    the reply unmarshals to, [None] when there is no object or it does not
    unmarshal; a signal needs a non-empty [Signal] and [Reason]. *)
Definition parseSignal (decoded : option TradeSignal.t) : option TradeSignal.t :=
  match decoded with
  | None => None
  | Some signal =>
      if (TradeSignal.Signal signal =? "")%string then None
      else if (TradeSignal.Reason signal =? "")%string then None
      else Some signal
  end.

(** [AnalyzeMarket] around the HTTP exchange: [reply] is [None] when the
    request, the transport or the decoding of the response fails (an error
    is returned) and otherwise the decoded content handed to [parseSignal].
    The result is the session map afterwards and the signal returned
    ([None] for an error). *)
Definition AnalyzeMarket (now : string) (m : sessions) (tradingPair : string)
    (reply : option (option TradeSignal.t))
    : outcome (sessions * option TradeSignal.t) :=
  let (m1, _) := getOrCreateSession now m tradingPair in
  match reply with
  | None => Ret (m1, None)
  | Some decoded =>
      match parseSignal decoded with
      | None => Ret (m1, Some (createFallbackSignal now tradingPair))
      | Some parsed =>
          let signal :=
            {| TradeSignal.Signal := TradeSignal.Signal parsed;
               TradeSignal.Reason := TradeSignal.Reason parsed;
               TradeSignal.Confidence := TradeSignal.Confidence parsed;
               TradeSignal.Timestamp := now;
               TradeSignal.IsFallback := TradeSignal.IsFallback parsed;
               TradeSignal.TradingPair := tradingPair |} in
          m2 <- updateSession m1 tradingPair signal ;;
          Ret (m2, Some signal)
      end
  end.

(** [updateSession] for each signal of a list in turn. *)
Fixpoint updateSession_all (m : sessions) (tradingPair : string)
    (signals : list TradeSignal.t) : outcome sessions :=
  match signals with
  | [] => Ret m
  | signal :: rest =>
      m' <- updateSession m tradingPair signal ;;
      updateSession_all m' tradingPair rest
  end.

(** How many of the signals carry the label. *)
Definition labelled (label : string) (signals : list TradeSignal.t) : Z :=
  len (filter (fun s => (TradeSignal.Signal s =? label)%string) signals).

End ai.

Definition sample_signal (signal confidence : string) : TradeSignal.t :=
  {| TradeSignal.Signal := signal; TradeSignal.Reason := "r";
     TradeSignal.Confidence := confidence; TradeSignal.Timestamp := "t";
     TradeSignal.IsFallback := false; TradeSignal.TradingPair := "BTC-USDT" |}.

(** * Positions, orders and the risk manager (packages [models] and [strategy]) *)

Module Position.
Record t (F : Type) : Type := mk {
  Side : string;
  Size : F;
  EntryPrice : F;
  UnrealizedPnL : F;
  Leverage : Z;
  Symbol : string;
  StopLoss : F;
  TakeProfit : F;
  TrailingStop : F;
  HighestPrice : F;
  LowestPrice : F
}.
Arguments mk {F}.
Arguments Side {F}.
Arguments Size {F}.
Arguments EntryPrice {F}.
Arguments UnrealizedPnL {F}.
Arguments Leverage {F}.
Arguments Symbol {F}.
Arguments StopLoss {F}.
Arguments TakeProfit {F}.
Arguments TrailingStop {F}.
Arguments HighestPrice {F}.
Arguments LowestPrice {F}.
End Position.

(** A call of [Exchange.PlaceOrder(symbol, side, amount, params)]: the side,
    the amount and the two parameters the callers set. *)
Module Order.
Record t (F : Type) : Type := mk {
  side : string;
  amount : F;
  reduceOnly : bool;
  posSide : option string
}.
Arguments mk {F}.
Arguments side {F}.
Arguments amount {F}.
Arguments reduceOnly {F}.
Arguments posSide {F}.
End Order.

Section RiskManager.

Context {F : Type} {arith : Arith F}.

(** [rm.config.Trading.RiskManagement]. *)
Variable cfg : config.RiskManagementConfig F.

(** [a <= b] on [float64]: [a < b] or [a == b] (false when either is NaN). *)
Definition fleb (a b : F) : bool := fltb a b || feqb a b.

(** Assignments to the fields of [*pos]. *)
Definition set_StopLoss (pos : Position.t F) (v : F) : Position.t F :=
  Position.mk (Position.Side pos) (Position.Size pos) (Position.EntryPrice pos)
    (Position.UnrealizedPnL pos) (Position.Leverage pos) (Position.Symbol pos)
    v (Position.TakeProfit pos) (Position.TrailingStop pos)
    (Position.HighestPrice pos) (Position.LowestPrice pos).

Definition set_TakeProfit (pos : Position.t F) (v : F) : Position.t F :=
  Position.mk (Position.Side pos) (Position.Size pos) (Position.EntryPrice pos)
    (Position.UnrealizedPnL pos) (Position.Leverage pos) (Position.Symbol pos)
    (Position.StopLoss pos) v (Position.TrailingStop pos)
    (Position.HighestPrice pos) (Position.LowestPrice pos).

Definition set_TrailingStop (pos : Position.t F) (v : F) : Position.t F :=
  Position.mk (Position.Side pos) (Position.Size pos) (Position.EntryPrice pos)
    (Position.UnrealizedPnL pos) (Position.Leverage pos) (Position.Symbol pos)
    (Position.StopLoss pos) (Position.TakeProfit pos) v
    (Position.HighestPrice pos) (Position.LowestPrice pos).

Definition set_HighestPrice (pos : Position.t F) (v : F) : Position.t F :=
  Position.mk (Position.Side pos) (Position.Size pos) (Position.EntryPrice pos)
    (Position.UnrealizedPnL pos) (Position.Leverage pos) (Position.Symbol pos)
    (Position.StopLoss pos) (Position.TakeProfit pos) (Position.TrailingStop pos)
    v (Position.LowestPrice pos).

Definition set_LowestPrice (pos : Position.t F) (v : F) : Position.t F :=
  Position.mk (Position.Side pos) (Position.Size pos) (Position.EntryPrice pos)
    (Position.UnrealizedPnL pos) (Position.Leverage pos) (Position.Symbol pos)
    (Position.StopLoss pos) (Position.TakeProfit pos) (Position.TrailingStop pos)
    (Position.HighestPrice pos) v.

(** [EntryPrice * (1 - percent/100)] and [EntryPrice * (1 + percent/100)]. *)
Definition below (price percent : F) : F := mul price (sub f1 (div percent f100)).
Definition above (price percent : F) : F := mul price (add f1 (div percent f100)).

(** [calculateStopLossTakeProfit]: the position after its assignments. *)
Definition calculateStopLossTakeProfit (pos : Position.t F) : Position.t F :=
  let entry := Position.EntryPrice pos in
  let pos1 :=
    if (Position.Side pos =? "long")%string then
      let p1 := if config.EnableStopLoss cfg
                then set_StopLoss pos (below entry (config.StopLossPercent cfg)) else pos in
      let p2 := if config.EnableTakeProfit cfg
                then set_TakeProfit p1 (above entry (config.TakeProfitPercent cfg)) else p1 in
      set_LowestPrice (set_HighestPrice p2 entry) entry
    else if (Position.Side pos =? "short")%string then
      let p1 := if config.EnableStopLoss cfg
                then set_StopLoss pos (above entry (config.StopLossPercent cfg)) else pos in
      let p2 := if config.EnableTakeProfit cfg
                then set_TakeProfit p1 (below entry (config.TakeProfitPercent cfg)) else p1 in
      set_LowestPrice (set_HighestPrice p2 entry) entry
    else pos in
  if config.EnableTrailingStop cfg then
    if negb (config.EnableStopLoss cfg) || feqb (Position.StopLoss pos1) f0 then
      if (Position.Side pos1 =? "long")%string then
        set_TrailingStop pos1 (below entry (config.TrailingStopDistance cfg))
      else if (Position.Side pos1 =? "short")%string then
        set_TrailingStop pos1 (above entry (config.TrailingStopDistance cfg))
      else pos1
    else set_TrailingStop pos1 (Position.StopLoss pos1)
  else pos1.

(** [UpdatePosition]: the new [rm.currentPosition], from the current one
    and the position handed over ([None] is [nil]). *)
Definition UpdatePosition (current pos : option (Position.t F)) : option (Position.t F) :=
  match pos with
  | None => None
  | Some pos =>
      match current with
      | None => Some (calculateStopLossTakeProfit pos)
      | Some cur =>
          if negb (feqb (Position.EntryPrice cur) (Position.EntryPrice pos))
             || negb (Position.Side cur =? Position.Side pos)%string
          then Some (calculateStopLossTakeProfit pos)
          else Some pos
      end
  end.

(** The update of the highest and the lowest price in [checkPosition]. *)
Definition track_extremes (pos : Position.t F) (currentPrice : F) : Position.t F :=
  let p1 := if fltb (Position.HighestPrice pos) currentPrice
            then set_HighestPrice pos currentPrice else pos in
  if fltb currentPrice (Position.LowestPrice p1)
  then set_LowestPrice p1 currentPrice else p1.

Definition updateTrailingStop (pos : Position.t F) (currentPrice : F) : Position.t F :=
  let trailingDistance := div (config.TrailingStopDistance cfg) f100 in
  if (Position.Side pos =? "long")%string then
    let newTrailingStop := mul (Position.HighestPrice pos) (sub f1 trailingDistance) in
    if fltb (Position.TrailingStop pos) newTrailingStop
    then set_TrailingStop pos newTrailingStop else pos
  else if (Position.Side pos =? "short")%string then
    let newTrailingStop := mul (Position.LowestPrice pos) (add f1 trailingDistance) in
    if fltb newTrailingStop (Position.TrailingStop pos)
    then set_TrailingStop pos newTrailingStop else pos
  else pos.

Definition shouldClosePosition (pos : Position.t F) (currentPrice : F) : bool :=
  if (Position.Side pos =? "long")%string then
    if config.EnableStopLoss cfg
       && ((config.EnableTrailingStop cfg && fltb f0 (Position.TrailingStop pos)
            && fleb currentPrice (Position.TrailingStop pos))
           || (fltb f0 (Position.StopLoss pos) && fleb currentPrice (Position.StopLoss pos)))
    then true
    else config.EnableTakeProfit cfg && fltb f0 (Position.TakeProfit pos)
         && fleb (Position.TakeProfit pos) currentPrice
  else if (Position.Side pos =? "short")%string then
    if config.EnableStopLoss cfg
       && ((config.EnableTrailingStop cfg && fltb f0 (Position.TrailingStop pos)
            && fleb (Position.TrailingStop pos) currentPrice)
           || (fltb f0 (Position.StopLoss pos) && fleb (Position.StopLoss pos) currentPrice))
    then true
    else config.EnableTakeProfit cfg && fltb f0 (Position.TakeProfit pos)
         && fleb currentPrice (Position.TakeProfit pos)
  else false.

(** The order [closePosition] places. *)
Definition closing_order (pos : Position.t F) : Order.t F :=
  if (Position.Side pos =? "long")%string
  then Order.mk "sell" (Position.Size pos) true (Some "long"%string)
  else Order.mk "buy" (Position.Size pos) true (Some "short"%string).

(** What [checkPosition] does to the position before it decides. *)
Definition observe (pos : Position.t F) (currentPrice : F) : Position.t F :=
  let pos1 := track_extremes pos currentPrice in
  if config.EnableTrailingStop cfg then updateTrailingStop pos1 currentPrice else pos1.

(** [checkPosition]: [ticker] is the last price, [None] when [FetchTicker]
    fails, and [placed] tells whether the closing order, if one is placed,
    succeeds.  The result is [rm.currentPosition] afterwards and the order
    placed, if any. *)
Definition checkPosition (current : option (Position.t F)) (ticker : option F)
    (placed : bool) : option (Position.t F) * option (Order.t F) :=
  match current with
  | None => (None, None)
  | Some pos =>
      match ticker with
      | None => (Some pos, None)
      | Some currentPrice =>
          let pos' := observe pos currentPrice in
          if shouldClosePosition pos' currentPrice
          then (if placed then None else Some pos', Some (closing_order pos'))
          else (Some pos', None)
      end
  end.

End RiskManager.

(** The position [FetchPosition] builds from an exchange record: the stop
    and extreme-price fields are left at zero. *)
Definition fetched_position {F : Type} {arith : Arith F}
    (posSide : string) (size entryPrice upl : F) (leverage : Z) (symbol : string)
    : Position.t F :=
  Position.mk posSide size entryPrice upl leverage symbol f0 f0 f0 f0 f0.

Definition risk_config {F : Type} {arith : Arith F}
    (stopLoss takeProfit trailing : bool) (stopLossPercent takeProfitPercent distance : Z)
    : config.RiskManagementConfig F :=
  config.mkRiskManagementConfig stopLoss takeProfit (of_int stopLossPercent)
    (of_int takeProfitPercent) trailing (of_int distance) 10.

(** [checkPosition] at each tick of the monitor loop in turn: every tick
    gives the ticker's price ([None] when the fetch fails) and whether a
    closing order would succeed; the orders placed are collected. *)
Fixpoint checkPosition_all {F : Type} {arith : Arith F}
    (cfg : config.RiskManagementConfig F) (current : option (Position.t F))
    (ticks : list (option F * bool)) : option (Position.t F) * list (Order.t F) :=
  match ticks with
  | [] => (current, [])
  | (ticker, placed) :: rest =>
      let (current', order) := checkPosition cfg current ticker placed in
      let (final, orders) := checkPosition_all cfg current' rest in
      (final, match order with Some o => o :: orders | None => orders end)
  end.

(** * The trading bot (package [strategy]) *)

Section TradingBot.

(** [bot.config], and the exchange as the bot meets it: given the calls of
    [PlaceOrder] made so far, whether the next one succeeds and which
    balance [FetchBalance] reports for a currency ([None] for an error). *)
Variable cfg : config.Config.
Variable place_ok : list (Order.t float) -> Order.t float -> bool.
Variable balance : list (Order.t float) -> string -> option float.

(** A function of the bot returns the calls of [PlaceOrder] made so far and
    whether it returned an error. *)
Definition trade : Type := (list (Order.t float) * bool)%type.

Definition succeeded (calls : list (Order.t float)) : trade := (calls, false).
Definition failed (calls : list (Order.t float)) : trade := (calls, true).

(** One [PlaceOrder] call whose error is returned wrapped. *)
Definition place (calls : list (Order.t float)) (order : Order.t float) : trade :=
  (calls ++ [order], negb (place_ok calls order)).

Definition executeBuy (currentPosition : option (Position.t float))
    (amountInBase : float) (calls : list (Order.t float)) : trade :=
  let open_long calls := place calls (Order.mk "buy" amountInBase false (Some "long"%string)) in
  match currentPosition with
  | Some pos =>
      if (Position.Side pos =? "short")%string then
        let (calls1, err) :=
          place calls (Order.mk "buy" (Position.Size pos) true (Some "short"%string)) in
        if err then failed calls1 else open_long calls1
      else if (Position.Side pos =? "long")%string then succeeded calls
      else open_long calls
  | None => open_long calls
  end.

Definition executeSell (currentPosition : option (Position.t float))
    (amountInBase : float) (calls : list (Order.t float)) : trade :=
  let open_short calls := place calls (Order.mk "sell" amountInBase false (Some "short"%string)) in
  match currentPosition with
  | Some pos =>
      if (Position.Side pos =? "long")%string then
        let (calls1, err) :=
          place calls (Order.mk "sell" (Position.Size pos) true (Some "long"%string)) in
        if err then failed calls1 else open_short calls1
      else if (Position.Side pos =? "short")%string then succeeded calls
      else open_short calls
  | None => open_short calls
  end.

Definition executeFuturesTrade (signal : TradeSignal.t)
    (currentPosition : option (Position.t float)) (amountInBase : float)
    (calls : list (Order.t float)) : trade :=
  if (TradeSignal.Signal signal =? "BUY")%string
  then executeBuy currentPosition amountInBase calls
  else if (TradeSignal.Signal signal =? "SELL")%string
  then executeSell currentPosition amountInBase calls
  else succeeded calls.

Definition executeSpotTrade (signal : TradeSignal.t) (amountInBase : float)
    (calls : list (Order.t float)) : trade :=
  let trading := config.Trading cfg in
  if (TradeSignal.Signal signal =? "BUY")%string then
    let short_of_funds :=
      match balance calls (config.SymbolB trading) with
      | None => false
      | Some usdtBalance => PrimFloat.ltb usdtBalance (config.Amount trading)
      end in
    if short_of_funds then failed calls
    else place calls (Order.mk "buy" amountInBase false None)
  else if (TradeSignal.Signal signal =? "SELL")%string then
    match balance calls (config.SymbolA trading) with
    | None => failed calls
    | Some btcBalance =>
        if PrimFloat.ltb btcBalance amountInBase then
          if PrimFloat.ltb 0 btcBalance
          then place calls (Order.mk "sell" btcBalance false None)
          else failed calls
        else place calls (Order.mk "sell" amountInBase false None)
    end
  else succeeded calls.

(** [placeOrder]; [price] is [marketData.Price]. *)
Definition placeOrder (signal : TradeSignal.t) (price : float)
    (currentPosition : option (Position.t float)) (calls : list (Order.t float)) : trade :=
  let amountInBase := PrimFloat.div (config.Amount (config.Trading cfg)) price in
  if config.IsSpotMode cfg
  then executeSpotTrade signal amountInBase calls
  else executeFuturesTrade signal currentPosition amountInBase calls.

Definition executeTrade (signal : TradeSignal.t) (price : float)
    (currentPosition : option (Position.t float)) (calls : list (Order.t float)) : trade :=
  let testMode := config.TestMode (config.Trading cfg) in
  if (TradeSignal.Confidence signal =? "LOW")%string && negb testMode then succeeded calls
  else if testMode then succeeded calls
  else if (TradeSignal.Signal signal =? "HOLD")%string then succeeded calls
  else placeOrder signal price currentPosition calls.

End TradingBot.

(** An exchange on which every order succeeds and every balance is 1000. *)
Definition always_ok : list (Order.t float) -> Order.t float -> bool := fun _ _ => true.
Definition balance_1000 : list (Order.t float) -> string -> option float :=
  fun _ _ => Some 1000%float.

(** [sample_config] in spot mode. *)
Definition sample_spot_config : config.Config :=
  let c := sample_config "okx" in
  let t := config.Trading c in
  {| config.Trading :=
       {| config.SymbolA := config.SymbolA t; config.SymbolB := config.SymbolB t;
          config.Amount := config.Amount t; config.Leverage := 1;
          config.Timeframe := config.Timeframe t; config.TestMode := false;
          config.DataPoints := config.DataPoints t;
          config.ScheduleIntervalMinutes := config.ScheduleIntervalMinutes t;
          config.TradingMode := "spot";
          config.RiskManagement := config.RiskManagement t |};
     config.API := config.API c;
     config.Logging := config.Logging c |}.

(** The direction of a BUY or SELL signal: the order side, the position
    side it opens and the position side it closes. *)
Definition order_side (signal : TradeSignal.t) : string :=
  if (TradeSignal.Signal signal =? "BUY")%string then "buy" else "sell".
Definition opened_side (signal : TradeSignal.t) : string :=
  if (TradeSignal.Signal signal =? "BUY")%string then "long" else "short".
Definition closed_side (signal : TradeSignal.t) : string :=
  if (TradeSignal.Signal signal =? "BUY")%string then "short" else "long".

(** * Market data (package [models] and [TradingBot.fetchMarketData]) *)

Module MarketData.
Record t (F : Type) : Type := mk {
  Price : F;
  Timestamp : string;
  High : F;
  Low : F;
  Volume : F;
  Timeframe : string;
  PriceChange : F;
  KlineData : list (OHLCV F);
  TechnicalData : option (TechnicalData F);
  TrendAnalysis : option (TrendAnalysis F);
  LevelsAnalysis : option (LevelsAnalysis F)
}.
Arguments mk {F}.
Arguments Price {F}.
Arguments Timestamp {F}.
Arguments High {F}.
Arguments Low {F}.
Arguments Volume {F}.
Arguments Timeframe {F}.
Arguments PriceChange {F}.
Arguments KlineData {F}.
Arguments TechnicalData {F}.
Arguments TrendAnalysis {F}.
Arguments LevelsAnalysis {F}.
End MarketData.

(** [fetchMarketData] after the exchange has answered: [fetched] is the
    result of [FetchOHLCV] ([None] for an error), [now] the formatted
    [time.Now()] and [timeframe] the configured one.  The bot's calculator
    runs with [AggressiveConfig].  The result is [None] for an error. *)
Definition fetchMarketData {F : Type} {arith : Arith F} (now timeframe : string)
    (fetched : option (list (OHLCV F))) : outcome (option (MarketData.t F)) :=
  match fetched with
  | None => Ret None
  | Some ohlcvList =>
      if len ohlcvList =? 0 then Ret None
      else
        techData <- Calculate AggressiveConfig ohlcvList ;;
        trendAnalysis <- CalculateTrendAnalysis AggressiveConfig ohlcvList techData ;;
        levelsAnalysis <- CalculateLevelsAnalysis AggressiveConfig ohlcvList techData ;;
        current <- index ohlcvList (len ohlcvList - 1) ;;
        previous <- index ohlcvList (len ohlcvList - 2) ;;
        Ret (Some
          (MarketData.mk (Close current) now (High current) (Low current)
             (Volume current) timeframe
             (mul (div (sub (Close current) (Close previous)) (Close previous)) f100)
             ohlcvList techData trendAnalysis levelsAnalysis))
  end.

(** * Order sizing in the OKX client ([PlaceOrder]) *)

Module InstrumentInfo.
Record t : Type := mk {
  InstID : string;
  ContractValue : float;
  LotSize : float;
  MinSize : float;
  MinAmount : float;
  TickSize : float
}.
End InstrumentInfo.

(** [float64(int(size/lotSize+0.5)) * lotSize], or [size] for a lot size
    that is [<= 0]. *)
Definition roundToLotSize (size lotSize : float) : float :=
  if PrimFloat.leb lotSize 0 then size
  else (of_int (int_of_float64 (size / lotSize + 0.5)) * lotSize)%float.

(** [float64(int(size/lotSize)+1) * lotSize]. *)
Definition roundUpToLotSize (size lotSize : float) : float :=
  if PrimFloat.leb lotSize 0 then size
  else (of_int (wrap64 (int_of_float64 (size / lotSize) + 1)) * lotSize)%float.

(** The [orderSize] that [PlaceOrder] computes for [amount]; [ticker] is
    the last price of [FetchTicker], [None] when that call fails (it is
    made in spot mode only, for a positive minimum amount). *)
Definition orderSize (c : exchange.OKXClient) (instInfo : InstrumentInfo.t)
    (amount : float) (ticker : option float) : float :=
  let lotSize := InstrumentInfo.LotSize instInfo in
  let minSize := InstrumentInfo.MinSize instInfo in
  if (exchange.tradingMode c =? config.TradingModeSpot)%string then
    let size1 := if PrimFloat.ltb 0 lotSize then roundToLotSize amount lotSize else amount in
    let size2 := if PrimFloat.ltb size1 minSize then minSize else size1 in
    if PrimFloat.ltb 0 (InstrumentInfo.MinAmount instInfo) then
      match ticker with
      | Some last =>
          if PrimFloat.ltb 0 last then
            if PrimFloat.ltb (size2 * last) (InstrumentInfo.MinAmount instInfo) then
              let requiredSize := (InstrumentInfo.MinAmount instInfo / last)%float in
              if PrimFloat.ltb 0 lotSize then roundUpToLotSize requiredSize lotSize
              else requiredSize
            else size2
          else size2
      | None => size2
      end
    else size2
  else
    let contractSize :=
      if PrimFloat.ltb 0 (InstrumentInfo.ContractValue instInfo)
      then (amount / InstrumentInfo.ContractValue instInfo)%float else amount in
    let contractSize1 :=
      if PrimFloat.ltb 0 lotSize then roundToLotSize contractSize lotSize
      else contractSize in
    if PrimFloat.ltb contractSize1 minSize then minSize else contractSize1.

(** The parameter set [c] with another RSI period. *)
Definition with_rsi_period {F : Type} (c : IndicatorConfig F) (period : Z)
    : IndicatorConfig F :=
  {| SMA5Period := SMA5Period c; SMA20Period := SMA20Period c; SMA50Period := SMA50Period c;
     EMA12Period := EMA12Period c; EMA26Period := EMA26Period c;
     MACDFastPeriod := MACDFastPeriod c; MACDSlowPeriod := MACDSlowPeriod c;
     MACDSignalPeriod := MACDSignalPeriod c;
     RSIPeriod := period; RSINeutralValue := RSINeutralValue c;
     RSIMaxValue := RSIMaxValue c;
     BBPeriod := BBPeriod c; BBStdDev := BBStdDev c;
     BBMinThreshold := BBMinThreshold c; BBDefaultPos := BBDefaultPos c;
     BBUpperAdjust := BBUpperAdjust c; BBLowerAdjust := BBLowerAdjust c;
     VolumeMAPeriod := VolumeMAPeriod c; DefaultVolumeRatio := DefaultVolumeRatio c;
     SupportResistanceLookback := SupportResistanceLookback c |}.

(** Three finite closes whose first difference overflows. *)
Definition overflowing_closes : list float := [-0x1p1023; 0x1p1023; 0x1p1023]%float.

(** ** Integers, slices and loops *)

Lemma wrap64_id (z : Z) : min_int <= z <= max_int -> wrap64 z = z.
Proof.
  unfold wrap64, min_int, max_int. intros H.
  rewrite Z.mod_small by lia. lia.
Qed.

Lemma len_nonneg {A : Type} (s : list A) : 0 <= len s.
Proof. unfold len. lia. Qed.

Lemma len_nil {A : Type} : len (@nil A) = 0.
Proof. reflexivity. Qed.

Lemma len_cons {A : Type} (a : A) (s : list A) : len (a :: s) = len s + 1.
Proof. unfold len. simpl length. lia. Qed.

Lemma len_zero_nil {A : Type} (s : list A) : len s = 0 -> s = [].
Proof. destruct s; [reflexivity|]. rewrite len_cons. pose proof (len_nonneg s). lia. Qed.

Lemma len_map {A B : Type} (f : A -> B) (s : list A) : len (map f s) = len s.
Proof. unfold len. now rewrite length_map. Qed.

Lemma len_firstn {A : Type} (s : list A) (n : Z) :
  0 <= n <= len s -> len (firstn (Z.to_nat n) s) = n.
Proof. unfold len. intros H. rewrite length_firstn. lia. Qed.

Lemma len_skipn {A : Type} (s : list A) (n : Z) :
  0 <= n <= len s -> len (skipn (Z.to_nat n) s) = len s - n.
Proof. unfold len. intros H. rewrite length_skipn. lia. Qed.

Lemma for_from_ret {A B : Type} (s : list A) (start : Z) (body : B -> A -> B) (acc : B) :
  0 <= start ->
  for_from s start body acc = Ret (fold_left body (skipn (Z.to_nat start) s) acc).
Proof.
  intros H. unfold for_from.
  destruct (start <? 0) eqn:E; [apply Z.ltb_lt in E; lia | reflexivity].
Qed.

Lemma slice_to_ret {A : Type} (s : list A) (hi : Z) :
  0 <= hi <= len s -> slice_to s hi = Ret (firstn (Z.to_nat hi) s).
Proof.
  intros H. unfold slice_to.
  destruct (hi <? 0) eqn:E1; [apply Z.ltb_lt in E1; lia|].
  destruct (len s <? hi) eqn:E2; [apply Z.ltb_lt in E2; lia|]. reflexivity.
Qed.

Lemma slice_from_ret {A : Type} (s : list A) (lo : Z) :
  0 <= lo <= len s -> slice_from s lo = Ret (skipn (Z.to_nat lo) s).
Proof.
  intros H. unfold slice_from.
  destruct (lo <? 0) eqn:E1; [apply Z.ltb_lt in E1; lia|].
  destruct (len s <? lo) eqn:E2; [apply Z.ltb_lt in E2; lia|]. reflexivity.
Qed.

(** ** Moving averages *)

Section MovingAverages.

Context {F : Type} {arith : Arith F}.

(** The loop of [calculateSMA] computes the reference SMA; no index leaves
    the slice when the period is a count. *)
Lemma calculateSMA_eq (values : list F) (period : Z) :
  0 <= period -> len values <= max_int ->
  calculateSMA values period = Ret (SMA_ref values period).
Proof.
  intros Hp Hn. unfold calculateSMA, SMA_ref.
  pose proof (len_nonneg values) as H0.
  destruct (len values =? 0) eqn:E0.
  - apply Z.eqb_eq in E0. rewrite E0.
    replace (Z.min period 0) with 0 by lia. reflexivity.
  - apply Z.eqb_neq in E0.
    assert (Hq : (if len values <? period then len values else period)
                 = Z.min period (len values)).
    { destruct (len values <? period) eqn:E1;
        [apply Z.ltb_lt in E1 | apply Z.ltb_ge in E1]; lia. }
    rewrite Hq. set (q := Z.min period (len values)).
    assert (Hqr : 0 <= q <= len values) by (unfold q; lia).
    destruct (q =? 0) eqn:E2; [reflexivity|].
    rewrite wrap64_id by (unfold min_int, max_int in *; lia).
    rewrite for_from_ret by lia. simpl.
    unfold arithmetic_mean, last_n, sum.
    rewrite len_skipn by lia.
    replace (len values - (len values - q)) with q by lia. reflexivity.
Qed.

Lemma last_n_all (values : list F) : last_n (len values) values = values.
Proof. unfold last_n. rewrite Z.sub_diag. reflexivity. Qed.

Lemma SMA_ref_short (values : list F) (period : Z) :
  values <> [] -> len values <= period ->
  SMA_ref values period = arithmetic_mean values.
Proof.
  intros Hne Hle. unfold SMA_ref.
  assert (1 <= len values).
  { destruct values; [congruence|]. rewrite len_cons. pose proof (len_nonneg values). lia. }
  rewrite Z.min_r by lia.
  destruct (len values =? 0) eqn:E; [apply Z.eqb_eq in E; lia|].
  now rewrite last_n_all.
Qed.

Lemma SMA_ref_long (values : list F) (period : Z) :
  1 <= period <= len values ->
  SMA_ref values period = arithmetic_mean (last_n period values).
Proof.
  intros H. unfold SMA_ref. rewrite Z.min_l by lia.
  destruct (period =? 0) eqn:E; [apply Z.eqb_eq in E; lia|]. reflexivity.
Qed.

(** The code of [calculateEMA] computes the reference EMA. *)
Lemma calculateEMA_ref (values : list F) (p : Z) :
  period_ok p -> len values <= max_int ->
  calculateEMA values p = Ret (EMA_ref values p).
Proof.
  intros [Hp0 Hp1] Hn. unfold calculateEMA, EMA_ref.
  pose proof (len_nonneg values) as H0.
  destruct (len values =? 0) eqn:E0.
  - apply Z.eqb_eq in E0. apply len_zero_nil in E0. subst values.
    rewrite len_nil. destruct (0 <? p) eqn:E1; [reflexivity|].
    apply Z.ltb_ge in E1. assert (p = 0) by lia. subst p. reflexivity.
  - destruct (len values <? p) eqn:E1.
    + apply calculateSMA_eq; lia.
    + apply Z.ltb_ge in E1.
      rewrite wrap64_id by (unfold min_int, max_int in *; lia).
      rewrite slice_to_ret by lia. simpl.
      rewrite calculateSMA_eq; [simpl | lia | rewrite len_firstn by lia; lia].
      now rewrite for_from_ret by lia.
Qed.

End MovingAverages.

(** C8. [calculateSMA] returns 0 for an empty sequence; for a non-empty
    sequence of length n and a period p >= 1 it returns the arithmetic mean
    of the last p entries when p <= n and the arithmetic mean of all n
    entries when p > n. *)
Theorem calculateSMA_mean (F : Type) (arith : Arith F) (values : list F) (p : Z) :
  len values <= max_int ->
  calculateSMA (@nil F) p = Ret f0 /\
  (values <> [] -> 1 <= p ->
     (p <= len values ->
        calculateSMA values p = Ret (arithmetic_mean (last_n p values))) /\
     (len values < p ->
        calculateSMA values p = Ret (arithmetic_mean values))).
Proof.
  intros Hn. split; [reflexivity|].
  intros Hne Hp. split; intros H.
  - rewrite calculateSMA_eq by lia. now rewrite SMA_ref_long by lia.
  - rewrite calculateSMA_eq by lia. now rewrite SMA_ref_short by (trivial; lia).
Qed.

(** C2. For a period p (a count whose successor does not overflow),
    [calculateEMA] is the SMA over the whole sequence when the sequence is
    shorter than p, and otherwise the fold of
    [ema = value*m + ema*(1-m)], [m = 2/(p+1)], from the SMA of the first p
    values over the values at indices p .. n-1. *)
Theorem calculateEMA_bootstrap_recurrence (F : Type) (arith : Arith F)
    (values : list F) (p : Z) :
  period_ok p -> len values <= max_int ->
  (len values < p ->
     calculateEMA values p = Ret (SMA_ref values (len values))) /\
  (p <= len values ->
     calculateEMA values p =
     Ret (fold_left (fun ema value => add (mul value (div f2 (of_int (p + 1))))
                                          (mul ema (sub f1 (div f2 (of_int (p + 1))))))
                    (skipn (Z.to_nat p) values)
                    (SMA_ref (firstn (Z.to_nat p) values) p))).
Proof.
  intros Hp Hn. rewrite calculateEMA_ref by assumption. unfold EMA_ref.
  split; intros H.
  - apply Z.ltb_lt in H. now rewrite H.
  - apply Z.ltb_ge in H. now rewrite H.
Qed.

(** ** The historical MACD line *)

Lemma collect_map_ret {A B : Type} (f : A -> outcome B) (g : A -> B) (l : list A) :
  (forall x, In x l -> f x = Ret (g x)) -> collect (map f l) = Ret (map g l).
Proof.
  induction l as [|a l IH]; intros H; [reflexivity|].
  simpl. rewrite (H a) by (now left). simpl.
  rewrite IH by (intros x Hx; apply H; now right). reflexivity.
Qed.

Lemma int_range_In (lo hi i : Z) : In i (int_range lo hi) -> lo <= i <= hi.
Proof.
  unfold int_range. rewrite in_map_iff. intros [k [Hk Hin]].
  apply in_seq in Hin. lia.
Qed.

Lemma int_range_len (lo hi : Z) : lo <= hi + 1 -> len (int_range lo hi) = hi - lo + 1.
Proof.
  intros H. unfold int_range, len. rewrite length_map, length_seq. lia.
Qed.

Lemma int_range_snoc (lo hi : Z) :
  lo <= hi -> int_range lo hi = int_range lo (hi - 1) ++ [hi].
Proof.
  intros H. unfold int_range.
  replace (Z.to_nat (hi - lo + 1)) with (Z.to_nat (hi - 1 - lo + 1) + 1)%nat by lia.
  rewrite seq_app, map_app. simpl. f_equal. f_equal. lia.
Qed.

Lemma int_range_nth (lo hi i : Z) :
  lo <= i <= hi -> nth_error (int_range lo hi) (Z.to_nat (i - lo)) = Some i.
Proof.
  intros H. unfold int_range.
  rewrite nth_error_map, nth_error_seq.
  destruct (Nat.ltb_spec (Z.to_nat (i - lo)) (Z.to_nat (hi - lo + 1))); [|lia].
  cbn. f_equal. lia.
Qed.

Section MACDHistory.

Context {F : Type} {arith : Arith F}.

Lemma macd_at_eq (closes : list F) (fast slow i : Z) :
  period_ok fast -> period_ok slow -> len closes <= max_int ->
  0 <= i <= len closes ->
  macd_at closes fast slow i =
  Ret (sub (EMA_ref (prefix closes i) fast) (EMA_ref (prefix closes i) slow)).
Proof.
  intros Hf Hs Hn Hi. unfold macd_at, prefix.
  rewrite slice_to_ret by lia. simpl.
  assert (Hl : len (firstn (Z.to_nat i) closes) <= max_int)
    by (rewrite len_firstn by lia; lia).
  rewrite !calculateEMA_ref by assumption. reflexivity.
Qed.

Lemma macd_history_len (closes : list F) (fast slow : Z) :
  slow <= len closes + 1 ->
  len (macd_history closes fast slow) = len closes - slow + 1.
Proof. intros H. unfold macd_history. rewrite len_map. now apply int_range_len. Qed.

(** [calculateMACDValues] returns [[0]] on a short series and the
    historical MACD line otherwise. *)
Lemma calculateMACDValues_eq (closes : list F) (fast slow : Z) :
  period_ok fast -> period_ok slow -> len closes <= max_int ->
  calculateMACDValues closes fast slow = Ret (macd_values_ref closes fast slow).
Proof.
  intros Hf Hs Hn. unfold calculateMACDValues, macd_values_ref.
  destruct (len closes <? slow) eqn:E; [reflexivity|].
  apply Z.ltb_ge in E.
  rewrite (collect_map_ret _
             (fun i => sub (EMA_ref (prefix closes i) fast) (EMA_ref (prefix closes i) slow))).
  - simpl. fold (macd_history closes fast slow).
    rewrite macd_history_len by lia.
    destruct (len closes - slow + 1 =? 0) eqn:E1; [apply Z.eqb_eq in E1; lia|].
    reflexivity.
  - intros i Hi. apply int_range_In in Hi.
    apply macd_at_eq; trivial. destruct Hs. lia.
Qed.

(** The history ends on the difference of the two EMAs of the whole
    series. *)
Lemma macd_history_last (closes : list F) (fast slow : Z) (d : F) :
  0 <= slow <= len closes ->
  last (macd_history closes fast slow) d =
  sub (EMA_ref closes fast) (EMA_ref closes slow).
Proof.
  intros H. unfold macd_history.
  rewrite int_range_snoc by lia. rewrite map_app. simpl.
  rewrite last_last. unfold prefix, len.
  rewrite Nat2Z.id, firstn_all. reflexivity.
Qed.

End MACDHistory.

(** ** RSI: the two running averages *)

Lemma fold_left_pair {A : Type} (g : A -> A -> A) (xs ys : list A) (a b : A) :
  length xs = length ys ->
  fold_left (fun (acc : A * A) (xy : A * A) => (g (fst acc) (fst xy), g (snd acc) (snd xy)))
            (combine xs ys) (a, b)
  = (fold_left g xs a, fold_left g ys b).
Proof.
  revert ys a b. induction xs as [|x xs IH]; intros [|y ys] a b H;
    simpl in *; try discriminate; [reflexivity|].
  apply IH. congruence.
Qed.

Lemma firstn_combine {A B : Type} (n : nat) (xs : list A) (ys : list B) :
  firstn n (combine xs ys) = combine (firstn n xs) (firstn n ys).
Proof.
  revert xs ys. induction n as [|n IH]; intros [|x xs] [|y ys]; simpl; trivial.
  now rewrite IH.
Qed.

Lemma skipn_combine {A B : Type} (n : nat) (xs : list A) (ys : list B) :
  skipn n (combine xs ys) = combine (skipn n xs) (skipn n ys).
Proof.
  revert xs ys. induction n as [|n IH]; intros [|x xs] [|y ys]; simpl; trivial.
  destruct (skipn n xs); reflexivity.
Qed.

Section RSIAverages.

Context {F : Type} {arith : Arith F}.

Lemma price_changes_length (values : list F) :
  length (price_changes values) = (length values - 1)%nat.
Proof.
  induction values as [|prev rest IH]; [reflexivity|].
  destruct rest as [|cur rest']; [reflexivity|].
  change (price_changes (prev :: cur :: rest'))
    with (sub cur prev :: price_changes (cur :: rest')).
  simpl length in *. rewrite IH. lia.
Qed.

Lemma len_price_changes (values : list F) :
  1 <= len values -> len (price_changes values) = len values - 1.
Proof. unfold len. rewrite price_changes_length. lia. Qed.

(** The code of [calculateRSI] computes the reference RSI. *)
Lemma calculateRSI_eq (c : IndicatorConfig F) (values : list F) (p : Z) :
  period_ok p -> len values <= max_int ->
  calculateRSI c values p = Ret (RSI_ref c values p).
Proof.
  intros [Hp0 Hp1] Hn. unfold calculateRSI, RSI_ref.
  rewrite !wrap64_id by (unfold min_int, max_int in *; lia).
  destruct (len values <? p + 1) eqn:E; [reflexivity|].
  apply Z.ltb_ge in E.
  destruct (len values - 1 <? 0) eqn:E1; [apply Z.ltb_lt in E1; lia|].
  rewrite len_price_changes by lia.
  destruct (len values - 1 <? p) eqn:E2; [apply Z.ltb_lt in E2; lia|].
  rewrite for_from_ret by lia. simpl.
  rewrite firstn_combine, skipn_combine.
  rewrite (fold_left_pair add)
    by (rewrite !length_firstn, !length_map; reflexivity).
  simpl fst. simpl snd.
  pose proof (fold_left_pair (wilder_step p)
                (skipn (Z.to_nat p) (map gain_of (price_changes values)))
                (skipn (Z.to_nat p) (map loss_of (price_changes values)))) as HP.
  unfold wilder_step in HP at 1 2.
  rewrite HP by (rewrite !length_skipn, !length_map; reflexivity).
  simpl fst. simpl snd.
  fold (sum (firstn (Z.to_nat p) (map gain_of (price_changes values)))).
  fold (sum (firstn (Z.to_nat p) (map loss_of (price_changes values)))).
  fold (wilder_average p (map gain_of (price_changes values))).
  fold (wilder_average p (map loss_of (price_changes values))).
  fold (gains_of values). fold (losses_of values).
  destruct (feqb (wilder_average p (losses_of values)) f0);
    [destruct (feqb (wilder_average p (gains_of values)) f0)|]; reflexivity.
Qed.

End RSIAverages.

(** ** Bollinger bands and the assembled snapshot *)

Lemma index_last {A : Type} (s : list A) (d : A) :
  s <> [] -> index s (len s - 1) = Ret (last s d).
Proof.
  intros H. unfold index.
  assert (Hl : 1 <= len s).
  { destruct s; [congruence|]. rewrite len_cons. pose proof (len_nonneg s). lia. }
  destruct (len s - 1 <? 0) eqn:E; [apply Z.ltb_lt in E; lia|].
  replace (Z.to_nat (len s - 1)) with (length s - 1)%nat by (unfold len; lia).
  clear E Hl. induction s as [|a s IH]; [congruence|].
  destruct s as [|b s']; [reflexivity|].
  change (last (a :: b :: s') d) with (last (b :: s') d).
  simpl length in *. replace (S (S (length s')) - 1)%nat with (S (length s')) by lia.
  simpl nth_error.
  replace (length s') with (S (length s') - 1)%nat at 1 by lia.
  apply IH. discriminate.
Qed.

Section Snapshot.

Context {F : Type} {arith : Arith F}.

Lemma SMA_ref_min (values : list F) (p : Z) :
  SMA_ref values (Z.min p (len values)) = SMA_ref values p.
Proof. unfold SMA_ref. now rewrite <- Z.min_assoc, Z.min_id. Qed.

(** The code of [calculateBollingerBands] computes the reference bands. *)
Lemma calculateBollingerBands_eq (c : IndicatorConfig F) (values : list F)
    (period : Z) (stdDev : F) :
  0 <= period -> len values <= max_int ->
  calculateBollingerBands c values period stdDev = Ret (BB_ref c values period stdDev).
Proof.
  intros Hp Hn. unfold calculateBollingerBands, BB_ref.
  pose proof (len_nonneg values) as H0.
  destruct (len values =? 0) eqn:E0.
  - apply Z.eqb_eq in E0. rewrite E0.
    replace (Z.min period 0) with 0 by lia. reflexivity.
  - apply Z.eqb_neq in E0.
    assert (Hq : (if len values <? period then len values else period)
                 = Z.min period (len values)).
    { destruct (len values <? period) eqn:E1;
        [apply Z.ltb_lt in E1 | apply Z.ltb_ge in E1]; lia. }
    rewrite Hq. set (q := Z.min period (len values)).
    assert (Hqr : 0 <= q <= len values) by (unfold q; lia).
    destruct (q =? 0) eqn:E2; [reflexivity|].
    rewrite calculateSMA_eq by lia. cbn [bind].
    replace (SMA_ref values q) with (SMA_ref values period)
      by (unfold q; now rewrite SMA_ref_min).
    rewrite wrap64_id by (unfold min_int, max_int in *; lia).
    rewrite for_from_ret by lia. cbn [bind].
    unfold bb_variance, bb_window, last_n. fold q.
    destruct (feqb _ _); reflexivity.
Qed.

Lemma len_macd_values_ref (closes : list F) (fast slow : Z) :
  0 <= slow -> len (macd_values_ref closes fast slow) <= len closes + 1.
Proof.
  intros Hs. unfold macd_values_ref.
  destruct (len closes <? slow) eqn:E.
  - rewrite len_cons, len_nil. pose proof (len_nonneg closes). lia.
  - apply Z.ltb_ge in E. rewrite macd_history_len by lia. lia.
Qed.

(** [Calculate] on a non-empty bar sequence returns the reference
    snapshot. *)
Lemma Calculate_eq (c : IndicatorConfig F) (ohlcvList : list (OHLCV F)) :
  periods_ok c -> ohlcvList <> [] -> len ohlcvList < max_int ->
  Calculate c ohlcvList = Ret (Some (Technical_ref c ohlcvList)).
Proof.
  intros (H1 & H2 & H3 & H4 & H5 & H6 & H7 & H8 & H9 & H10 & H11 & H12) Hne Hn.
  unfold Calculate, Technical_ref, calculateEMAFromValues.
  assert (Hl : 1 <= len ohlcvList).
  { destruct ohlcvList; [congruence|]. rewrite len_cons.
    pose proof (len_nonneg ohlcvList). lia. }
  destruct (len ohlcvList =? 0) eqn:E0; [apply Z.eqb_eq in E0; lia|].
  assert (Lc : len (extractCloses ohlcvList) = len ohlcvList) by apply len_map.
  assert (Lh : len (extractHighs ohlcvList) = len ohlcvList) by apply len_map.
  assert (Ll : len (extractLows ohlcvList) = len ohlcvList) by apply len_map.
  assert (Lv : len (extractVolumes ohlcvList) = len ohlcvList) by apply len_map.
  assert (Nc : extractCloses ohlcvList <> []).
  { intros E. rewrite E, len_nil in Lc. lia. }
  assert (Nv : extractVolumes ohlcvList <> []).
  { intros E. rewrite E, len_nil in Lv. lia. }
  unfold period_ok in *.
  rewrite !calculateSMA_eq by lia. cbn [bind].
  rewrite calculateRSI_eq by (unfold period_ok; lia). cbn [bind].
  rewrite !calculateEMA_ref by (unfold period_ok; lia). cbn [bind].
  rewrite calculateMACDValues_eq by (unfold period_ok; lia). cbn [bind].
  rewrite calculateEMA_ref;
    [cbn [bind] | unfold period_ok; lia
     | pose proof (len_macd_values_ref (extractCloses ohlcvList)
                     (MACDFastPeriod c) (MACDSlowPeriod c)); lia].
  rewrite calculateBollingerBands_eq by lia. cbn [bind].
  rewrite (index_last _ f0 Nc), (index_last _ f0 Nv).
  set (bb := BB_ref c (extractCloses ohlcvList) (BBPeriod c) (BBStdDev c)).
  assert (Hq : (if len (extractHighs ohlcvList) <? SupportResistanceLookback c
                then len (extractHighs ohlcvList) else SupportResistanceLookback c)
               = Z.min (SupportResistanceLookback c) (len (extractHighs ohlcvList))).
  { destruct (_ <? _) eqn:E1; [apply Z.ltb_lt in E1 | apply Z.ltb_ge in E1]; lia. }
  rewrite Hq.
  set (q := Z.min (SupportResistanceLookback c) (len (extractHighs ohlcvList))).
  assert (Hqr : 0 <= q <= len ohlcvList) by (unfold q; lia).
  rewrite wrap64_id by (unfold min_int, max_int in *; lia).
  rewrite !slice_from_ret by lia.
  unfold lookback_window. fold q.
  replace (Z.min (SupportResistanceLookback c) (len (extractLows ohlcvList))) with q
    by (unfold q; lia).
  rewrite Ll, Lh.
  destruct (fltb (snd bb) (snd (fst bb)) &&
            fltb (BBMinThreshold c) (sub (snd (fst bb)) (snd bb)));
    destruct ((0 <? len (extractVolumes ohlcvList)) &&
              fltb f0 (SMA_ref (extractVolumes ohlcvList) (VolumeMAPeriod c)));
    destruct (0 <? q); reflexivity.
Qed.

End Snapshot.

(** ** The entry points *)

(** C1 (amended). On an empty bar sequence [Calculate],
    [CalculateTrendAnalysis] and [CalculateLevelsAnalysis] return nil; on
    every non-empty bar sequence [Calculate] returns a Technical Snapshot
    when the periods of the parameter set are counts (0 <= p < MaxInt64).
    The constructor accepts any parameter set, and a negative period makes
    [Calculate] panic instead (see [snapshot_missing_on_negative_period]). *)
Theorem empty_input_no_result (F : Type) (arith : Arith F) (c : IndicatorConfig F) :
  Calculate c [] = Ret None /\
  (forall tech, CalculateTrendAnalysis c [] tech = Ret None) /\
  (forall tech, CalculateLevelsAnalysis c [] tech = Ret None) /\
  (forall ohlcvList,
     periods_ok c -> ohlcvList <> [] -> len ohlcvList < max_int ->
     exists data, Calculate c ohlcvList = Ret (Some data)).
Proof.
  split; [reflexivity|].
  split; [intros [tech|]; reflexivity|].
  split; [intros [tech|]; reflexivity|].
  intros ohlcvList Hc Hne Hn. eexists. now apply Calculate_eq.
Qed.

(** C3. When the close series is at least as long as the slow period, the
    published MACD signal line is the EMA, with the signal period, of the
    history array; that array has one entry for every prefix length
    i = slow, slow+1, ..., len(closes), in this order, and the entry for i
    is calculateEMA(closes[:i], fast) - calculateEMA(closes[:i], slow); the
    published histogram is the MACD line minus the signal line. *)
Theorem macd_signal_from_history (F : Type) (arith : Arith F)
    (c : IndicatorConfig F) (ohlcvList : list (OHLCV F)) :
  periods_ok c -> ohlcvList <> [] -> len ohlcvList < max_int ->
  MACDSlowPeriod c <= len ohlcvList ->
  let closes := extractCloses ohlcvList in
  exists data history,
    Calculate c ohlcvList = Ret (Some data) /\
    calculateMACDValues closes (MACDFastPeriod c) (MACDSlowPeriod c) = Ret history /\
    len history = len closes - MACDSlowPeriod c + 1 /\
    (forall i, MACDSlowPeriod c <= i <= len closes ->
       exists ema12 ema26,
         slice_to closes i = Ret (prefix closes i) /\
         calculateEMA (prefix closes i) (MACDFastPeriod c) = Ret ema12 /\
         calculateEMA (prefix closes i) (MACDSlowPeriod c) = Ret ema26 /\
         nth_error history (Z.to_nat (i - MACDSlowPeriod c)) = Some (sub ema12 ema26)) /\
    calculateEMA history (MACDSignalPeriod c) = Ret (MACDSignal data) /\
    MACDHistogram data = sub (MACD data) (MACDSignal data).
Proof.
  intros Hc Hne Hn Hs closes.
  pose proof Hc as (_ & _ & _ & _ & _ & Hf & Hsl & Hsig & _).
  assert (Lc : len closes = len ohlcvList) by apply len_map.
  set (history := macd_history closes (MACDFastPeriod c) (MACDSlowPeriod c)).
  assert (Hm : macd_values_ref closes (MACDFastPeriod c) (MACDSlowPeriod c) = history).
  { unfold macd_values_ref.
    destruct (len closes <? MACDSlowPeriod c) eqn:E; [apply Z.ltb_lt in E; lia|].
    reflexivity. }
  assert (Hlen : len history = len closes - MACDSlowPeriod c + 1).
  { unfold history. destruct Hsl. apply macd_history_len. lia. }
  exists (Technical_ref c ohlcvList), history.
  split; [now apply Calculate_eq|].
  split; [rewrite calculateMACDValues_eq by (trivial; lia); now rewrite Hm|].
  split; [exact Hlen|].
  split.
  { intros i Hi.
    exists (EMA_ref (prefix closes i) (MACDFastPeriod c)),
           (EMA_ref (prefix closes i) (MACDSlowPeriod c)).
    pose proof Hsl as [Hs0 _].
    assert (Hp : len (prefix closes i) <= max_int)
      by (unfold prefix; rewrite len_firstn by lia; lia).
    split; [apply slice_to_ret; lia|].
    split; [now apply calculateEMA_ref|].
    split; [now apply calculateEMA_ref|].
    subst history. unfold macd_history.
    rewrite nth_error_map, int_range_nth by lia. reflexivity. }
  split; [|reflexivity].
  rewrite calculateEMA_ref.
  - unfold Technical_ref. cbn [MACDSignal]. fold closes. now rewrite Hm.
  - assumption.
  - destruct Hsl. lia.
Qed.

(** C9 (amended). When the close series is at least as long as the slow
    period, the last entry of the history built by [calculateMACDValues] is
    calculateEMA(closes, fast) - calculateEMA(closes, slow) for the MACD
    fast and slow periods; it is the published MACD line whenever the two
    EMA periods of the parameter set equal the MACD fast and slow
    periods. *)
Theorem macd_history_ends_on_line (F : Type) (arith : Arith F)
    (c : IndicatorConfig F) (ohlcvList : list (OHLCV F)) :
  periods_ok c -> ohlcvList <> [] -> len ohlcvList < max_int ->
  MACDSlowPeriod c <= len ohlcvList ->
  let closes := extractCloses ohlcvList in
  exists history ema12 ema26 data,
    calculateMACDValues closes (MACDFastPeriod c) (MACDSlowPeriod c) = Ret history /\
    calculateEMA closes (MACDFastPeriod c) = Ret ema12 /\
    calculateEMA closes (MACDSlowPeriod c) = Ret ema26 /\
    last history f0 = sub ema12 ema26 /\
    Calculate c ohlcvList = Ret (Some data) /\
    (EMA12Period c = MACDFastPeriod c -> EMA26Period c = MACDSlowPeriod c ->
     last history f0 = MACD data).
Proof.
  intros Hc Hne Hn Hs closes.
  pose proof Hc as (_ & _ & _ & _ & _ & Hf & Hsl & _).
  assert (Lc : len closes = len ohlcvList) by apply len_map.
  exists (macd_history closes (MACDFastPeriod c) (MACDSlowPeriod c)),
         (EMA_ref closes (MACDFastPeriod c)), (EMA_ref closes (MACDSlowPeriod c)),
         (Technical_ref c ohlcvList).
  assert (Hlast : last (macd_history closes (MACDFastPeriod c) (MACDSlowPeriod c)) f0
                  = sub (EMA_ref closes (MACDFastPeriod c)) (EMA_ref closes (MACDSlowPeriod c))).
  { apply macd_history_last. destruct Hsl. lia. }
  split.
  { rewrite calculateMACDValues_eq by (trivial; lia). unfold macd_values_ref.
    destruct (len closes <? MACDSlowPeriod c) eqn:E; [apply Z.ltb_lt in E; lia|].
    reflexivity. }
  split; [apply calculateEMA_ref; trivial; lia|].
  split; [apply calculateEMA_ref; trivial; lia|].
  split; [exact Hlast|].
  split; [now apply Calculate_eq|].
  intros E12 E26. rewrite Hlast. unfold Technical_ref. cbn [MACD].
  fold closes. now rewrite E12, E26.
Qed.

(** ** binary64: the arithmetic of the Go program *)

Section Binary64.

Lemma Prim2SF_zero : Prim2SF 0%float = S754_zero false.
Proof. vm_compute. reflexivity. Qed.

(** [x - 0.0] is [x], also for the signed zeros, the infinities and NaN. *)
Lemma b64_sub_zero (x : float) : PrimFloat.sub x 0%float = x.
Proof.
  apply Prim2SF_inj. rewrite sub_spec, Prim2SF_zero.
  destruct (Prim2SF x) as [s|s| |s m e]; try destruct s; reflexivity.
Qed.

(** A positive value is not [== 0]. *)
Lemma b64_pos_not_zero (x : float) :
  PrimFloat.ltb 0%float x = true -> PrimFloat.eqb x 0%float = false.
Proof.
  rewrite ltb_spec, eqb_spec, Prim2SF_zero.
  destruct (Prim2SF x) as [s|s| |s m e]; try destruct s;
    cbn; intros H; try discriminate; reflexivity.
Qed.

(** The EMA of the single entry [0] is [0], for every period. *)
Lemma b64_EMA_of_zero (p : Z) :
  period_ok p -> calculateEMA [0%float] p = Ret 0%float.
Proof.
  intros Hp. destruct (Z.eq_dec p 0) as [->|N0]; [vm_compute; reflexivity|].
  destruct (Z.eq_dec p 1) as [->|N1]; [vm_compute; reflexivity|].
  unfold calculateEMA. cbn [len length Z.of_nat Pos.of_succ_nat Z.eqb].
  destruct Hp as [Hp _].
  destruct (1 <? p) eqn:E; [|apply Z.ltb_ge in E; lia].
  vm_compute. reflexivity.
Qed.

(** C10. For a non-empty close series strictly shorter than the slow MACD
    period, [calculateMACDValues] returns the one-entry array [0]; the
    published MACDSignal is the EMA of [0], which is 0, and the published
    MACDHistogram is the MACD line itself. *)
Theorem short_series_macd (c : IndicatorConfig float) (ohlcvList : list (OHLCV float)) :
  periods_ok c -> ohlcvList <> [] -> len ohlcvList < MACDSlowPeriod c ->
  calculateMACDValues (extractCloses ohlcvList) (MACDFastPeriod c) (MACDSlowPeriod c)
    = Ret [0%float] /\
  exists data,
    Calculate c ohlcvList = Ret (Some data) /\
    calculateEMA [0%float] (MACDSignalPeriod c) = Ret (MACDSignal data) /\
    MACDSignal data = 0%float /\
    MACDHistogram data = MACD data.
Proof.
  intros Hc Hne Hs.
  pose proof Hc as (_ & _ & _ & _ & _ & Hf & Hsl & Hsig & _).
  assert (Hn : len ohlcvList < max_int) by (destruct Hsl; lia).
  assert (Lc : len (extractCloses ohlcvList) = len ohlcvList) by apply len_map.
  assert (Hm : macd_values_ref (extractCloses ohlcvList) (MACDFastPeriod c) (MACDSlowPeriod c)
               = [0%float]).
  { unfold macd_values_ref. rewrite Lc.
    destruct (len ohlcvList <? MACDSlowPeriod c) eqn:E; [reflexivity|].
    apply Z.ltb_ge in E. lia. }
  assert (Hsg : MACDSignal (Technical_ref c ohlcvList) = 0%float).
  { unfold Technical_ref. cbn [MACDSignal]. rewrite Hm.
    pose proof (b64_EMA_of_zero _ Hsig) as H.
    rewrite calculateEMA_ref in H by (trivial; vm_compute; discriminate).
    now injection H. }
  split.
  - rewrite calculateMACDValues_eq by (trivial; lia). now rewrite Hm.
  - exists (Technical_ref c ohlcvList).
    split; [now apply Calculate_eq|].
    split; [rewrite Hsg; now apply b64_EMA_of_zero|].
    split; [exact Hsg|].
    change (MACDHistogram (Technical_ref c ohlcvList))
      with (PrimFloat.sub (MACD (Technical_ref c ohlcvList))
                          (MACDSignal (Technical_ref c ohlcvList))).
    rewrite Hsg. apply b64_sub_zero.
Qed.

End Binary64.

(** ** The presets *)

Section Presets.

Context {F : Type} {arith : Arith F}.

Lemma DefaultConfig_periods_ok : periods_ok (DefaultConfig (F := F)).
Proof. unfold periods_ok, period_ok, max_int. cbn. lia. Qed.

Lemma AggressiveConfig_periods_ok : periods_ok (AggressiveConfig (F := F)).
Proof. unfold periods_ok, period_ok, max_int. cbn. lia. Qed.

Lemma ConservativeConfig_periods_ok : periods_ok (ConservativeConfig (F := F)).
Proof. unfold periods_ok, period_ok, max_int. cbn. lia. Qed.

(** In the three presets the EMA periods are the MACD fast and slow
    periods. *)
Lemma presets_share_macd_periods :
  (EMA12Period (DefaultConfig (F := F)) = MACDFastPeriod (DefaultConfig (F := F)) /\
   EMA26Period (DefaultConfig (F := F)) = MACDSlowPeriod (DefaultConfig (F := F))) /\
  (EMA12Period (AggressiveConfig (F := F)) = MACDFastPeriod (AggressiveConfig (F := F)) /\
   EMA26Period (AggressiveConfig (F := F)) = MACDSlowPeriod (AggressiveConfig (F := F))) /\
  (EMA12Period (ConservativeConfig (F := F)) = MACDFastPeriod (ConservativeConfig (F := F)) /\
   EMA26Period (ConservativeConfig (F := F)) = MACDSlowPeriod (ConservativeConfig (F := F))).
Proof. repeat split. Qed.

End Presets.

Lemma with_macd_periods_ok {F : Type} (c : IndicatorConfig F) (fast slow : Z) :
  periods_ok c -> period_ok fast -> period_ok slow ->
  periods_ok (with_macd_periods c fast slow).
Proof.
  unfold periods_ok. cbn. tauto.
Qed.

(** ** Instances of the theorems on concrete inputs *)

Lemma empty_input_no_result_witness :
  exists data, Calculate DefaultConfig rising_bars = Ret (Some data).
Proof.
  apply (proj2 (proj2 (proj2 (empty_input_no_result float binary64 DefaultConfig)))).
  - apply DefaultConfig_periods_ok.
  - discriminate.
  - vm_compute. reflexivity.
Defined.

Lemma calculateEMA_bootstrap_recurrence_witness :
  period_ok 2 /\
  calculateEMA [1; 2; 4]%float 2
  = Ret (PrimFloat.add (PrimFloat.mul 4 (PrimFloat.div 2 3))
                       (PrimFloat.mul (PrimFloat.div (PrimFloat.add (PrimFloat.add 0 1) 2) 2)
                                      (PrimFloat.sub 1 (PrimFloat.div 2 3))))%float.
Proof.
  assert (Hp : period_ok 2) by (unfold period_ok, max_int; lia).
  split; [exact Hp|].
  refine (eq_trans
            (proj2 (calculateEMA_bootstrap_recurrence float binary64 [1; 2; 4]%float 2 Hp _) _) _).
  - vm_compute. discriminate.
  - vm_compute. discriminate.
  - vm_compute. reflexivity.
Defined.

Lemma calculateSMA_mean_witness :
  len [10; 20; 30]%float <= max_int /\
  calculateSMA [10; 20; 30]%float 5 = Ret 20%float.
Proof.
  assert (Hn : len [10; 20; 30]%float <= max_int) by (vm_compute; discriminate).
  split; [exact Hn|].
  refine (eq_trans
            (proj2 (proj2 (calculateSMA_mean float binary64 [10; 20; 30]%float 5 Hn) _ _) _) _).
  - discriminate.
  - lia.
  - vm_compute. reflexivity.
  - vm_compute. reflexivity.
Defined.

Lemma macd_signal_from_history_witness :
  let c := with_macd_periods (DefaultConfig (F := float)) 2 3 in
  let closes := extractCloses rising_bars in
  periods_ok c /\
  exists data history,
    Calculate c rising_bars = Ret (Some data) /\
    calculateMACDValues closes 2 3 = Ret history /\
    len history = len closes - 3 + 1 /\
    (forall i, 3 <= i <= len closes ->
       exists ema12 ema26,
         slice_to closes i = Ret (prefix closes i) /\
         calculateEMA (prefix closes i) 2 = Ret ema12 /\
         calculateEMA (prefix closes i) 3 = Ret ema26 /\
         nth_error history (Z.to_nat (i - 3)) = Some (PrimFloat.sub ema12 ema26)) /\
    calculateEMA history 9 = Ret (MACDSignal data) /\
    MACDHistogram data = PrimFloat.sub (MACD data) (MACDSignal data).
Proof.
  intros c closes.
  assert (Hc : periods_ok c).
  { apply with_macd_periods_ok; [apply DefaultConfig_periods_ok| |];
      unfold period_ok, max_int; lia. }
  split; [exact Hc|].
  refine (macd_signal_from_history float binary64 c rising_bars Hc _ _ _).
  - discriminate.
  - vm_compute. reflexivity.
  - vm_compute. discriminate.
Defined.

Lemma macd_history_ends_on_line_witness :
  periods_ok (DefaultConfig (F := float)) /\
  exists (history : list float) (ema12 ema26 : float) (data : TechnicalData float),
    calculateMACDValues (extractCloses flat_bars) 12 26 = Ret history /\
    calculateEMA (extractCloses flat_bars) 12 = Ret ema12 /\
    calculateEMA (extractCloses flat_bars) 26 = Ret ema26 /\
    last history 0%float = PrimFloat.sub ema12 ema26 /\
    Calculate DefaultConfig flat_bars = Ret (Some data) /\
    (12 = 12 -> 26 = 26 -> last history 0%float = MACD data).
Proof.
  split; [apply DefaultConfig_periods_ok|].
  refine (macd_history_ends_on_line float binary64 DefaultConfig flat_bars
            DefaultConfig_periods_ok _ _ _).
  - discriminate.
  - vm_compute. reflexivity.
  - vm_compute. discriminate.
Defined.

Lemma short_series_macd_witness :
  periods_ok (DefaultConfig (F := float)) /\
  calculateMACDValues (extractCloses rising_bars) 12 26 = Ret [0%float] /\
  exists data,
    Calculate DefaultConfig rising_bars = Ret (Some data) /\
    calculateEMA [0%float] 9 = Ret (MACDSignal data) /\
    MACDSignal data = 0%float /\
    MACDHistogram data = MACD data.
Proof.
  split; [apply DefaultConfig_periods_ok|].
  refine (short_series_macd DefaultConfig rising_bars DefaultConfig_periods_ok _ _).
  - discriminate.
  - vm_compute. reflexivity.
Defined.

(** C9, as stated, fails for a parameter set whose EMA periods (12, 26)
    differ from its MACD periods (2, 3): on the closes 1, 2, 4 the history
    ends on EMA(2) - EMA(3), which is not the published MACD line
    EMA(12) - EMA(26) = 0. *)
Lemma macd_line_differs_from_history :
  let c := with_macd_periods (DefaultConfig (F := float)) 2 3 in
  MACDSlowPeriod c <= len (extractCloses rising_bars) /\
  exists history data,
    calculateMACDValues (extractCloses rising_bars) (MACDFastPeriod c) (MACDSlowPeriod c)
      = Ret history /\
    Calculate c rising_bars = Ret (Some data) /\
    MACD data = 0%float /\
    PrimFloat.eqb (last history 0%float) (MACD data) = false /\
    last history 0%float <> MACD data.
Proof.
  intros c. split; [vm_compute; discriminate|].
  eexists. eexists.
  split; [vm_compute; reflexivity|].
  split; [vm_compute; reflexivity|].
  split; [reflexivity|].
  split; [vm_compute; reflexivity|].
  intros H. apply (f_equal (fun x => PrimFloat.eqb x 0%float)) in H.
  vm_compute in H. discriminate.
Qed.

(** ** RSI on binary64: the degenerate cases *)

(** C4 (amended). [calculateRSI] returns the neutral value when there are
    fewer than period+1 values.  Otherwise, with avgGain and avgLoss the
    Wilder averages of the gains and of the losses (seeded with the plain
    mean of the first period entries, then
    [avg = (avg*(period-1) + new)/period]), the code tests [avgLoss == 0]
    and then [avgGain == 0], and these two float64 tests split all runs:
    - avgLoss == 0 and avgGain == 0: the neutral value;
    - avgLoss == 0 and not avgGain == 0: the maximum value; this is the
      case of a positive avgGain, and also of an avgGain that is NaN;
    - not avgLoss == 0 (a non-zero or NaN avgLoss):
      [max - max/(1 + avgGain/avgLoss)]. *)
Theorem calculateRSI_cases (c : IndicatorConfig float) (values : list float) (p : Z) :
  period_ok p -> len values <= max_int ->
  (len values < p + 1 -> calculateRSI c values p = Ret (RSINeutralValue c)) /\
  (p + 1 <= len values ->
   let avgGain := wilder_average p (gains_of values) in
   let avgLoss := wilder_average p (losses_of values) in
   (PrimFloat.eqb avgLoss 0%float = true -> PrimFloat.eqb avgGain 0%float = true ->
    calculateRSI c values p = Ret (RSINeutralValue c)) /\
   (PrimFloat.eqb avgLoss 0%float = true -> PrimFloat.eqb avgGain 0%float = false ->
    calculateRSI c values p = Ret (RSIMaxValue c)) /\
   (PrimFloat.eqb avgLoss 0%float = true -> PrimFloat.ltb 0%float avgGain = true ->
    calculateRSI c values p = Ret (RSIMaxValue c)) /\
   (PrimFloat.eqb avgLoss 0%float = false ->
    calculateRSI c values p =
    Ret (PrimFloat.sub (RSIMaxValue c)
           (PrimFloat.div (RSIMaxValue c)
              (PrimFloat.add 1%float (PrimFloat.div avgGain avgLoss)))))).
Proof.
  intros Hp Hn. rewrite calculateRSI_eq by assumption. unfold RSI_ref.
  change (@feqb float binary64) with PrimFloat.eqb.
  change (@f0 float binary64) with 0%float.
  split.
  - intros H. apply Z.ltb_lt in H. now rewrite H.
  - intros H. apply Z.ltb_ge in H. rewrite H. cbv zeta.
    split; [|split; [|split]].
    + intros Hl Hg. now rewrite Hl, Hg.
    + intros Hl Hg. now rewrite Hl, Hg.
    + intros Hl Hg. rewrite Hl. now rewrite (b64_pos_not_zero _ Hg).
    + intros Hl. now rewrite Hl.
Qed.

Lemma calculateRSI_cases_witness :
  period_ok 2 /\ len [1; 2; 3]%float <= max_int /\
  calculateRSI DefaultConfig [1; 2; 3]%float 2 = Ret 100%float.
Proof.
  assert (Hp : period_ok 2) by (unfold period_ok, max_int; lia).
  assert (Hn : len [1; 2; 3]%float <= max_int) by (vm_compute; discriminate).
  split; [exact Hp|]. split; [exact Hn|].
  refine (proj1 (proj2 (proj2 (calculateRSI_cases DefaultConfig [1; 2; 3]%float 2 Hp Hn) _))
            _ _).
  - vm_compute. discriminate.
  - vm_compute. reflexivity.
  - vm_compute. reflexivity.
Defined.

(** C4, as stated, fails: the claim sends every run that is neither
    "avgLoss zero, avgGain positive" nor "avgLoss zero, avgGain zero" to
    the formula.  On the closes -2^1023, 2^1023, 2^1023 with period 1 the
    first difference overflows to +Inf, the Wilder step multiplies it by
    float64(0), and avgGain is NaN while avgLoss is 0.  avgGain is then
    neither positive nor zero, the code returns the maximum value 100, and
    the formula of the claim gives NaN. *)
Lemma rsi_max_on_undefined_gain :
  let avgGain := wilder_average 1 (gains_of overflowing_closes) in
  let avgLoss := wilder_average 1 (losses_of overflowing_closes) in
  1 + 1 <= len overflowing_closes /\
  PrimFloat.eqb avgLoss 0%float = true /\
  PrimFloat.is_nan avgGain = true /\
  PrimFloat.ltb 0%float avgGain = false /\
  PrimFloat.eqb avgGain 0%float = false /\
  calculateRSI DefaultConfig overflowing_closes 1 = Ret 100%float /\
  PrimFloat.is_nan
    (PrimFloat.sub 100%float
       (PrimFloat.div 100%float (PrimFloat.add 1%float (PrimFloat.div avgGain avgLoss))))
  = true.
Proof.
  cbv zeta. split; [vm_compute; discriminate|].
  repeat split; vm_compute; reflexivity.
Qed.

(** C1, as stated, fails: [NewCalculatorWithConfig] stores any parameter
    set, and with the default one whose RSI period is replaced by -1
    [Calculate] panics on three bars (the smoothing loop of [calculateRSI]
    starts at [gains[-1]]), so that no Technical Snapshot is produced for
    this non-empty bar sequence. *)
Lemma snapshot_missing_on_negative_period :
  rising_bars <> [] /\ len rising_bars < max_int /\
  RSIPeriod (with_rsi_period (DefaultConfig (F := float)) (-1)) = -1 /\
  Calculate (with_rsi_period DefaultConfig (-1)) rising_bars = Panic /\
  (forall data, Calculate (with_rsi_period DefaultConfig (-1)) rising_bars
                <> Ret (Some data)).
Proof.
  assert (H : Calculate (with_rsi_period DefaultConfig (-1)) rising_bars = Panic)
    by (vm_compute; reflexivity).
  split; [discriminate|]. split; [vm_compute; reflexivity|].
  split; [reflexivity|]. split; [exact H|].
  intros data. rewrite H. discriminate.
Qed.

(** ** Support and resistance *)

(** The order of binary64 values, read off [SFcompare]: on values that are
    not NaN, [<=] is a total preorder. *)
Ltac sf_order :=
  repeat match goal with
  | |- context [Pos.compare_cont Eq ?a ?b] =>
      change (Pos.compare_cont Eq a b) with (Pos.compare a b);
      destruct (Pos.compare_spec a b)
  | |- context [Z.compare ?a ?b] => destruct (Z.compare_spec a b)
  | H : context [Pos.compare_cont Eq ?a ?b] |- _ =>
      change (Pos.compare_cont Eq a b) with (Pos.compare a b) in H;
      destruct (Pos.compare_spec a b)
  | H : context [Z.compare ?a ?b] |- _ => destruct (Z.compare_spec a b)
  end;
  cbn in *; try discriminate; try reflexivity; try lia.

Lemma SFleb_trans (x y z : spec_float) :
  SFleb x y = true -> SFleb y z = true -> SFleb x z = true.
Proof.
  unfold SFleb.
  destruct x as [sx|sx| |sx mx ex], y as [sy|sy| |sy my ey], z as [sz|sz| |sz mz ez];
    try destruct sx; try destruct sy; try destruct sz; cbn;
    intros H1 H2; try discriminate; try reflexivity; sf_order.
Qed.

Lemma SFltb_leb (x y : spec_float) : SFltb x y = true -> SFleb x y = true.
Proof.
  unfold SFltb, SFleb.
  destruct (SFcompare x y) as [[| |]|]; intros H; try discriminate; reflexivity.
Qed.

Lemma SFleb_total (x y : spec_float) :
  SFleb x x = true -> SFleb y y = true -> SFltb x y = false -> SFleb y x = true.
Proof.
  unfold SFleb, SFltb.
  destruct x as [sx|sx| |sx mx ex], y as [sy|sy| |sy my ey];
    try destruct sx; try destruct sy; cbn;
    intros H1 H2 H3; try discriminate; try reflexivity; sf_order.
Qed.

Lemma SFleb_refl_l (x y : spec_float) : SFleb x y = true -> SFleb x x = true.
Proof.
  unfold SFleb.
  destruct x as [sx|sx| |sx mx ex], y as [sy|sy| |sy my ey];
    try destruct sx; try destruct sy; cbn;
    intros H1; try discriminate; try reflexivity; sf_order.
Qed.

Lemma SFleb_refl_r (x y : spec_float) : SFleb x y = true -> SFleb y y = true.
Proof.
  unfold SFleb.
  destruct x as [sx|sx| |sx mx ex], y as [sy|sy| |sy my ey];
    try destruct sx; try destruct sy; cbn;
    intros H1; try discriminate; try reflexivity; sf_order.
Qed.

Section Binary64Order.

Lemma b64_leb_trans (x y z : float) :
  PrimFloat.leb x y = true -> PrimFloat.leb y z = true -> PrimFloat.leb x z = true.
Proof. rewrite !leb_spec. apply SFleb_trans. Qed.

Lemma b64_ltb_leb (x y : float) : PrimFloat.ltb x y = true -> PrimFloat.leb x y = true.
Proof. rewrite ltb_spec, leb_spec. apply SFltb_leb. Qed.

Lemma b64_leb_total (x y : float) :
  PrimFloat.leb x x = true -> PrimFloat.leb y y = true ->
  PrimFloat.ltb x y = false -> PrimFloat.leb y x = true.
Proof. rewrite ltb_spec, !leb_spec. apply SFleb_total. Qed.

Lemma b64_leb_refl_l (x y : float) : PrimFloat.leb x y = true -> PrimFloat.leb x x = true.
Proof. rewrite !leb_spec. apply SFleb_refl_l. Qed.

Lemma b64_leb_refl_r (x y : float) : PrimFloat.leb x y = true -> PrimFloat.leb y y = true.
Proof. rewrite !leb_spec. apply SFleb_refl_r. Qed.

(** The loop of [max] ends on a value above its start and above every
    entry visited. *)
Lemma max_loop_bounds (l : list float) (m : float) :
  PrimFloat.leb m m = true ->
  (forall y, In y l -> PrimFloat.leb y y = true) ->
  let r := fold_left (fun maxVal v => if PrimFloat.ltb maxVal v then v else maxVal) l m in
  PrimFloat.leb m r = true /\ forall y, In y l -> PrimFloat.leb y r = true.
Proof.
  revert m. induction l as [|a l IH]; intros m Hm Hl; cbn.
  - split; [exact Hm | intros y []].
  - assert (Ha : PrimFloat.leb a a = true) by (apply Hl; now left).
    set (m' := if PrimFloat.ltb m a then a else m).
    assert (Hm' : PrimFloat.leb m' m' = true /\ PrimFloat.leb m m' = true
                  /\ PrimFloat.leb a m' = true).
    { unfold m'. destruct (PrimFloat.ltb m a) eqn:E.
      - repeat split; trivial. now apply b64_ltb_leb.
      - repeat split; trivial. now apply b64_leb_total. }
    destruct Hm' as (Hr & Hmm' & Ham').
    destruct (IH m' Hr (fun y Hy => Hl y (or_intror Hy))) as [H1 H2].
    split.
    + eapply b64_leb_trans; eauto.
    + intros y [<-|Hy]; [eapply b64_leb_trans; eauto | now apply H2].
Qed.

(** The loop of [min] ends on a value below its start and below every
    entry visited. *)
Lemma min_loop_bounds (l : list float) (m : float) :
  PrimFloat.leb m m = true ->
  (forall y, In y l -> PrimFloat.leb y y = true) ->
  let r := fold_left (fun minVal v => if PrimFloat.ltb v minVal then v else minVal) l m in
  PrimFloat.leb r m = true /\ forall y, In y l -> PrimFloat.leb r y = true.
Proof.
  revert m. induction l as [|a l IH]; intros m Hm Hl; cbn.
  - split; [exact Hm | intros y []].
  - assert (Ha : PrimFloat.leb a a = true) by (apply Hl; now left).
    set (m' := if PrimFloat.ltb a m then a else m).
    assert (Hm' : PrimFloat.leb m' m' = true /\ PrimFloat.leb m' m = true
                  /\ PrimFloat.leb m' a = true).
    { unfold m'. destruct (PrimFloat.ltb a m) eqn:E.
      - repeat split; trivial. now apply b64_ltb_leb.
      - repeat split; trivial. now apply b64_leb_total. }
    destruct Hm' as (Hr & Hmm' & Ham').
    destruct (IH m' Hr (fun y Hy => Hl y (or_intror Hy))) as [H1 H2].
    split.
    + eapply b64_leb_trans; eauto.
    + intros y [<-|Hy]; [eapply b64_leb_trans; eauto | now apply H2].
Qed.

Lemma max_upper_bound (l : list float) (y : float) :
  (forall x, In x l -> PrimFloat.leb x x = true) -> In y l ->
  PrimFloat.leb y (max l) = true.
Proof.
  intros Hl Hy. destruct l as [|v0 rest]; [destruct Hy|].
  unfold max.
  apply (max_loop_bounds (v0 :: rest) v0 (Hl v0 (or_introl eq_refl)) Hl); exact Hy.
Qed.

Lemma min_lower_bound (l : list float) (y : float) :
  (forall x, In x l -> PrimFloat.leb x x = true) -> In y l ->
  PrimFloat.leb (min l) y = true.
Proof.
  intros Hl Hy. destruct l as [|v0 rest]; [destruct Hy|].
  unfold min.
  apply (min_loop_bounds (v0 :: rest) v0 (Hl v0 (or_introl eq_refl)) Hl); exact Hy.
Qed.

(** [max] of the highs is above [min] of the lows as soon as every bar has
    its low below its high. *)
Lemma max_highs_ge_min_lows (window : list (OHLCV float)) :
  window <> [] ->
  (forall b, In b window -> PrimFloat.leb (Low b) (High b) = true) ->
  PrimFloat.leb (min (extractLows window)) (max (extractHighs window)) = true.
Proof.
  intros Hne Hw. destruct window as [|b0 rest]; [congruence|].
  assert (Hb0 := Hw b0 (or_introl eq_refl)).
  apply b64_leb_trans with (y := Low b0).
  - apply min_lower_bound.
    + intros x Hx. apply in_map_iff in Hx as [b [<- Hb]].
      eapply b64_leb_refl_l. apply Hw, Hb.
    + apply in_map. now left.
  - apply b64_leb_trans with (y := High b0); [exact Hb0|].
    apply max_upper_bound.
    + intros x Hx. apply in_map_iff in Hx as [b [<- Hb]].
      eapply b64_leb_refl_r. apply Hw, Hb.
    + apply in_map. now left.
Qed.

End Binary64Order.

Lemma lookback_window_map {A B : Type} (f : A -> B) (lookback : Z) (l : list A) :
  lookback_window lookback (map f l) = map f (lookback_window lookback l).
Proof. unfold lookback_window. now rewrite len_map, skipn_map. Qed.

Lemma lookback_window_nonempty {A : Type} (lookback : Z) (l : list A) :
  1 <= lookback -> l <> [] -> lookback_window lookback l <> [].
Proof.
  intros Hl Hne E.
  assert (H1 : 1 <= len l).
  { destruct l; [congruence|]. rewrite len_cons. pose proof (len_nonneg l). lia. }
  assert (H2 : len (lookback_window lookback l) = Z.min lookback (len l)).
  { unfold lookback_window. rewrite len_skipn by lia. lia. }
  rewrite E, len_nil in H2. lia.
Qed.

(** [CalculateLevelsAnalysis] takes its static levels from the lookback
    window. *)
Lemma CalculateLevelsAnalysis_static {F : Type} {arith : Arith F}
    (c : IndicatorConfig F) (ohlcvList : list (OHLCV F)) (tech : TechnicalData F) :
  ohlcvList <> [] -> len ohlcvList <= max_int -> 1 <= SupportResistanceLookback c ->
  exists levels,
    CalculateLevelsAnalysis c ohlcvList (Some tech) = Ret (Some levels) /\
    StaticResistance levels
      = max (extractHighs (lookback_window (SupportResistanceLookback c) ohlcvList)) /\
    StaticSupport levels
      = min (extractLows (lookback_window (SupportResistanceLookback c) ohlcvList)).
Proof.
  intros Hne Hn Hlb. unfold CalculateLevelsAnalysis.
  assert (Hl : 1 <= len ohlcvList).
  { destruct ohlcvList; [congruence|]. rewrite len_cons.
    pose proof (len_nonneg ohlcvList). lia. }
  destruct (len ohlcvList =? 0) eqn:E0; [apply Z.eqb_eq in E0; lia|].
  rewrite (index_last _ (bar f0 f0 f0 f0) Hne). cbn [bind].
  assert (Hq : (if len ohlcvList <? SupportResistanceLookback c
                then len ohlcvList else SupportResistanceLookback c)
               = Z.min (SupportResistanceLookback c) (len ohlcvList)).
  { destruct (_ <? _) eqn:E1; [apply Z.ltb_lt in E1 | apply Z.ltb_ge in E1]; lia. }
  rewrite Hq. set (q := Z.min (SupportResistanceLookback c) (len ohlcvList)).
  assert (Hqr : 1 <= q <= len ohlcvList) by (unfold q; lia).
  destruct (q =? 0) eqn:E2; [apply Z.eqb_eq in E2; lia|].
  rewrite wrap64_id by (unfold min_int, max_int in *; lia).
  rewrite slice_from_ret by lia. cbn [bind].
  eexists. split; [reflexivity|]. split; reflexivity.
Qed.

(** C7 (amended). For a non-empty bar sequence and a lookback of at least
    one bar, if every bar of the lookback window (the last
    min(lookback, available) bars) has Low <= High, then
    Resistance >= Support, for the fields of the Technical Snapshot and for
    the static levels of [CalculateLevelsAnalysis]. *)
Theorem resistance_ge_support (c : IndicatorConfig float)
    (ohlcvList : list (OHLCV float)) (tech : TechnicalData float) :
  periods_ok c -> ohlcvList <> [] -> len ohlcvList < max_int ->
  1 <= SupportResistanceLookback c ->
  (forall b, In b (lookback_window (SupportResistanceLookback c) ohlcvList) ->
             PrimFloat.leb (Low b) (High b) = true) ->
  (exists data,
     Calculate c ohlcvList = Ret (Some data) /\
     PrimFloat.leb (Support data) (Resistance data) = true) /\
  (exists levels,
     CalculateLevelsAnalysis c ohlcvList (Some tech) = Ret (Some levels) /\
     PrimFloat.leb (StaticSupport levels) (StaticResistance levels) = true).
Proof.
  intros Hc Hne Hn Hlb Hw.
  assert (Hl : 1 <= len ohlcvList).
  { destruct ohlcvList; [congruence|]. rewrite len_cons.
    pose proof (len_nonneg ohlcvList). lia. }
  pose proof (max_highs_ge_min_lows _
                (lookback_window_nonempty _ _ Hlb Hne) Hw) as Hord.
  split.
  - exists (Technical_ref c ohlcvList). split; [now apply Calculate_eq|].
    unfold Technical_ref. cbn [Support Resistance].
    unfold extractHighs at 1 2 3. rewrite len_map.
    destruct (0 <? Z.min (SupportResistanceLookback c) (len ohlcvList)) eqn:E;
      [|apply Z.ltb_ge in E; lia].
    unfold extractLows at 1. rewrite !lookback_window_map. exact Hord.
  - destruct (CalculateLevelsAnalysis_static c ohlcvList tech Hne)
      as (levels & H1 & H2 & H3); [lia | lia |].
    exists levels. split; [exact H1|]. rewrite H2, H3. exact Hord.
Qed.

Lemma resistance_ge_support_witness :
  periods_ok (DefaultConfig (F := float)) /\
  (exists data,
     Calculate DefaultConfig rising_bars = Ret (Some data) /\
     PrimFloat.leb (Support data) (Resistance data) = true) /\
  (exists levels,
     CalculateLevelsAnalysis DefaultConfig rising_bars (Some zero_snapshot)
       = Ret (Some levels) /\
     PrimFloat.leb (StaticSupport levels) (StaticResistance levels) = true).
Proof.
  split; [apply DefaultConfig_periods_ok|].
  refine (resistance_ge_support DefaultConfig rising_bars zero_snapshot
            DefaultConfig_periods_ok _ _ _ _).
  - discriminate.
  - vm_compute. reflexivity.
  - vm_compute. discriminate.
  - intros b Hb. vm_compute in Hb.
    destruct Hb as [<-|[<-|[<-|[]]]]; vm_compute; reflexivity.
Defined.

(** C7, as stated, fails on a bar whose high lies below its low: the
    resistance (maximum of the highs) is 1 and the support (minimum of the
    lows) is 2, in the snapshot and in the static levels. *)
Lemma resistance_below_support :
  exists data levels,
    Calculate DefaultConfig inverted_bars = Ret (Some data) /\
    CalculateLevelsAnalysis DefaultConfig inverted_bars (Some data) = Ret (Some levels) /\
    Resistance data = 1%float /\ Support data = 2%float /\
    StaticResistance levels = 1%float /\ StaticSupport levels = 2%float /\
    PrimFloat.leb (Support data) (Resistance data) = false /\
    PrimFloat.leb (StaticSupport levels) (StaticResistance levels) = false.
Proof.
  eexists. eexists.
  split; [vm_compute; reflexivity|].
  split; [vm_compute; reflexivity|].
  repeat split.
Qed.

(** ** Exact arithmetic: the ranges the formulas are designed for *)



Section Exact.

Local Open Scope R_scope.










End Exact.





(** A negative period is not a count: on a non-empty sequence
    [calculateEMA] panics at [values[:period]]. *)
Lemma calculateEMA_negative_period {F : Type} {arith : Arith F}
    (values : list F) (p : Z) :
  values <> [] -> p < 0 -> calculateEMA values p = Panic.
Proof.
  intros Hne Hp. unfold calculateEMA.
  assert (Hl : 1 <= len values).
  { destruct values; [congruence|]. rewrite len_cons.
    pose proof (len_nonneg values). lia. }
  destruct (len values =? 0) eqn:E0; [apply Z.eqb_eq in E0; lia|].
  destruct (len values <? p) eqn:E1; [apply Z.ltb_lt in E1; lia|].
  unfold slice_to.
  destruct (p <? 0) eqn:E2; [reflexivity | apply Z.ltb_ge in E2; lia].
Qed.

(** On binary64 the decimal constants of the presets are the doubles the
    Go compiler stores for [0.0001], [0.5], [1.001], [0.999] and [2.5]. *)
Example binary64_constants :
  BBMinThreshold (DefaultConfig (F := float)) = 0x1.a36e2eb1c432dp-14%float /\
  BBDefaultPos (DefaultConfig (F := float)) = 0x1p-1%float /\
  BBUpperAdjust (DefaultConfig (F := float)) = 0x1.004189374bc6ap+0%float /\
  BBLowerAdjust (DefaultConfig (F := float)) = 0x1.ff7ced916872bp-1%float /\
  BBStdDev (ConservativeConfig (F := float)) = 0x1.4p+1%float.
Proof. repeat split. Qed.

(** ** The scenarios of the specification, on binary64 *)

(** Scenario A: closes 10, 20, 30 with period 5 give SMA 20. *)
Example scenario_A : calculateSMA [10; 20; 30]%float 5 = Ret 20%float.
Proof. vm_compute. reflexivity. Qed.

(** Scenario B: fourteen consecutive +1 changes give RSI 100. *)
Example scenario_B :
  calculateRSI DefaultConfig
    [1; 2; 3; 4; 5; 6; 7; 8; 9; 10; 11; 12; 13; 14; 15]%float 14 = Ret 100%float.
Proof. vm_compute. reflexivity. Qed.

(** Scenario D: the empty bar sequence gives no result. *)
Example scenario_D :
  Calculate (DefaultConfig (F := float)) [] = Ret None /\
  CalculateTrendAnalysis (DefaultConfig (F := float)) [] None = Ret None /\
  CalculateLevelsAnalysis (DefaultConfig (F := float)) [] None = Ret None.
Proof. repeat split. Qed.

(** Scenario E: a volume sequence of zeros gives the default ratio 1. *)
Example scenario_E :
  exists data,
    Calculate DefaultConfig [bar 2 1 1 0; bar 3 2 2 0]%float = Ret (Some data) /\
    VolumeMA data = 0%float /\ VolumeRatio data = 1%float.
Proof. eexists. split; [vm_compute; reflexivity|]. split; reflexivity. Qed.

(** ** More on the level stage and the entry points *)

Lemma fold_pick_In {A : Type} (pick : A -> A -> bool) (l : list A) (m : A) :
  In (fold_left (fun acc v => if pick acc v then v else acc) l m) (m :: l).
Proof.
  revert m. induction l as [|a l IH]; intros m; cbn [fold_left].
  - now left.
  - destruct (IH (if pick m a then a else m)) as [H|H].
    + rewrite <- H. destruct (pick m a); [right; now left | now left].
    + right. now right.
Qed.

Lemma max_In {F : Type} {arith : Arith F} (values : list F) :
  values <> [] -> In (max values) values.
Proof.
  destruct values as [|v0 rest]; [congruence|]. intros _. unfold max.
  destruct (fold_pick_In (fun acc v => fltb acc v) (v0 :: rest) v0) as [H|H];
    [rewrite <- H; now left | exact H].
Qed.

Lemma min_In {F : Type} {arith : Arith F} (values : list F) :
  values <> [] -> In (min values) values.
Proof.
  destruct values as [|v0 rest]; [congruence|]. intros _. unfold min.
  destruct (fold_pick_In (fun acc v => fltb v acc) (v0 :: rest) v0) as [H|H];
    [rewrite <- H; now left | exact H].
Qed.

Lemma last_map {A B : Type} (f : A -> B) (l : list A) (d : A) (d' : B) :
  l <> [] -> last (map f l) d' = f (last l d).
Proof.
  induction l as [|a l IH]; [congruence|]. intros _.
  destruct l as [|b l']; [reflexivity|].
  change (last (map f (a :: b :: l')) d') with (last (map f (b :: l')) d').
  change (last (a :: b :: l') d) with (last (b :: l') d).
  apply IH. discriminate.
Qed.

(** [CalculateLevelsAnalysis] on a non-empty bar sequence and a non-nil
    snapshot, for a lookback that is a count. *)
Lemma CalculateLevelsAnalysis_eq {F : Type} {arith : Arith F}
    (c : IndicatorConfig F) (ohlcvList : list (OHLCV F)) (tech : TechnicalData F) :
  ohlcvList <> [] -> len ohlcvList <= max_int -> 0 <= SupportResistanceLookback c ->
  exists levels,
    CalculateLevelsAnalysis c ohlcvList (Some tech) = Ret (Some levels) /\
    DynamicResistance levels = BBUpper tech /\ DynamicSupport levels = BBLower tech /\
    StaticResistance levels
      = (if 0 <? Z.min (SupportResistanceLookback c) (len ohlcvList)
         then max (extractHighs (lookback_window (SupportResistanceLookback c) ohlcvList))
         else last (extractCloses ohlcvList) f0) /\
    StaticSupport levels
      = (if 0 <? Z.min (SupportResistanceLookback c) (len ohlcvList)
         then min (extractLows (lookback_window (SupportResistanceLookback c) ohlcvList))
         else last (extractCloses ohlcvList) f0) /\
    (SupportResistanceLookback c = 0 ->
     PriceVsResistance levels = f0 /\ PriceVsSupport levels = f0).
Proof.
  intros Hne Hn Hlb. unfold CalculateLevelsAnalysis.
  assert (Hl : 1 <= len ohlcvList).
  { destruct ohlcvList; [congruence|]. rewrite len_cons.
    pose proof (len_nonneg ohlcvList). lia. }
  destruct (len ohlcvList =? 0) eqn:E0; [apply Z.eqb_eq in E0; lia|].
  rewrite (index_last _ (bar f0 f0 f0 f0) Hne). cbn [bind].
  assert (Hq : (if len ohlcvList <? SupportResistanceLookback c
                then len ohlcvList else SupportResistanceLookback c)
               = Z.min (SupportResistanceLookback c) (len ohlcvList)).
  { destruct (_ <? _) eqn:E1; [apply Z.ltb_lt in E1 | apply Z.ltb_ge in E1]; lia. }
  rewrite Hq. set (q := Z.min (SupportResistanceLookback c) (len ohlcvList)).
  assert (Hqr : 0 <= q <= len ohlcvList) by (unfold q; lia).
  unfold extractCloses. rewrite (last_map Close ohlcvList (bar f0 f0 f0 f0) f0 Hne).
  destruct (q =? 0) eqn:E2.
  - apply Z.eqb_eq in E2. rewrite E2. cbn [Z.ltb Z.compare].
    eexists. split; [reflexivity|]. cbn. repeat split.
  - apply Z.eqb_neq in E2.
    rewrite wrap64_id by (unfold min_int, max_int in *; lia).
    rewrite slice_from_ret by lia. cbn [bind].
    destruct (0 <? q) eqn:E3; [|apply Z.ltb_ge in E3; lia].
    eexists. split; [reflexivity|]. cbn.
    repeat split; try reflexivity; unfold q in *; intros; lia.
Qed.

(** X1. The resistance and the support of the snapshot are attained: for a
    non-empty bar sequence and a lookback of at least one bar, Resistance
    is the High of a bar of the lookback window and Support is the Low of a
    bar of that window, whatever the values are. *)
Theorem levels_are_attained (F : Type) (arith : Arith F)
    (c : IndicatorConfig F) (ohlcvList : list (OHLCV F)) :
  periods_ok c -> ohlcvList <> [] -> len ohlcvList < max_int ->
  1 <= SupportResistanceLookback c ->
  exists data bh bl,
    Calculate c ohlcvList = Ret (Some data) /\
    In bh (lookback_window (SupportResistanceLookback c) ohlcvList) /\
    In bl (lookback_window (SupportResistanceLookback c) ohlcvList) /\
    Resistance data = High bh /\ Support data = Low bl.
Proof.
  intros Hc Hne Hn Hlb.
  assert (Hl : 1 <= len ohlcvList).
  { destruct ohlcvList; [congruence|]. rewrite len_cons.
    pose proof (len_nonneg ohlcvList). lia. }
  pose proof (lookback_window_nonempty _ _ Hlb Hne) as Hw.
  set (w := lookback_window (SupportResistanceLookback c) ohlcvList) in *.
  assert (Hh : In (max (extractHighs w)) (extractHighs w)).
  { apply max_In. unfold extractHighs. destruct w; [congruence | discriminate]. }
  assert (Hlo : In (min (extractLows w)) (extractLows w)).
  { apply min_In. unfold extractLows. destruct w; [congruence | discriminate]. }
  apply in_map_iff in Hh as (bh & Ebh & Hbh).
  apply in_map_iff in Hlo as (bl & Ebl & Hbl).
  exists (Technical_ref c ohlcvList), bh, bl.
  split; [now apply Calculate_eq|].
  split; [exact Hbh|]. split; [exact Hbl|].
  unfold Technical_ref. cbn [Resistance Support].
  unfold extractHighs at 1 2 3. rewrite len_map.
  destruct (0 <? Z.min (SupportResistanceLookback c) (len ohlcvList)) eqn:E;
    [|apply Z.ltb_ge in E; lia].
  unfold extractLows at 1. rewrite !lookback_window_map.
  fold w. split; [now rewrite Ebh | now rewrite Ebl].
Qed.

Lemma levels_are_attained_witness :
  periods_ok (DefaultConfig (F := float)) /\
  exists data bh bl,
    Calculate DefaultConfig rising_bars = Ret (Some data) /\
    In bh (lookback_window 20 rising_bars) /\
    In bl (lookback_window 20 rising_bars) /\
    Resistance data = High bh /\ Support data = Low bl.
Proof.
  split; [apply DefaultConfig_periods_ok|].
  refine (levels_are_attained float binary64 DefaultConfig rising_bars
            DefaultConfig_periods_ok _ _ _).
  - discriminate.
  - vm_compute. reflexivity.
  - vm_compute. discriminate.
Defined.

(** X2. On binary64, when no entry of a non-empty slice is NaN, [min]
    returns a lower bound and [max] an upper bound of every entry, and both
    return entries of the slice. *)
Theorem max_min_bound_entries (values : list float) (y : float) :
  (forall x, In x values -> PrimFloat.leb x x = true) -> In y values ->
  PrimFloat.leb (min values) y = true /\ PrimFloat.leb y (max values) = true /\
  In (min values) values /\ In (max values) values.
Proof.
  intros Hv Hy.
  assert (Hne : values <> []) by (destruct values; [destruct Hy | discriminate]).
  split; [now apply min_lower_bound|].
  split; [now apply max_upper_bound|].
  split; [now apply min_In | now apply max_In].
Qed.

Lemma max_min_bound_entries_witness :
  PrimFloat.leb (min [3; 1; 2]%float) 2%float = true /\
  PrimFloat.leb 2%float (max [3; 1; 2]%float) = true /\
  In (min [3; 1; 2]%float) [3; 1; 2]%float /\
  In (max [3; 1; 2]%float) [3; 1; 2]%float.
Proof.
  refine (max_min_bound_entries [3; 1; 2]%float 2%float _ _).
  - intros x Hx. cbn in Hx.
    destruct Hx as [<-|[<-|[<-|[]]]]; vm_compute; reflexivity.
  - cbn. tauto.
Defined.

Lemma b64_ltb_nan_l (x : float) : PrimFloat.ltb nan x = false.
Proof.
  rewrite ltb_spec.
  replace (Prim2SF nan) with S754_nan by (vm_compute; reflexivity).
  reflexivity.
Qed.

Lemma b64_ltb_nan_r (x : float) : PrimFloat.ltb x nan = false.
Proof.
  rewrite ltb_spec.
  replace (Prim2SF nan) with S754_nan by (vm_compute; reflexivity).
  unfold SFltb. destruct (Prim2SF x); reflexivity.
Qed.

Lemma fold_from_nan (pick : float -> float -> bool) (l : list float) :
  (forall v, pick nan v = false) ->
  fold_left (fun acc v => if pick acc v then v else acc) l nan = nan.
Proof.
  intros H. induction l as [|a l IH]; [reflexivity|].
  cbn [fold_left]. now rewrite H.
Qed.

Lemma fold_skip_nan (pick : float -> float -> bool) (l1 l2 : list float) (m : float) :
  (forall v, pick v nan = false) ->
  fold_left (fun acc v => if pick acc v then v else acc) (l1 ++ nan :: l2) m
  = fold_left (fun acc v => if pick acc v then v else acc) (l1 ++ l2) m.
Proof.
  intros H. rewrite !fold_left_app. cbn [fold_left]. now rewrite H.
Qed.

(** X3. NaN in the level stage, on binary64: a NaN in first position is
    what [max] and [min] return, whatever follows; a NaN in any later
    position is skipped as if it were absent. *)
Theorem max_min_nan (first : float) (l1 l2 : list float) :
  max (nan :: l1) = nan /\ min (nan :: l1) = nan /\
  max (first :: l1 ++ nan :: l2) = max (first :: l1 ++ l2) /\
  min (first :: l1 ++ nan :: l2) = min (first :: l1 ++ l2).
Proof.
  split; [|split; [|split]].
  - unfold max. cbn [fold_left]. rewrite b64_ltb_nan_l.
    apply (fold_from_nan PrimFloat.ltb). apply b64_ltb_nan_l.
  - unfold min. cbn [fold_left]. rewrite b64_ltb_nan_r.
    apply (fold_from_nan (fun acc v => PrimFloat.ltb v acc)). apply b64_ltb_nan_r.
  - unfold max.
    apply (fold_skip_nan PrimFloat.ltb (first :: l1) l2 first). apply b64_ltb_nan_r.
  - unfold min.
    apply (fold_skip_nan (fun acc v => PrimFloat.ltb v acc) (first :: l1) l2 first).
    apply b64_ltb_nan_l.
Qed.

Lemma trend_labels_exists {F : Type} {arith : Arith F}
    (c : IndicatorConfig F) (ohlcvList : list (OHLCV F)) (tech : TechnicalData F) :
  ohlcvList <> [] ->
  exists trend,
    CalculateTrendAnalysis c ohlcvList (Some tech) = Ret (Some trend) /\
    RSILevel trend = RSI tech.
Proof.
  intros Hne. unfold CalculateTrendAnalysis.
  assert (Hl : 1 <= len ohlcvList).
  { destruct ohlcvList; [congruence|]. rewrite len_cons.
    pose proof (len_nonneg ohlcvList). lia. }
  destruct (len ohlcvList =? 0) eqn:E0; [apply Z.eqb_eq in E0; lia|].
  rewrite (index_last _ (bar f0 f0 f0 f0) Hne). cbn [bind].
  eexists. split; reflexivity.
Qed.

(** X4. The labels of [CalculateTrendAnalysis]: for a non-empty bar
    sequence and a non-nil snapshot, with price the last close, the
    short-term label is "up" exactly when price > SMA20 and the medium-term
    label exactly when price > SMA50; the overall label is "strong up" when
    both hold, "strong down" when neither holds and "ranging" otherwise;
    the MACD label is "bullish" exactly when MACD > MACDSignal. *)
Theorem trend_labels (F : Type) (arith : Arith F)
    (c : IndicatorConfig F) (ohlcvList : list (OHLCV F)) (tech : TechnicalData F) :
  ohlcvList <> [] ->
  let price := last (extractCloses ohlcvList) f0 in
  exists trend,
    CalculateTrendAnalysis c ohlcvList (Some tech) = Ret (Some trend) /\
    ShortTerm trend = (if fltb (SMA20 tech) price then "上涨" else "下跌")%string /\
    MediumTerm trend = (if fltb (SMA50 tech) price then "上涨" else "下跌")%string /\
    MACDTrend trend
      = (if fltb (MACDSignal tech) (MACD tech) then "bullish" else "bearish")%string /\
    Overall trend
      = (match fltb (SMA20 tech) price, fltb (SMA50 tech) price with
         | true, true => "强势上涨"
         | false, false => "强势下跌"
         | _, _ => "震荡整理"
         end)%string /\
    RSILevel trend = RSI tech.
Proof.
  intros Hne price. unfold CalculateTrendAnalysis.
  assert (Hl : 1 <= len ohlcvList).
  { destruct ohlcvList; [congruence|]. rewrite len_cons.
    pose proof (len_nonneg ohlcvList). lia. }
  destruct (len ohlcvList =? 0) eqn:E0; [apply Z.eqb_eq in E0; lia|].
  rewrite (index_last _ (bar f0 f0 f0 f0) Hne). cbn [bind].
  assert (Hp : Close (last ohlcvList (bar f0 f0 f0 f0)) = price).
  { unfold price, extractCloses. symmetry. now apply last_map. }
  rewrite Hp. eexists. split; [reflexivity|].
  cbn [ShortTerm MediumTerm MACDTrend Overall RSILevel].
  destruct (fltb (SMA20 tech) price), (fltb (SMA50 tech) price); repeat split.
Qed.

Lemma trend_labels_witness :
  exists trend,
    CalculateTrendAnalysis DefaultConfig rising_bars (Some zero_snapshot)
      = Ret (Some trend) /\
    ShortTerm trend = "上涨"%string /\ MediumTerm trend = "上涨"%string /\
    MACDTrend trend = "bearish"%string /\ Overall trend = "强势上涨"%string /\
    RSILevel trend = 0%float.
Proof.
  refine (trend_labels float binary64 DefaultConfig rising_bars zero_snapshot _).
  discriminate.
Defined.

(** X5. The three entry points agree on a non-empty bar sequence: fed
    with the snapshot of [Calculate], the trend and the levels analysis
    both return a result; the static levels are the snapshot's Resistance
    and Support, the dynamic levels its Bollinger bands, and the RSI level
    its RSI. *)
Theorem pipeline_results_agree (F : Type) (arith : Arith F)
    (c : IndicatorConfig F) (ohlcvList : list (OHLCV F)) :
  periods_ok c -> ohlcvList <> [] -> len ohlcvList < max_int ->
  exists data trend levels,
    Calculate c ohlcvList = Ret (Some data) /\
    CalculateTrendAnalysis c ohlcvList (Some data) = Ret (Some trend) /\
    CalculateLevelsAnalysis c ohlcvList (Some data) = Ret (Some levels) /\
    RSILevel trend = RSI data /\
    StaticResistance levels = Resistance data /\
    StaticSupport levels = Support data /\
    DynamicResistance levels = BBUpper data /\
    DynamicSupport levels = BBLower data.
Proof.
  intros Hc Hne Hn.
  pose proof Hc as (_ & _ & _ & _ & _ & _ & _ & _ & _ & _ & _ & Hlb).
  destruct (trend_labels_exists c ohlcvList (Technical_ref c ohlcvList) Hne)
    as (trend & Ht & Hr).
  destruct (CalculateLevelsAnalysis_eq c ohlcvList (Technical_ref c ohlcvList) Hne)
    as (levels & H1 & H2 & H3 & H4 & H5 & _); [lia | apply Hlb |].
  exists (Technical_ref c ohlcvList), trend, levels.
  split; [now apply Calculate_eq|].
  split; [exact Ht|]. split; [exact H1|]. split; [exact Hr|].
  rewrite H4, H5, H2, H3.
  unfold Technical_ref. cbn [Resistance Support BBUpper BBLower].
  unfold extractHighs, extractLows. rewrite !len_map, !lookback_window_map.
  destruct (0 <? Z.min (SupportResistanceLookback c) (len ohlcvList));
    repeat split.
Qed.

Lemma pipeline_results_agree_witness :
  periods_ok (DefaultConfig (F := float)) /\
  exists data trend levels,
    Calculate DefaultConfig rising_bars = Ret (Some data) /\
    CalculateTrendAnalysis DefaultConfig rising_bars (Some data) = Ret (Some trend) /\
    CalculateLevelsAnalysis DefaultConfig rising_bars (Some data) = Ret (Some levels) /\
    RSILevel trend = RSI data /\
    StaticResistance levels = Resistance data /\
    StaticSupport levels = Support data /\
    DynamicResistance levels = BBUpper data /\
    DynamicSupport levels = BBLower data.
Proof.
  split; [apply DefaultConfig_periods_ok|].
  refine (pipeline_results_agree float binary64 DefaultConfig rising_bars
            DefaultConfig_periods_ok _ _).
  - discriminate.
  - vm_compute. reflexivity.
Defined.

Lemma int_range_cons (lo hi : Z) :
  lo <= hi -> int_range lo hi = lo :: int_range (lo + 1) hi.
Proof.
  intros H. unfold int_range.
  replace (Z.to_nat (hi - lo + 1)) with (S (Z.to_nat (hi - (lo + 1) + 1))) by lia.
  cbn [seq map]. f_equal; [lia|].
  rewrite <- seq_shift, map_map. apply map_ext. intros k. lia.
Qed.

(** X6. A negative period is no count.  For every negative [int] p:
    [calculateRSI] panics on every input, [calculateEMA] panics on every
    non-empty input (and returns 0 on the empty one), and
    [calculateMACDValues] with slow period p panics on every input. *)
Theorem negative_period_panics (F : Type) (arith : Arith F)
    (c : IndicatorConfig F) (values : list F) (fast p : Z) :
  min_int <= p < 0 -> len values <= max_int ->
  calculateRSI c values p = Panic /\
  (values <> [] -> calculateEMA values p = Panic) /\
  calculateEMA (@nil F) p = Ret f0 /\
  calculateMACDValues values fast p = Panic.
Proof.
  intros Hp Hn. pose proof (len_nonneg values) as H0.
  split; [|split; [|split]].
  - unfold calculateRSI.
    rewrite wrap64_id by (unfold min_int, max_int in *; lia).
    destruct (len values <? p + 1) eqn:E; [apply Z.ltb_lt in E; lia|].
    destruct (len values - 1 <? 0); [reflexivity|].
    pose proof (len_nonneg (price_changes values)).
    destruct (len (price_changes values) <? p) eqn:E1; [apply Z.ltb_lt in E1; lia|].
    unfold for_from.
    destruct (p <? 0) eqn:E2; [reflexivity | apply Z.ltb_ge in E2; lia].
  - intros Hne. apply calculateEMA_negative_period; [exact Hne | lia].
  - reflexivity.
  - unfold calculateMACDValues.
    destruct (len values <? p) eqn:E; [apply Z.ltb_lt in E; lia|].
    rewrite int_range_cons by lia. cbn [map collect].
    unfold macd_at at 1, slice_to.
    destruct (p <? 0) eqn:E2; [reflexivity | apply Z.ltb_ge in E2; lia].
Qed.

Lemma negative_period_panics_witness :
  calculateRSI DefaultConfig [1; 2; 3]%float (-1) = Panic /\
  ([1; 2; 3]%float <> [] -> calculateEMA [1; 2; 3]%float (-1) = Panic) /\
  calculateEMA (@nil float) (-1) = Ret 0%float /\
  calculateMACDValues [1; 2; 3]%float 12 (-1) = Panic.
Proof.
  refine (negative_period_panics float binary64 DefaultConfig [1; 2; 3]%float 12 (-1) _ _).
  - unfold min_int. lia.
  - vm_compute. discriminate.
Defined.

(** X7. A negative lookback makes [CalculateLevelsAnalysis] panic on
    every non-empty bar sequence (on the slice [ohlcvList[len-lookback:]]),
    and a lookback of 0 makes it return the last close for both static
    levels, with both distances 0. *)
Theorem levels_lookback_edges (F : Type) (arith : Arith F)
    (c : IndicatorConfig F) (ohlcvList : list (OHLCV F)) (tech : TechnicalData F) :
  ohlcvList <> [] -> len ohlcvList <= max_int ->
  (min_int <= SupportResistanceLookback c < 0 ->
   CalculateLevelsAnalysis c ohlcvList (Some tech) = Panic) /\
  (SupportResistanceLookback c = 0 ->
   CalculateLevelsAnalysis c ohlcvList (Some tech)
   = Ret (Some {| StaticResistance := last (extractCloses ohlcvList) f0;
                  StaticSupport := last (extractCloses ohlcvList) f0;
                  DynamicResistance := BBUpper tech;
                  DynamicSupport := BBLower tech;
                  PriceVsResistance := f0;
                  PriceVsSupport := f0 |})).
Proof.
  intros Hne Hn.
  assert (Hl : 1 <= len ohlcvList).
  { destruct ohlcvList; [congruence|]. rewrite len_cons.
    pose proof (len_nonneg ohlcvList). lia. }
  split; intros Hlb; unfold CalculateLevelsAnalysis;
    (destruct (len ohlcvList =? 0) eqn:E0; [apply Z.eqb_eq in E0; lia|]);
    rewrite (index_last _ (bar f0 f0 f0 f0) Hne); cbn [bind].
  - destruct (len ohlcvList <? SupportResistanceLookback c) eqn:E1;
      [apply Z.ltb_lt in E1; lia|].
    destruct (SupportResistanceLookback c =? 0) eqn:E2; [apply Z.eqb_eq in E2; lia|].
    unfold slice_from.
    set (z := len ohlcvList - SupportResistanceLookback c).
    assert (Hz : len ohlcvList < z <= max_int + 2 ^ 63)
      by (unfold z, min_int, max_int in *; lia).
    destruct (Z_le_gt_dec z max_int) as [Hle|Hgt].
    + rewrite wrap64_id by (unfold min_int, max_int in *; lia).
      destruct (z <? 0); [reflexivity|].
      destruct (len ohlcvList <? z) eqn:E3; [reflexivity | apply Z.ltb_ge in E3; lia].
    + assert (Hw : wrap64 z = z - 2 ^ 64).
      { unfold wrap64, max_int in *.
        replace (z + 2 ^ 63) with ((z - 2 ^ 63) + 1 * 2 ^ 64) by lia.
        rewrite Z.mod_add by lia. rewrite Z.mod_small by lia. lia. }
      rewrite Hw.
      destruct (z - 2 ^ 64 <? 0) eqn:E3;
        [reflexivity | apply Z.ltb_ge in E3; unfold max_int in *; lia].
  - rewrite Hlb.
    destruct (len ohlcvList <? 0) eqn:E1; [apply Z.ltb_lt in E1; lia|].
    cbn [Z.eqb]. unfold extractCloses.
    now rewrite (last_map Close ohlcvList (bar f0 f0 f0 f0) f0 Hne).
Qed.

Lemma levels_lookback_edges_witness :
  CalculateLevelsAnalysis (with_lookback DefaultConfig (-1)) rising_bars
    (Some zero_snapshot) = Panic.
Proof.
  refine (proj1 (levels_lookback_edges float binary64
                   (with_lookback DefaultConfig (-1)) rising_bars zero_snapshot _ _) _).
  - discriminate.
  - vm_compute. discriminate.
  - cbn. unfold min_int. lia.
Defined.

(** ** Scheduling *)

Lemma In_int_range (lo hi i : Z) : lo <= i <= hi -> In i (int_range lo hi).
Proof.
  intros H. apply (nth_error_In _ (Z.to_nat (i - lo))). now apply int_range_nth.
Qed.

Lemma align_loop_multiples (m : Z) (fuel : nat) (k : Z) (points : list Z) :
  1 <= m <= 60 -> 0 <= k -> (60 - k * m <= Z.of_nat fuel * m) ->
  align_loop fuel (k * m) m points
  = Some (points ++ map (fun j => j * m) (int_range k (59 / m))).
Proof.
  intros Hm. revert k points.
  induction fuel as [|fuel IH]; intros k points Hk Hf.
  - cbn [align_loop].
    destruct (k * m <? 60) eqn:E; [apply Z.ltb_lt in E; lia|].
    apply Z.ltb_ge in E.
    assert (59 / m < k) by (apply Z.div_lt_upper_bound; nia).
    unfold int_range. replace (Z.to_nat (59 / m - k + 1)) with 0%nat by lia.
    cbn. now rewrite app_nil_r.
  - cbn [align_loop].
    destruct (k * m <? 60) eqn:E.
    + apply Z.ltb_lt in E.
      rewrite wrap64_id by (unfold min_int, max_int; nia).
      replace (k * m + m) with ((k + 1) * m) by ring.
      rewrite IH by nia.
      assert (k <= 59 / m) by (apply Z.div_le_lower_bound; nia).
      rewrite (int_range_cons k) by lia.
      cbn [map]. now rewrite <- app_assoc.
    + apply Z.ltb_ge in E.
      assert (59 / m < k) by (apply Z.div_lt_upper_bound; nia).
      unfold int_range. replace (Z.to_nat (59 / m - k + 1)) with 0%nat by lia.
      cbn. now rewrite app_nil_r.
Qed.

Lemma clamp_minutes_range (n : Z) : 1 <= clamp_minutes n <= 60.
Proof.
  unfold clamp_minutes.
  destruct (n <? 1) eqn:E1; [cbn; lia|].
  apply Z.ltb_ge in E1.
  destruct (60 <? n) eqn:E2; [lia|]. apply Z.ltb_ge in E2. lia.
Qed.

Lemma calculateAlignMinutes_eq (interval : Z) :
  calculateAlignMinutes interval
  = Some (multiples_below_60 (clamp_minutes (int_of_float64 (Minutes interval)))).
Proof.
  unfold calculateAlignMinutes, multiples_below_60.
  set (m := clamp_minutes _).
  pose proof (clamp_minutes_range (int_of_float64 (Minutes interval))) as Hm.
  fold m in Hm.
  change 0 with (0 * m) at 1.
  rewrite (align_loop_multiples m 60 0 []) by lia.
  reflexivity.
Qed.

Lemma multiples_below_60_In (m t : Z) :
  1 <= m -> In t (multiples_below_60 m) <-> (exists k, 0 <= k /\ t = k * m /\ t < 60).
Proof.
  intros Hm. unfold multiples_below_60. rewrite in_map_iff. split.
  - intros [k [<- Hk]]. apply int_range_In in Hk. exists k.
    split; [lia|]. split; [reflexivity|].
    assert (k * m <= 59); [|lia].
    transitivity (59 / m * m); [nia|].
    rewrite Z.mul_comm. apply Z.mul_div_le. lia.
  - intros [k [Hk [-> Hlt]]]. exists k. split; [reflexivity|].
    apply In_int_range. split; [lia|].
    apply Z.div_le_lower_bound; lia.
Qed.

Lemma int_of_float64_whole_minutes (n : Z) :
  1 <= n <= 60 -> int_of_float64 (Minutes (n * Minute)) = n.
Proof.
  intros H.
  assert (Hall : forallb (fun n => int_of_float64 (Minutes (n * Minute)) =? n)
                   (int_range 1 60) = true) by (vm_compute; reflexivity).
  rewrite forallb_forall in Hall.
  apply Z.eqb_eq, Hall, In_int_range, H.
Qed.

Lemma align_loop_never_ends (n : Z) (fuel : nat) (k : Z) (points : list Z) :
  min_int <= n <= 0 -> 0 <= k -> (k + Z.of_nat fuel) * (- n) <= 2 ^ 63 ->
  align_loop fuel (k * n) n points = None.
Proof.
  intros Hn. revert k points.
  induction fuel as [|fuel IH]; intros k points Hk Hf; cbn [align_loop];
    (destruct (k * n <? 60) eqn:E; [|apply Z.ltb_ge in E; nia]).
  - reflexivity.
  - rewrite wrap64_id by (unfold min_int, max_int in *; nia).
    replace (k * n + n) with ((k + 1) * n) by ring.
    apply IH; [lia|]. nia.
Qed.

Lemma find_multiples (m c : Z) (n : nat) (k K : Z) :
  1 <= m -> n = Z.to_nat (K - k + 1) -> (k - 1) * m <= c ->
  match find (fun min => c <? min) (map (fun j => j * m) (int_range k K)) with
  | Some t => c < t <= c + m /\ exists j, k <= j <= K /\ t = j * m
  | None => K < k \/ K * m <= c
  end.
Proof.
  intros Hm. revert k.
  induction n as [|n IH]; intros k Hn Hc.
  - unfold int_range. rewrite <- Hn. cbn. left. lia.
  - rewrite int_range_cons by lia. cbn [map find].
    destruct (c <? k * m) eqn:E.
    + apply Z.ltb_lt in E. split; [lia|]. exists k. lia.
    + apply Z.ltb_ge in E.
      specialize (IH (k + 1) ltac:(lia) ltac:(replace (k + 1 - 1) with k by lia; lia)).
      destruct (find _ _) as [t|].
      * destruct IH as [Ht [j [Hj ->]]]. split; [exact Ht|]. exists j. lia.
      * destruct IH as [IH|IH]; [|now right].
        right. replace K with k by lia. exact E.
Qed.

(** X8. Whatever the interval, [calculateAlignMinutes] returns, and its
    alignment points are exactly the multiples below 60 of the interval's
    whole minutes clamped to 1..60: the list is never empty, starts at 0
    and stays within the minutes of an hour. *)
Theorem calculateAlignMinutes_points (interval : Z) :
  let m := clamp_minutes (int_of_float64 (Minutes interval)) in
  1 <= m <= 60 /\
  calculateAlignMinutes interval = Some (multiples_below_60 m) /\
  hd_error (multiples_below_60 m) = Some 0 /\
  (forall t, In t (multiples_below_60 m) <->
             exists k, 0 <= k /\ t = k * m /\ t < 60).
Proof.
  intros m. pose proof (clamp_minutes_range (int_of_float64 (Minutes interval))) as Hm.
  fold m in Hm. split; [exact Hm|]. split; [apply calculateAlignMinutes_eq|].
  split.
  - unfold multiples_below_60. rewrite int_range_cons.
    + reflexivity.
    + apply Z.div_pos; lia.
  - intros t. apply multiples_below_60_In. lia.
Qed.

(** X9. For an interval of n whole minutes, 1 <= n <= 60 (what [main]
    passes for such a configured interval), the scheduler's alignment points
    and the points [main] displays are the same list: the multiples of n
    below 60; sixty iterations of either loop are enough. *)
Theorem align_points_whole_minutes (n : Z) :
  1 <= n <= 60 ->
  calculateAlignMinutes (n * Minute) = Some (multiples_below_60 n) /\
  calculateAlignPoints 60 n = Some (multiples_below_60 n).
Proof.
  intros Hn. split.
  - rewrite calculateAlignMinutes_eq, int_of_float64_whole_minutes by exact Hn.
    unfold clamp_minutes.
    destruct (n <? 1) eqn:E1; [apply Z.ltb_lt in E1; lia|].
    destruct (60 <? n) eqn:E2; [apply Z.ltb_lt in E2; lia|]. reflexivity.
  - unfold calculateAlignPoints, multiples_below_60.
    change 0 with (0 * n) at 1.
    now rewrite (align_loop_multiples n 60 0 []) by lia.
Qed.

Lemma align_points_whole_minutes_witness :
  calculateAlignMinutes (15 * Minute) = Some (multiples_below_60 15) /\
  calculateAlignPoints 60 15 = Some (multiples_below_60 15).
Proof.
  apply (align_points_whole_minutes 15). lia.
Defined.

(** X10. [main]'s [calculateAlignPoints] has no clamp: for an interval of
    0 minutes its loop never ends, whatever the number of iterations
    granted, and for a negative interval n it has not ended after any
    number of iterations up to 2^63 / |n|; the scheduler, given the same
    0-minute interval, returns all sixty minutes of the hour. *)
Theorem calculateAlignPoints_unclamped (fuel : nat) (n : Z) :
  min_int <= n <= 0 -> Z.of_nat fuel * (- n) <= 2 ^ 63 ->
  calculateAlignPoints fuel n = None /\
  calculateAlignMinutes (0 * Minute) = Some (int_range 0 59).
Proof.
  intros Hn Hf. split.
  - unfold calculateAlignPoints. change 0 with (0 * n) at 1.
    apply align_loop_never_ends; [exact Hn|lia|lia].
  - vm_compute. reflexivity.
Qed.

Lemma calculateAlignPoints_unclamped_witness :
  calculateAlignPoints 1000 0 = None /\
  calculateAlignMinutes (0 * Minute) = Some (int_range 0 59).
Proof.
  apply (calculateAlignPoints_unclamped 1000 0).
  - unfold min_int. lia.
  - lia.
Defined.

(** X11. With the alignment points of [calculateAlignMinutes], the next
    aligned time is strictly after the current minute and at most one
    (clamped) interval after it, never beyond the top of the next hour, and
    it is an alignment point or the top of the next hour; the delay is added
    on top. *)
Theorem next_aligned_time_bounds (interval delay currentMinute : Z) (l : list Z) :
  0 <= currentMinute <= 59 ->
  calculateAlignMinutes interval = Some l ->
  let m := clamp_minutes (int_of_float64 (Minutes interval)) in
  exists t,
    calculateNextAlignedTime l delay currentMinute = Ret (t * Minute + delay) /\
    currentMinute < t <= currentMinute + m /\ t <= 60 /\
    (In t l \/ t = 60).
Proof.
  intros Hc Hl m.
  pose proof (clamp_minutes_range (int_of_float64 (Minutes interval))) as Hm.
  fold m in Hm.
  rewrite calculateAlignMinutes_eq in Hl. fold m in Hl.
  injection Hl as <-.
  unfold calculateNextAlignedTime.
  pose proof (find_multiples m currentMinute _ 0 (59 / m) ltac:(lia) eq_refl
                ltac:(lia)) as Hf.
  fold (multiples_below_60 m) in Hf.
  destruct (find _ (multiples_below_60 m)) as [t|] eqn:E.
  - destruct Hf as [Ht [j [Hj ->]]]. exists (j * m).
    split; [reflexivity|]. split; [exact Ht|].
    assert (Hin : In (j * m) (multiples_below_60 m)).
    { unfold multiples_below_60. apply in_map_iff. exists j.
      split; [reflexivity|]. now apply In_int_range. }
    split; [|now left].
    apply multiples_below_60_In in Hin; [|lia].
    destruct Hin as [k [_ [_ Hlt]]]. lia.
  - exists 60. split.
    + unfold multiples_below_60.
      rewrite int_range_cons by (apply Z.div_pos; lia).
      cbn [map]. unfold index. cbn [Z.ltb Z.compare Z.to_nat nth_error bind].
      unfold Hour. apply f_equal. ring.
    + assert (0 <= 59 / m) by (apply Z.div_pos; lia).
      destruct Hf as [Hf|Hf]; [lia|].
      pose proof (Z.mul_succ_div_gt 59 m ltac:(lia)).
      split; [lia|]. split; [lia|]. now right.
Qed.

Lemma next_aligned_time_bounds_witness :
  exists t,
    calculateNextAlignedTime (multiples_below_60 15) (3 * Second) 47
    = Ret (t * Minute + 3 * Second) /\
    47 < t <= 47 + 15 /\ t <= 60 /\
    (In t (multiples_below_60 15) \/ t = 60).
Proof.
  refine (next_aligned_time_bounds (15 * Minute) (3 * Second) 47
            (multiples_below_60 15) _ _).
  - lia.
  - vm_compute. reflexivity.
Defined.

(** X12. [calculateNextAlignedTime] panics exactly when the scheduler has
    no alignment point at all (an empty list given to
    [WithCustomAlignedSchedule]): with no point after the current minute it
    reads [alignMinutes[0]]. *)
Theorem next_aligned_time_panics_iff (alignMinutes : list Z) (delay currentMinute : Z) :
  calculateNextAlignedTime alignMinutes delay currentMinute = Panic
  <-> alignMinutes = [].
Proof.
  unfold calculateNextAlignedTime. split.
  - destruct alignMinutes as [|a l]; [reflexivity|].
    destruct (find _ (a :: l)); [discriminate|]. cbn. discriminate.
  - intros ->. reflexivity.
Qed.

(** ** Configuration and the exchange factory *)

Lemma Validate_accepted_facts (c : config.Config) :
  config.Validate c = None ->
  config.DeepSeekAPIKey (config.API c) <> ""%string /\
  ((config.ExchangeType (config.API c) = "okx"%string /\
    config.OKXAPIKey (config.API c) <> ""%string /\
    config.OKXSecret (config.API c) <> ""%string /\
    config.OKXPassword (config.API c) <> ""%string) \/
   (config.ExchangeType (config.API c) = "binance"%string /\
    config.BinanceAPIKey (config.API c) <> ""%string /\
    config.BinanceSecret (config.API c) <> ""%string)) /\
  PrimFloat.leb (config.Amount (config.Trading c)) 0 = false /\
  ((config.GetTradingMode c = "spot"%string /\
    config.IsSpotMode c = true /\ config.IsFuturesMode c = false) \/
   (config.GetTradingMode c = "futures"%string /\
    config.IsSpotMode c = false /\ config.IsFuturesMode c = true /\
    1 <= config.Leverage (config.Trading c))).
Proof.
  unfold config.Validate, config.IsSpotMode, config.IsFuturesMode, config.GetTradingMode.
  intros H.
  destruct (String.eqb_spec (config.DeepSeekAPIKey (config.API c)) "") as [|Hk];
    [discriminate|].
  split; [exact Hk|].
  destruct (String.eqb_spec (config.ExchangeType (config.API c)) config.ExchangeOKX)
    as [Hx|Hx].
  - destruct (String.eqb_spec (config.OKXAPIKey (config.API c)) "") as [|H1];
      [discriminate|].
    destruct (String.eqb_spec (config.OKXSecret (config.API c)) "") as [|H2];
      [discriminate|].
    destruct (String.eqb_spec (config.OKXPassword (config.API c)) "") as [|H3];
      [discriminate|].
    cbn [orb] in H. split; [left; now repeat split|].
    destruct (PrimFloat.leb _ 0); [discriminate|]. split; [reflexivity|].
    destruct (String.eqb_spec (config.TradingMode (config.Trading c)) "").
    + cbn in H |- *. right.
      destruct (config.Leverage (config.Trading c) <=? 0) eqn:E; [discriminate|].
      apply Z.leb_gt in E. repeat split; lia.
    + destruct (String.eqb_spec (config.TradingMode (config.Trading c))
                  config.TradingModeSpot) as [Hs|Hs].
      * left. rewrite Hs. repeat split.
      * destruct (String.eqb_spec (config.TradingMode (config.Trading c))
                    config.TradingModeFutures) as [Hf|Hf]; [|discriminate].
        right.
        destruct (config.Leverage (config.Trading c) <=? 0) eqn:E; [discriminate|].
        apply Z.leb_gt in E. rewrite Hf. repeat split; lia.
  - destruct (String.eqb_spec (config.ExchangeType (config.API c)) config.ExchangeBinance)
      as [Hb|Hb]; [|discriminate].
    destruct (String.eqb_spec (config.BinanceAPIKey (config.API c)) "") as [|H1];
      [discriminate|].
    destruct (String.eqb_spec (config.BinanceSecret (config.API c)) "") as [|H2];
      [discriminate|].
    cbn [orb] in H. split; [right; now repeat split|].
    destruct (PrimFloat.leb _ 0); [discriminate|]. split; [reflexivity|].
    destruct (String.eqb_spec (config.TradingMode (config.Trading c)) "").
    + cbn in H |- *. right.
      destruct (config.Leverage (config.Trading c) <=? 0) eqn:E; [discriminate|].
      apply Z.leb_gt in E. repeat split; lia.
    + destruct (String.eqb_spec (config.TradingMode (config.Trading c))
                  config.TradingModeSpot) as [Hs|Hs].
      * left. rewrite Hs. repeat split.
      * destruct (String.eqb_spec (config.TradingMode (config.Trading c))
                    config.TradingModeFutures) as [Hf|Hf]; [|discriminate].
        right.
        destruct (config.Leverage (config.Trading c) <=? 0) eqn:E; [discriminate|].
        apply Z.leb_gt in E. rewrite Hf. repeat split; lia.
Qed.

(** X13. A configuration that [Validate] accepts has a DeepSeek key, an
    exchange type "okx" or "binance" with that exchange's credentials, an
    amount that is not [<= 0], and a trading mode that is "spot" or
    "futures" (the empty mode counting as futures), with a leverage of at
    least 1 in futures mode; exactly one of [IsSpotMode] and
    [IsFuturesMode] holds for it. *)
Theorem Validate_accepted (c : config.Config) :
  config.Validate c = None ->
  config.DeepSeekAPIKey (config.API c) <> ""%string /\
  ((config.ExchangeType (config.API c) = "okx"%string /\
    config.OKXAPIKey (config.API c) <> ""%string /\
    config.OKXSecret (config.API c) <> ""%string /\
    config.OKXPassword (config.API c) <> ""%string) \/
   (config.ExchangeType (config.API c) = "binance"%string /\
    config.BinanceAPIKey (config.API c) <> ""%string /\
    config.BinanceSecret (config.API c) <> ""%string)) /\
  PrimFloat.leb (config.Amount (config.Trading c)) 0 = false /\
  ((config.GetTradingMode c = "spot"%string /\
    config.IsSpotMode c = true /\ config.IsFuturesMode c = false) \/
   (config.GetTradingMode c = "futures"%string /\
    config.IsSpotMode c = false /\ config.IsFuturesMode c = true /\
    1 <= config.Leverage (config.Trading c))).
Proof.
  exact (Validate_accepted_facts c).
Qed.

Lemma Validate_accepted_witness :
  config.GetTradingMode (sample_config "okx") = "futures"%string /\
  config.IsFuturesMode (sample_config "okx") = true.
Proof.
  pose proof (Validate_accepted (sample_config "okx") eq_refl) as H.
  destruct H as [_ [_ [_ [[H _]|[H [_ [H' _]]]]]]].
  - discriminate H.
  - exact (conj H H').
Defined.

(** X14. [NewExchange] builds a client exactly for the exchange type "okx":
    a configuration that [Validate] accepts with exchange type "binance"
    (one of [GetSupportedExchanges]) gets the unsupported-type error, and
    one accepted with another type gets an OKX client carrying the
    configuration's trading mode. *)
Theorem NewExchange_after_Validate (c : config.Config) :
  config.Validate c = None ->
  In (config.ExchangeType (config.API c)) exchange.GetSupportedExchanges /\
  (config.ExchangeType (config.API c) = "binance"%string ->
   exchange.NewExchange (config.API c) (config.GetTradingMode c)
   = inr (exchange.UnsupportedExchangeType "binance")) /\
  (config.ExchangeType (config.API c) <> "binance"%string ->
   exists client,
     exchange.NewExchange (config.API c) (config.GetTradingMode c) = inl client /\
     exchange.tradingMode client = config.GetTradingMode c /\
     (exchange.tradingMode client = "spot"%string \/
      exchange.tradingMode client = "futures"%string)).
Proof.
  intros H. apply Validate_accepted_facts in H.
  destruct H as [_ [Hx [_ Hm]]].
  split; [|split].
  - destruct Hx as [[-> _]|[-> _]]; cbn; auto.
  - intros Hb. unfold exchange.NewExchange. rewrite Hb. reflexivity.
  - intros Hb. destruct Hx as [[Hx _]|[Hx _]]; [|contradiction].
    unfold exchange.NewExchange. rewrite Hx. cbn.
    eexists. split; [reflexivity|]. cbn. split; [reflexivity|].
    destruct Hm as [[-> _]|[-> _]]; auto.
Qed.

Lemma NewExchange_after_Validate_witness :
  exchange.NewExchange (config.API (sample_config "binance"))
    (config.GetTradingMode (sample_config "binance"))
  = inr (exchange.UnsupportedExchangeType "binance").
Proof.
  exact (proj1 (proj2 (NewExchange_after_Validate (sample_config "binance") eq_refl))
           eq_refl).
Defined.

(** ** The OKX client's helpers *)

Lemma Split_nonempty (s : string) (sep : Ascii.ascii) : Split s sep <> [].
Proof.
  destruct s as [|c s]; cbn; [discriminate|].
  destruct (Ascii.eqb c sep); [discriminate|].
  destruct (Split s sep); discriminate.
Qed.

Lemma Split_without (s : string) (sep : Ascii.ascii) :
  Contains s sep = false -> Split s sep = [s].
Proof.
  induction s as [|c s IH]; cbn; [reflexivity|].
  intros H. apply orb_false_iff in H. destruct H as [-> H].
  now rewrite (IH H).
Qed.

Lemma Split_append (a b : string) (sep : Ascii.ascii) :
  Contains a sep = false ->
  Split (a ++ String sep b) sep = a :: Split b sep.
Proof.
  induction a as [|c a IH]; cbn.
  - intros _. now rewrite Ascii.eqb_refl.
  - intros H. apply orb_false_iff in H. destruct H as [-> H].
    now rewrite (IH H).
Qed.

Lemma Contains_append (a b : string) (sep : Ascii.ascii) :
  Contains (a ++ b) sep = Contains a sep || Contains b sep.
Proof.
  induction a as [|c a IH]; cbn; [reflexivity|]. now rewrite IH, orb_assoc.
Qed.

(** Every piece of a split is free of the separator, and of every byte the
    string is free of. *)
Lemma Split_pieces (s : string) (sep x : Ascii.ascii) (p : string) :
  In p (Split s sep) ->
  Contains p sep = false /\ (Contains s x = false -> Contains p x = false).
Proof.
  revert p. induction s as [|c s IH]; cbn; intros p Hin.
  - destruct Hin as [<-|[]]. now split.
  - destruct (Ascii.eqb c sep) eqn:E.
    + destruct Hin as [<-|Hin]; [now split|].
      destruct (IH p Hin) as [H1 H2]. split; [exact H1|].
      intros H. apply orb_false_iff in H. now apply H2.
    + pose proof (Split_nonempty s sep) as Hne.
      destruct (Split s sep) as [|q qs]; [congruence|].
      destruct Hin as [<-|Hin].
      * destruct (IH q (or_introl eq_refl)) as [H1 H2]. cbn. rewrite E, H1.
        split; [reflexivity|].
        intros H. apply orb_false_iff in H. destruct H as [-> H]. now apply H2.
      * destruct (IH p (or_intror Hin)) as [H1 H2]. split; [exact H1|].
        intros H. apply orb_false_iff in H. now apply H2.
Qed.

(** X15. For a base symbol without "/" and a quote symbol without "/" and
    ":", the instrument id of [convertSymbol(ParseSymbols(a, b))] is "a-b"
    for a spot client and "a-b-SWAP" for any other client. *)
Theorem convertSymbol_ParseSymbols (c : exchange.OKXClient) (symbolA symbolB : string) :
  Contains symbolA "/"%char = false ->
  Contains symbolB "/"%char = false -> Contains symbolB ":"%char = false ->
  convertSymbol c (ParseSymbols symbolA symbolB)
  = if (exchange.tradingMode c =? "spot")%string
    then (symbolA ++ "-" ++ symbolB)%string
    else (symbolA ++ "-" ++ symbolB ++ "-SWAP")%string.
Proof.
  intros HA HB1 HB2. unfold convertSymbol, ParseSymbols.
  change ("/" ++ symbolB ++ ":" ++ symbolB)%string
    with (String "/"%char (symbolB ++ String ":"%char symbolB)).
  rewrite (Split_append _ _ _ HA), Split_without.
  - rewrite (Split_append _ _ _ HB2). reflexivity.
  - rewrite Contains_append. cbn. now rewrite HB1.
Qed.

Lemma convertSymbol_ParseSymbols_witness :
  convertSymbol futures_client (ParseSymbols "BTC" "USDT") = "BTC-USDT-SWAP"%string.
Proof.
  exact (convertSymbol_ParseSymbols futures_client "BTC" "USDT"
           eq_refl eq_refl eq_refl).
Defined.

(** X16. [convertSymbol] is idempotent on every string: its result has no
    "/" unless it is the argument returned unchanged, so an instrument id
    passes through a second conversion as it is. *)
Theorem convertSymbol_idempotent (c : exchange.OKXClient) (symbol : string) :
  convertSymbol c (convertSymbol c symbol) = convertSymbol c symbol.
Proof.
  unfold convertSymbol at 2 3.
  destruct (Split symbol "/"%char) as [|base [|rest [|x xs]]] eqn:E;
    try (unfold convertSymbol; now rewrite E).
  assert (Hb : Contains base "/"%char = false).
  { refine (proj1 (Split_pieces symbol "/"%char "/"%char base _)).
    rewrite E. now left. }
  assert (Hr : Contains rest "/"%char = false).
  { refine (proj1 (Split_pieces symbol "/"%char "/"%char rest _)).
    rewrite E. right. now left. }
  pose proof (Split_nonempty rest ":") as Hne.
  destruct (Split rest ":"%char) as [|quote qs] eqn:E2; [congruence|].
  assert (Hq : Contains quote "/"%char = false).
  { refine (proj2 (Split_pieces rest ":"%char "/"%char quote _) Hr).
    rewrite E2. now left. }
  assert (Hfix : forall s, Contains s "/"%char = false -> convertSymbol c s = s).
  { intros s Hs. unfold convertSymbol. now rewrite (Split_without _ _ Hs). }
  destruct (exchange.tradingMode c =? config.TradingModeSpot)%string;
    apply Hfix; rewrite !Contains_append, Hb, Hq; reflexivity.
Qed.

Lemma index_app_mid {A : Type} (pre : list A) (a : A) (post : list A) :
  index (pre ++ a :: post) (len pre) = Ret a.
Proof.
  unfold index, len.
  destruct (Z.of_nat (List.length pre) <? 0) eqn:E; [apply Z.ltb_lt in E; lia|].
  rewrite Nat2Z.id, nth_error_app2 by lia.
  now rewrite Nat.sub_diag.
Qed.

Lemma set_index_app_mid {A : Type} (pre : list A) (a x : A) (post : list A) :
  set_index (pre ++ a :: post) (len pre) x = Ret (pre ++ x :: post).
Proof.
  unfold set_index, len. rewrite length_app. cbn [List.length].
  destruct (Z.of_nat (List.length pre) <? 0) eqn:E; [apply Z.ltb_lt in E; lia|].
  destruct (Z.of_nat (List.length pre + S (List.length post)) <=? Z.of_nat (List.length pre))
    eqn:E2; [apply Z.leb_le in E2; lia|].
  cbn [orb]. rewrite Nat2Z.id.
  rewrite firstn_app, firstn_all, Nat.sub_diag. cbn [firstn].
  rewrite app_nil_r.
  replace (S (List.length pre)) with (List.length (pre ++ [a]))
    by (rewrite length_app; cbn; lia).
  replace (pre ++ a :: post) with ((pre ++ [a]) ++ post)
    by (now rewrite <- app_assoc).
  rewrite skipn_app, skipn_all, Nat.sub_diag. reflexivity.
Qed.

Lemma reverse_loop_rev {A : Type} (fuel : nat) (pre mid post : list A) :
  (List.length mid <= 2 * fuel + 1)%nat ->
  reverse_loop fuel (len pre) (len pre + len mid - 1) (pre ++ mid ++ post)
  = Ret (Some (pre ++ rev mid ++ post)).
Proof.
  revert pre mid post.
  induction fuel as [|fuel IH]; intros pre mid post Hf.
  - destruct mid as [|a [|b mid]]; [| |cbn in Hf; lia]; cbn [reverse_loop];
      unfold len; cbn [List.length];
      (destruct (_ <? _) eqn:E; [apply Z.ltb_lt in E; lia|]); reflexivity.
  - destruct mid as [|a mid].
    { cbn [reverse_loop]. unfold len. cbn [List.length].
      destruct (_ <? _) eqn:E; [apply Z.ltb_lt in E; lia|]. reflexivity. }
    destruct (rev mid) as [|b rmid] eqn:Er.
    { apply (f_equal (@rev A)) in Er. rewrite rev_involutive in Er.
      cbn [rev] in Er. subst mid.
      cbn [reverse_loop]. unfold len. cbn [List.length].
      destruct (_ <? _) eqn:E; [apply Z.ltb_lt in E; lia|]. reflexivity. }
    apply (f_equal (@rev A)) in Er. rewrite rev_involutive in Er. cbn [rev] in Er.
    subst mid. set (mid := rev rmid) in *.
    assert (Hlen : len (a :: mid ++ [b]) = len mid + 2).
    { unfold len. cbn [List.length]. rewrite length_app. cbn. lia. }
    cbn [reverse_loop]. rewrite Hlen.
    destruct (len pre <? len pre + (len mid + 2) - 1) eqn:E;
      [|apply Z.ltb_ge in E; unfold len in E; lia].
    replace (len pre + (len mid + 2) - 1) with (len (pre ++ a :: mid))
      by (unfold len; rewrite length_app; cbn [List.length]; lia).
    replace (pre ++ (a :: mid ++ [b]) ++ post)
      with ((pre ++ a :: mid) ++ b :: post)
      by (rewrite <- !app_assoc; cbn; now rewrite <- app_assoc).
    rewrite index_app_mid. cbn [bind].
    replace ((pre ++ a :: mid) ++ b :: post) with (pre ++ a :: (mid ++ b :: post))
      by (now rewrite <- app_assoc).
    rewrite index_app_mid. cbn [bind].
    rewrite set_index_app_mid. cbn [bind].
    replace (pre ++ b :: mid ++ b :: post) with ((pre ++ b :: mid) ++ b :: post)
      by (now rewrite <- app_assoc).
    replace (len (pre ++ a :: mid)) with (len (pre ++ b :: mid))
      by (unfold len; rewrite !length_app; reflexivity).
    rewrite set_index_app_mid. cbn [bind].
    replace ((pre ++ b :: mid) ++ a :: post) with ((pre ++ [b]) ++ mid ++ (a :: post))
      by (rewrite <- !app_assoc; reflexivity).
    replace (len pre + 1) with (len (pre ++ [b]))
      by (unfold len; rewrite length_app; cbn; lia).
    replace (len (pre ++ b :: mid) - 1) with (len (pre ++ [b]) + len mid - 1)
      by (unfold len; rewrite !length_app; cbn [List.length]; lia).
    rewrite IH.
    + f_equal. f_equal. cbn [rev]. rewrite rev_app_distr. cbn.
      rewrite <- !app_assoc. reflexivity.
    + cbn [List.length] in Hf. rewrite length_app in Hf. cbn in Hf. lia.
Qed.

(** X17. [reverseOHLCV] returns for every slice, without a panic, and
    leaves the slice reversed: the candle OKX lists first (the newest)
    becomes the last one, the one the calculator reads as the current bar.
    Reversing twice gives the slice back. *)
Theorem reverseOHLCV_rev (A : Type) (data : list A) :
  reverseOHLCV data = Ret (Some (rev data)) /\
  (forall d, last (rev data) d = hd d data) /\
  reverseOHLCV (rev data) = Ret (Some data).
Proof.
  assert (H : forall l : list A, reverseOHLCV l = Ret (Some (rev l))).
  { intros l. unfold reverseOHLCV.
    pose proof (reverse_loop_rev (List.length l) [] l []) as H.
    rewrite !app_nil_r in H. cbn [app] in H.
    change (len (@nil A)) with 0 in H.
    rewrite Z.add_0_l in H. apply H. lia. }
  split; [apply H|]. split.
  - intros d. destruct data as [|a l]; [reflexivity|].
    cbn [rev hd]. apply last_last.
  - rewrite H. now rewrite rev_involutive.
Qed.

(** ** Signals and sessions *)

Lemma store_same (m : ai.sessions) (k : string) (v : SessionContext.t) :
  ai.store m k v k = Some v.
Proof. unfold ai.store. now rewrite String.eqb_refl. Qed.

Lemma store_other (m : ai.sessions) (k k' : string) (v : SessionContext.t) :
  k' <> k -> ai.store m k v k' = m k'.
Proof.
  intros H. unfold ai.store.
  destruct (String.eqb_spec k' k); [contradiction|reflexivity].
Qed.

Lemma updateSession_step (m : ai.sessions) (pair : string)
    (session : SessionContext.t) (signal : TradeSignal.t) :
  m pair = Some session ->
  exists m',
    ai.updateSession m pair signal = Ret m' /\
    m' pair = Some
      {| SessionContext.TradingPair := SessionContext.TradingPair session;
         SessionContext.SignalHistory :=
           (let h := SessionContext.SignalHistory session ++ [signal] in
            if 30 <? len h then skipn 1 h else h);
         SessionContext.LastUpdate := TradeSignal.Timestamp signal;
         SessionContext.Stats :=
           ai.count_signal (SessionContext.Stats session) (TradeSignal.Signal signal) |} /\
    (forall other, other <> pair -> m' other = m other).
Proof.
  intros Hm. unfold ai.updateSession. rewrite Hm. cbv zeta.
  set (h := SessionContext.SignalHistory session ++ [signal]).
  destruct (30 <? len h) eqn:E.
  - apply Z.ltb_lt in E.
    rewrite slice_from_ret by lia. cbn [bind].
    eexists. split; [reflexivity|]. split.
    + now rewrite store_same.
    + intros other Ho. now apply store_other.
  - cbn [bind]. eexists. split; [reflexivity|]. split.
    + now rewrite store_same.
    + intros other Ho. now apply store_other.
Qed.

Lemma labelled_cons (label : string) (s : TradeSignal.t) (rest : list TradeSignal.t) :
  ai.labelled label (s :: rest)
  = (if (TradeSignal.Signal s =? label)%string then 1 else 0) + ai.labelled label rest.
Proof.
  unfold ai.labelled. cbn [filter].
  destruct (TradeSignal.Signal s =? label)%string; [rewrite len_cons|]; lia.
Qed.

Lemma labelled_range (label : string) (signals : list TradeSignal.t) :
  0 <= ai.labelled label signals <= len signals.
Proof.
  unfold ai.labelled, len. pose proof (filter_length_le
    (fun s => (TradeSignal.Signal s =? label)%string) signals). lia.
Qed.

Lemma history_window_step {A : Type} (h : list A) (s : A) (rest : list A) :
  (List.length h <= 30)%nat ->
  let h1 := if 30 <? len (h ++ [s]) then skipn 1 (h ++ [s]) else h ++ [s] in
  (List.length h1 <= 30)%nat /\
  skipn (List.length (h1 ++ rest) - 30) (h1 ++ rest)
  = skipn (List.length (h ++ s :: rest) - 30) (h ++ s :: rest).
Proof.
  intros Hh. cbv zeta.
  assert (Hl : len (h ++ [s]) = Z.of_nat (List.length h) + 1)
    by (unfold len; rewrite length_app; cbn; lia).
  destruct (30 <? len (h ++ [s])) eqn:E.
  - apply Z.ltb_lt in E.
    destruct h as [|a h']; [cbn in Hl; cbn in E; unfold len in E; cbn in E; lia|].
    cbn [app skipn]. cbn [List.length] in Hh, Hl.
    assert (Hn : List.length h' = 29%nat) by lia.
    split; [rewrite length_app; cbn; lia|].
    rewrite <- app_assoc. cbn [app].
    replace (List.length (h' ++ s :: rest) - 30)%nat with (List.length rest)
      by (rewrite length_app; cbn [List.length]; lia).
    replace (List.length (a :: h' ++ s :: rest) - 30)%nat with (S (List.length rest))
      by (cbn [List.length]; rewrite length_app; cbn [List.length]; lia).
    reflexivity.
  - apply Z.ltb_ge in E. split; [rewrite length_app; cbn; lia|].
    now rewrite <- app_assoc.
Qed.

Lemma updateSession_all_general (signals : list TradeSignal.t) :
  forall (m : ai.sessions) (pair : string) (session : SessionContext.t),
  m pair = Some session ->
  (List.length (SessionContext.SignalHistory session) <= 30)%nat ->
  let stats := SessionContext.Stats session in
  0 <= SignalStats.BuyCount stats -> 0 <= SignalStats.SellCount stats ->
  0 <= SignalStats.HoldCount stats -> 0 <= SignalStats.Total stats ->
  SignalStats.BuyCount stats + len signals <= max_int ->
  SignalStats.SellCount stats + len signals <= max_int ->
  SignalStats.HoldCount stats + len signals <= max_int ->
  SignalStats.Total stats + len signals <= max_int ->
  exists m' session',
    ai.updateSession_all m pair signals = Ret m' /\
    m' pair = Some session' /\
    SessionContext.TradingPair session' = SessionContext.TradingPair session /\
    (let all := SessionContext.SignalHistory session ++ signals in
     SessionContext.SignalHistory session' = skipn (List.length all - 30) all) /\
    (List.length (SessionContext.SignalHistory session') <= 30)%nat /\
    SignalStats.Total (SessionContext.Stats session')
    = SignalStats.Total stats + len signals /\
    SignalStats.BuyCount (SessionContext.Stats session')
    = SignalStats.BuyCount stats + ai.labelled "BUY" signals /\
    SignalStats.SellCount (SessionContext.Stats session')
    = SignalStats.SellCount stats + ai.labelled "SELL" signals /\
    SignalStats.HoldCount (SessionContext.Stats session')
    = SignalStats.HoldCount stats + ai.labelled "HOLD" signals /\
    (forall other, other <> pair -> m' other = m other).
Proof.
  induction signals as [|s rest IH]; intros m pair session Hm Hh stats HB HS HH HT HB' HS' HH' HT'.
  - exists m, session. cbn [ai.updateSession_all]. rewrite app_nil_r.
    replace (List.length (SessionContext.SignalHistory session) - 30)%nat with 0%nat by lia.
    unfold ai.labelled. cbn. fold stats.
    repeat split; try reflexivity; try lia; try assumption.
  - rewrite len_cons in HB', HS', HH', HT'. pose proof (len_nonneg rest) as Hr.
    destruct (updateSession_step m pair session s Hm) as [m1 [E1 [Hm1 Ho1]]].
    cbn [ai.updateSession_all]. rewrite E1. cbn [bind].
    destruct (history_window_step (SessionContext.SignalHistory session) s rest Hh)
      as [Hh1 Hwin].
    set (session1 := {| SessionContext.TradingPair := _ |}) in Hm1.
    assert (Hstats :
      SignalStats.Total (SessionContext.Stats session1) = SignalStats.Total stats + 1 /\
      SignalStats.BuyCount (SessionContext.Stats session1)
      = SignalStats.BuyCount stats
        + (if (TradeSignal.Signal s =? "BUY")%string then 1 else 0) /\
      SignalStats.SellCount (SessionContext.Stats session1)
      = SignalStats.SellCount stats
        + (if (TradeSignal.Signal s =? "SELL")%string then 1 else 0) /\
      SignalStats.HoldCount (SessionContext.Stats session1)
      = SignalStats.HoldCount stats
        + (if (TradeSignal.Signal s =? "HOLD")%string then 1 else 0)).
    { unfold session1. cbn [SessionContext.Stats]. fold stats. unfold ai.count_signal.
      destruct (String.eqb_spec (TradeSignal.Signal s) "BUY") as [e|_].
      - rewrite e. cbn.
        rewrite !wrap64_id by (unfold min_int, max_int in *; lia). lia.
      - destruct (String.eqb_spec (TradeSignal.Signal s) "SELL") as [e|_].
        + rewrite e. cbn.
          rewrite !wrap64_id by (unfold min_int, max_int in *; lia). lia.
        + destruct (String.eqb_spec (TradeSignal.Signal s) "HOLD") as [e|_]; cbn;
            rewrite !wrap64_id by (unfold min_int, max_int in *; lia); lia. }
    destruct Hstats as [HT1 [HB1 [HS1 HH1]]].
    assert (Hb : forall b : bool, 0 <= (if b then 1 else 0) <= 1) by (intros []; lia).
    pose proof (Hb (TradeSignal.Signal s =? "BUY")%string).
    pose proof (Hb (TradeSignal.Signal s =? "SELL")%string).
    pose proof (Hb (TradeSignal.Signal s =? "HOLD")%string).
    destruct (IH m1 pair session1 Hm1 Hh1 ltac:(lia) ltac:(lia) ltac:(lia) ltac:(lia)
                ltac:(lia) ltac:(lia) ltac:(lia) ltac:(lia))
      as [m' [session' [E' [Hm' [Hp' [Hhist' [Hlen' [HT2 [HB2 [HS2 [HH2 Ho']]]]]]]]]]].
    exists m', session'. split; [exact E'|]. split; [exact Hm'|].
    split; [rewrite Hp'; reflexivity|].
    split; [cbv zeta in Hhist' |- *; rewrite Hhist'; exact Hwin|].
    split; [exact Hlen'|].
    rewrite !labelled_cons, len_cons.
    split; [lia|]. split; [lia|]. split; [lia|]. split; [lia|].
    intros other Hne. rewrite (Ho' other Hne). now apply Ho1.
Qed.

(** X18. The bookkeeping of a session over any sequence of signals: from
    the session [getOrCreateSession] creates for a pair without one, after
    [updateSession] for each signal in turn (no call panics), the history
    holds the last 30 signals in order, [Total] counts all of them and
    [BuyCount], [SellCount], [HoldCount] the signals labelled exactly BUY,
    SELL and HOLD (any other label counts in [Total] only); the sessions of
    the other pairs are untouched. *)
Theorem session_after_signals (now : string) (m : ai.sessions) (pair : string)
    (signals : list TradeSignal.t) :
  m pair = None -> len signals <= max_int ->
  exists m' session,
    ai.updateSession_all (fst (ai.getOrCreateSession now m pair)) pair signals = Ret m' /\
    ai.GetSessionInfo m' pair = Some session /\
    SessionContext.TradingPair session = pair /\
    SessionContext.SignalHistory session = skipn (List.length signals - 30) signals /\
    (List.length (SessionContext.SignalHistory session) <= 30)%nat /\
    SignalStats.Total (SessionContext.Stats session) = len signals /\
    SignalStats.BuyCount (SessionContext.Stats session) = ai.labelled "BUY" signals /\
    SignalStats.SellCount (SessionContext.Stats session) = ai.labelled "SELL" signals /\
    SignalStats.HoldCount (SessionContext.Stats session) = ai.labelled "HOLD" signals /\
    (forall other, other <> pair -> ai.GetSessionInfo m' other = ai.GetSessionInfo m other).
Proof.
  intros Hm Hn. unfold ai.getOrCreateSession. rewrite Hm. cbn [fst].
  set (fresh := {| SessionContext.TradingPair := pair |}).
  destruct (updateSession_all_general signals (ai.store m pair fresh) pair fresh
              (store_same m pair fresh))
    as [m' [session [E [Hs [Hp [Hh [Hl [HT [HB [HS [HH Ho]]]]]]]]]]];
    try (unfold fresh, max_int in *; cbn; lia).
  exists m', session. unfold ai.GetSessionInfo.
  split; [exact E|]. split; [exact Hs|]. split; [exact Hp|].
  split; [exact Hh|]. split; [exact Hl|].
  cbn in HT, HB, HS, HH.
  split; [exact HT|]. split; [exact HB|]. split; [exact HS|]. split; [exact HH|].
  intros other Hne. rewrite (Ho other Hne). now apply store_other.
Qed.

Lemma session_after_signals_witness :
  exists m' session,
    ai.updateSession_all (fst (ai.getOrCreateSession "now" ai.no_sessions "BTC-USDT"))
      "BTC-USDT" [sample_signal "BUY" "HIGH"; sample_signal "buy" "HIGH"] = Ret m' /\
    ai.GetSessionInfo m' "BTC-USDT" = Some session /\
    SessionContext.TradingPair session = "BTC-USDT"%string /\
    SessionContext.SignalHistory session
    = skipn (2 - 30) [sample_signal "BUY" "HIGH"; sample_signal "buy" "HIGH"] /\
    (List.length (SessionContext.SignalHistory session) <= 30)%nat /\
    SignalStats.Total (SessionContext.Stats session) = 2 /\
    SignalStats.BuyCount (SessionContext.Stats session) = 1 /\
    SignalStats.SellCount (SessionContext.Stats session) = 0 /\
    SignalStats.HoldCount (SessionContext.Stats session) = 0 /\
    (forall other, other <> "BTC-USDT"%string ->
       ai.GetSessionInfo m' other = ai.GetSessionInfo ai.no_sessions other).
Proof.
  refine (session_after_signals "now" ai.no_sessions "BTC-USDT"
            [sample_signal "BUY" "HIGH"; sample_signal "buy" "HIGH"] _ _).
  - reflexivity.
  - vm_compute. discriminate.
Defined.

(** X19. [updateSession] panics exactly when the pair has no session (it
    dereferences the map entry unchecked); [AnalyzeMarket] creates the
    session first, so it never panics, whatever the reply, and the pair has
    a session afterwards while every other pair's session is as before. *)
Theorem AnalyzeMarket_never_panics (now : string) (m : ai.sessions) (pair : string)
    (signal : TradeSignal.t) (reply : option (option TradeSignal.t)) :
  (ai.updateSession m pair signal = Panic <-> ai.GetSessionInfo m pair = None) /\
  exists m' result,
    ai.AnalyzeMarket now m pair reply = Ret (m', result) /\
    ai.GetSessionInfo m' pair <> None /\
    (forall other, other <> pair -> ai.GetSessionInfo m' other = ai.GetSessionInfo m other).
Proof.
  unfold ai.GetSessionInfo. split.
  - split.
    + intros H. destruct (m pair) as [session|] eqn:E; [|reflexivity].
      destruct (updateSession_step m pair session signal E) as [m' [E' _]].
      congruence.
    + intros H. unfold ai.updateSession. now rewrite H.
  - unfold ai.AnalyzeMarket.
    assert (H1 : exists session,
               snd (ai.getOrCreateSession now m pair) = session /\
               fst (ai.getOrCreateSession now m pair) pair = Some session /\
               forall other, other <> pair ->
                 fst (ai.getOrCreateSession now m pair) other = m other).
    { unfold ai.getOrCreateSession. destruct (m pair) as [session|] eqn:E.
      - exists session. cbn. auto.
      - eexists. cbn. split; [reflexivity|]. split; [apply store_same|].
        intros other Hne. now apply store_other. }
    destruct (ai.getOrCreateSession now m pair) as [m1 session0].
    destruct H1 as [session [_ [Hm1 Ho1]]]. cbn [fst] in Hm1, Ho1.
    destruct reply as [decoded|].
    + destruct (ai.parseSignal decoded) as [parsed|].
      * match goal with |- context [ai.updateSession m1 pair ?s] =>
          destruct (updateSession_step m1 pair session s Hm1) as [m2 [E2 [Hm2 Ho2]]]
        end.
        rewrite E2. cbn [bind]. eexists _, _. split; [reflexivity|].
        split; [rewrite Hm2; discriminate|].
        intros other Hne. rewrite (Ho2 other Hne). now apply Ho1.
      * eexists _, _. split; [reflexivity|]. split; [rewrite Hm1; discriminate|exact Ho1].
    + eexists _, _. split; [reflexivity|]. split; [rewrite Hm1; discriminate|exact Ho1].
Qed.

(** X20. What [AnalyzeMarket] records.  When the reply yields no valid
    signal (no JSON object, or an empty [signal] or [reason]), the fallback
    signal is returned (HOLD, LOW confidence, flagged as fallback) and the
    session is left as [getOrCreateSession] found or created it: the
    fallback enters neither the history nor the statistics.  When the reply
    yields a signal, the signal returned carries the pair and the current
    time and is the last entry of the session's history. *)
Theorem AnalyzeMarket_records (now : string) (m : ai.sessions) (pair : string)
    (decoded : option TradeSignal.t) :
  match ai.parseSignal decoded with
  | None =>
      ai.AnalyzeMarket now m pair (Some decoded)
      = Ret (fst (ai.getOrCreateSession now m pair),
             Some (ai.createFallbackSignal now pair)) /\
      TradeSignal.Signal (ai.createFallbackSignal now pair) = "HOLD"%string /\
      TradeSignal.Confidence (ai.createFallbackSignal now pair) = "LOW"%string /\
      TradeSignal.IsFallback (ai.createFallbackSignal now pair) = true
  | Some parsed =>
      exists m' signal session,
        ai.AnalyzeMarket now m pair (Some decoded) = Ret (m', Some signal) /\
        TradeSignal.Signal signal = TradeSignal.Signal parsed /\
        TradeSignal.Signal signal <> ""%string /\
        TradeSignal.Confidence signal = TradeSignal.Confidence parsed /\
        TradeSignal.TradingPair signal = pair /\
        TradeSignal.Timestamp signal = now /\
        ai.GetSessionInfo m' pair = Some session /\
        last (SessionContext.SignalHistory session) (ai.createFallbackSignal now pair)
        = signal /\
        SessionContext.LastUpdate session = now
  end.
Proof.
  destruct (ai.parseSignal decoded) as [parsed|] eqn:Ep.
  - unfold ai.AnalyzeMarket.
    assert (H1 : exists session,
               fst (ai.getOrCreateSession now m pair) pair = Some session).
    { unfold ai.getOrCreateSession. destruct (m pair) as [session|] eqn:E.
      - exists session. exact E.
      - eexists. cbn. apply store_same. }
    destruct (ai.getOrCreateSession now m pair) as [m1 session0].
    destruct H1 as [session Hm1]. cbn [fst] in Hm1. rewrite Ep.
    assert (Hne : TradeSignal.Signal parsed <> ""%string).
    { unfold ai.parseSignal in Ep. destruct decoded as [d|]; [|discriminate].
      destruct (String.eqb_spec (TradeSignal.Signal d) ""); [discriminate|].
      destruct (TradeSignal.Reason d =? "")%string; [discriminate|].
      injection Ep as <-. assumption. }
    match goal with |- context [ai.updateSession m1 pair ?s] =>
      destruct (updateSession_step m1 pair session s Hm1) as [m2 [E2 [Hm2 _]]];
      exists m2, s
    end.
    match type of Hm2 with _ = Some ?x => exists x end.
    rewrite E2. cbn [bind]. split; [reflexivity|].
    cbn [TradeSignal.Signal TradeSignal.Confidence TradeSignal.TradingPair
         TradeSignal.Timestamp SessionContext.SignalHistory SessionContext.LastUpdate].
    split; [reflexivity|]. split; [exact Hne|]. split; [reflexivity|].
    split; [reflexivity|]. split; [reflexivity|]. split; [exact Hm2|].
    split; [|reflexivity].
    cbv zeta. destruct (30 <? _) eqn:E.
    + destruct (SessionContext.SignalHistory session) as [|a h'];
        [vm_compute in E; discriminate|].
      cbn [app skipn]. apply last_last.
    + apply last_last.
  - unfold ai.AnalyzeMarket.
    destruct (ai.getOrCreateSession now m pair) as [m1 session0].
    rewrite Ep. cbn. repeat split.
Qed.

(** ** The risk manager *)

(** On binary64 the derived [<=] is the primitive one. *)
Lemma fleb_binary64 (a b : float) : fleb a b = PrimFloat.leb a b.
Proof.
  unfold fleb. cbn [fltb feqb binary64].
  rewrite ltb_spec, eqb_spec, leb_spec. unfold SFltb, SFeqb, SFleb.
  destruct (SFcompare (Prim2SF a) (Prim2SF b)) as [[| |]|]; reflexivity.
Qed.

Lemma SFltb_trans (x y z : spec_float) :
  SFltb x y = true -> SFltb y z = true -> SFltb x z = true.
Proof.
  unfold SFltb.
  destruct x as [sx|sx| |sx mx ex], y as [sy|sy| |sy my ey], z as [sz|sz| |sz mz ez];
    try destruct sx; try destruct sy; try destruct sz; cbn;
    intros H1 H2; try discriminate; try reflexivity; sf_order.
Qed.

Lemma b64_ltb_trans (x y z : float) :
  PrimFloat.ltb x y = true -> PrimFloat.ltb y z = true -> PrimFloat.ltb x z = true.
Proof. rewrite !ltb_spec. apply SFltb_trans. Qed.

Lemma b64_ltb_zero_zero : fltb (f0 : float) f0 = false.
Proof. vm_compute. reflexivity. Qed.

Section RiskFacts.

Context {F : Type} {arith : Arith F}.
Variable cfg : config.RiskManagementConfig F.

(** Monitoring touches the trailing stop and the two extreme prices only. *)
Lemma observe_keeps (pos : Position.t F) (price : F) :
  let pos' := observe cfg pos price in
  Position.Side pos' = Position.Side pos /\
  Position.Size pos' = Position.Size pos /\
  Position.EntryPrice pos' = Position.EntryPrice pos /\
  Position.StopLoss pos' = Position.StopLoss pos /\
  Position.TakeProfit pos' = Position.TakeProfit pos /\
  (config.EnableTrailingStop cfg = false ->
   Position.TrailingStop pos' = Position.TrailingStop pos).
Proof.
  unfold observe, updateTrailingStop, track_extremes. cbv zeta.
  destruct (fltb (Position.HighestPrice pos) price);
    cbn [set_HighestPrice Position.LowestPrice];
    destruct (fltb price (Position.LowestPrice pos));
    destruct (config.EnableTrailingStop cfg);
    cbn [set_LowestPrice set_HighestPrice Position.Side Position.HighestPrice
         Position.LowestPrice Position.TrailingStop];
    repeat match goal with
           | |- context [if ?b then _ else _] => destruct b
           end; cbn; repeat split; intros; try reflexivity; try discriminate.
Qed.

Lemma calculateStopLossTakeProfit_keeps (pos : Position.t F) :
  let pos' := calculateStopLossTakeProfit cfg pos in
  Position.Side pos' = Position.Side pos /\
  Position.Size pos' = Position.Size pos /\
  Position.EntryPrice pos' = Position.EntryPrice pos.
Proof.
  unfold calculateStopLossTakeProfit. cbv zeta.
  repeat match goal with
         | |- context [if ?b then _ else _] => destruct b
         end; cbn; repeat split.
Qed.

End RiskFacts.

Lemma shouldClosePosition_zero_stops (cfg : config.RiskManagementConfig float)
    (pos : Position.t float) (currentPrice : float) :
  Position.StopLoss pos = f0 -> Position.TakeProfit pos = f0 ->
  Position.TrailingStop pos = f0 ->
  shouldClosePosition cfg pos currentPrice = false.
Proof.
  intros H1 H2 H3. unfold shouldClosePosition.
  rewrite H1, H2, H3, b64_ltb_zero_zero.
  rewrite !andb_false_r. cbn.
  destruct (Position.Side pos =? "long")%string; [reflexivity|].
  destruct (Position.Side pos =? "short")%string; reflexivity.
Qed.

(** X21. What never closes a position, on [float64]: a side other than
    "long" and "short"; stop-loss and take-profit both disabled, whether or
    not the trailing stop is enabled (with stop-loss disabled the trailing
    stop is not consulted at all); and a position whose three stop prices
    are zero. *)
Theorem shouldClosePosition_guards (cfg : config.RiskManagementConfig float)
    (pos : Position.t float) (currentPrice : float) :
  (Position.Side pos <> "long"%string -> Position.Side pos <> "short"%string ->
   shouldClosePosition cfg pos currentPrice = false) /\
  (config.EnableStopLoss cfg = false ->
   (forall trailingStop,
      shouldClosePosition cfg (set_TrailingStop pos trailingStop) currentPrice
      = shouldClosePosition cfg pos currentPrice) /\
   (config.EnableTakeProfit cfg = false ->
    shouldClosePosition cfg pos currentPrice = false)) /\
  (Position.StopLoss pos = f0 -> Position.TakeProfit pos = f0 ->
   Position.TrailingStop pos = f0 ->
   shouldClosePosition cfg pos currentPrice = false).
Proof.
  split; [|split].
  - intros Hl Hs. unfold shouldClosePosition.
    destruct (String.eqb_spec (Position.Side pos) "long"); [contradiction|].
    destruct (String.eqb_spec (Position.Side pos) "short"); [contradiction|].
    reflexivity.
  - intros Hsl. split.
    + intros ts. unfold shouldClosePosition. rewrite Hsl. reflexivity.
    + intros Htp. unfold shouldClosePosition. rewrite Hsl, Htp.
      destruct (Position.Side pos =? "long")%string; [reflexivity|].
      destruct (Position.Side pos =? "short")%string; reflexivity.
  - apply shouldClosePosition_zero_stops.
Qed.

Lemma shouldClosePosition_guards_witness :
  shouldClosePosition (risk_config false false true 2 4 1)
    (Position.mk "long" 1 100 0 10 "BTC/USDT:USDT" 98 104 99 100 100)%float 50%float
  = false.
Proof.
  refine (proj2 (proj1 (proj2 (shouldClosePosition_guards
            (risk_config false false true 2 4 1)
            (Position.mk "long" 1 100 0 10 "BTC/USDT:USDT" 98 104 99 100 100)%float
            50%float)) _) _); reflexivity.
Defined.

Lemma no_stops_never_closes (cfg : config.RiskManagementConfig float)
    (ticks : list (option float * bool)) :
  config.EnableTrailingStop cfg = false ->
  forall pos : Position.t float,
  Position.StopLoss pos = f0 -> Position.TakeProfit pos = f0 ->
  Position.TrailingStop pos = f0 ->
  snd (checkPosition_all cfg (Some pos) ticks) = [] /\
  fst (checkPosition_all cfg (Some pos) ticks) <> None.
Proof.
  intros Hts. induction ticks as [|[ticker placed] rest IH]; intros pos H1 H2 H3.
  - cbn. split; [reflexivity|discriminate].
  - cbn [checkPosition_all]. unfold checkPosition.
    destruct ticker as [price|].
    + destruct (observe_keeps cfg pos price) as [_ [_ [_ [K1 [K2 K3]]]]].
      specialize (K3 Hts).
      assert (Hc : shouldClosePosition cfg (observe cfg pos price) price = false).
      { apply shouldClosePosition_zero_stops; congruence. }
      rewrite Hc.
      destruct (IH (observe cfg pos price)) as [I1 I2]; try congruence.
      destruct (checkPosition_all cfg (Some (observe cfg pos price)) rest) as [final orders].
      cbn in I1, I2 |- *. now split.
    + destruct (IH pos H1 H2 H3) as [I1 I2].
      destruct (checkPosition_all cfg (Some pos) rest) as [final orders].
      cbn in I1, I2 |- *. now split.
Qed.

(** X22. Handing [UpdatePosition] a position with the entry price and side
    of the monitored one stores it as given, without computing stops.  So
    when the position just fetched from the exchange (stop fields zero) is
    handed over a second time, the monitored position has no stop-loss and
    no take-profit price, and with the trailing stop disabled no sequence
    of prices makes [checkPosition] place a closing order; the first
    hand-over does compute the stops. *)
Theorem UpdatePosition_same_entry (cfg : config.RiskManagementConfig float)
    (posSide : string) (size entryPrice upl : float) (leverage : Z) (symbol : string)
    (ticks : list (option float * bool)) :
  PrimFloat.eqb entryPrice entryPrice = true ->
  let fetched := fetched_position posSide size entryPrice upl leverage symbol in
  let first := UpdatePosition cfg None (Some fetched) in
  first = Some (calculateStopLossTakeProfit cfg fetched) /\
  UpdatePosition cfg first (Some fetched) = Some fetched /\
  (config.EnableTrailingStop cfg = false ->
   snd (checkPosition_all cfg (UpdatePosition cfg first (Some fetched)) ticks) = []).
Proof.
  intros He fetched first.
  assert (H2 : UpdatePosition cfg first (Some fetched) = Some fetched).
  { unfold first, UpdatePosition.
    destruct (calculateStopLossTakeProfit_keeps cfg fetched) as [Ks [_ Ke]].
    rewrite Ke, Ks. cbn [fetched fetched_position Position.EntryPrice Position.Side].
    cbn [feqb binary64]. rewrite He, String.eqb_refl. reflexivity. }
  split; [reflexivity|]. split; [exact H2|].
  intros Hts. rewrite H2.
  now apply no_stops_never_closes.
Qed.

Lemma UpdatePosition_same_entry_witness :
  let cfg := risk_config (F := float) true true false 2 4 1 in
  let fetched :=
    fetched_position "long" 1%float 100%float 0%float 10 "BTC/USDT:USDT" in
  let first := UpdatePosition cfg None (Some fetched) in
  first = Some (calculateStopLossTakeProfit cfg fetched) /\
  UpdatePosition cfg first (Some fetched) = Some fetched /\
  (config.EnableTrailingStop cfg = false ->
   snd (checkPosition_all cfg (UpdatePosition cfg first (Some fetched))
          [(Some 50%float, true); (Some 500%float, true)]) = []).
Proof.
  refine (UpdatePosition_same_entry (risk_config true true false 2 4 1)
            "long" 1%float 100%float 0%float 10 "BTC/USDT:USDT"
            [(Some 50%float, true); (Some 500%float, true)] _).
  reflexivity.
Defined.

Lemma observe_ratchet (cfg : config.RiskManagementConfig float)
    (pos : Position.t float) (price : float) :
  let pos' := observe cfg pos price in
  (Position.Side pos = "long"%string ->
   Position.TrailingStop pos' = Position.TrailingStop pos \/
   PrimFloat.ltb (Position.TrailingStop pos) (Position.TrailingStop pos') = true) /\
  (Position.Side pos = "short"%string ->
   Position.TrailingStop pos' = Position.TrailingStop pos \/
   PrimFloat.ltb (Position.TrailingStop pos') (Position.TrailingStop pos) = true).
Proof.
  unfold observe, updateTrailingStop, track_extremes. cbv zeta.
  cbn [fltb binary64].
  destruct (PrimFloat.ltb (Position.HighestPrice pos) price);
    cbn [set_HighestPrice Position.LowestPrice];
    destruct (PrimFloat.ltb price (Position.LowestPrice pos));
    destruct (config.EnableTrailingStop cfg);
    cbn [set_LowestPrice set_HighestPrice Position.Side Position.HighestPrice
         Position.LowestPrice Position.TrailingStop];
    (split; intros Hs; try rewrite Hs; cbn;
     try (left; reflexivity);
     match goal with
     | |- context [if PrimFloat.ltb ?a ?b then _ else _] =>
         destruct (PrimFloat.ltb a b) eqn:E; cbn; [right; exact E | left; reflexivity]
     end).
Qed.

(** X23. The trailing stop is a ratchet on [float64]: over any sequence of
    observed prices, the trailing stop of a long position ends where it
    started or strictly above, that of a short position where it started
    or strictly below; side, size, entry price, stop-loss and take-profit
    prices are never changed by the monitoring. *)
Theorem trailing_stop_ratchet (cfg : config.RiskManagementConfig float)
    (prices : list float) (pos : Position.t float) :
  let pos' := fold_left (observe cfg) prices pos in
  (Position.Side pos = "long"%string ->
   Position.TrailingStop pos' = Position.TrailingStop pos \/
   PrimFloat.ltb (Position.TrailingStop pos) (Position.TrailingStop pos') = true) /\
  (Position.Side pos = "short"%string ->
   Position.TrailingStop pos' = Position.TrailingStop pos \/
   PrimFloat.ltb (Position.TrailingStop pos') (Position.TrailingStop pos) = true) /\
  Position.Side pos' = Position.Side pos /\
  Position.Size pos' = Position.Size pos /\
  Position.EntryPrice pos' = Position.EntryPrice pos /\
  Position.StopLoss pos' = Position.StopLoss pos /\
  Position.TakeProfit pos' = Position.TakeProfit pos.
Proof.
  revert pos. induction prices as [|price rest IH]; intros pos; cbn [fold_left].
  - cbv zeta. repeat split; intros; left; reflexivity.
  - destruct (IH (observe cfg pos price)) as [IL [IS [K1 [K2 [K3 [K4 K5]]]]]].
    destruct (observe_keeps cfg pos price) as [O1 [O2 [O3 [O4 [O5 _]]]]].
    destruct (observe_ratchet cfg pos price) as [RL RS].
    cbv zeta in *.
    split; [|split].
    + intros Hs. specialize (RL Hs). specialize (IL (eq_trans O1 Hs)).
      destruct IL as [IL|IL], RL as [RL|RL].
      * left. congruence.
      * right. rewrite IL. exact RL.
      * right. rewrite <- RL. exact IL.
      * right. eapply b64_ltb_trans; eassumption.
    + intros Hs. specialize (RS Hs). specialize (IS (eq_trans O1 Hs)).
      destruct IS as [IS|IS], RS as [RS|RS].
      * left. congruence.
      * right. rewrite IS. exact RS.
      * right. rewrite <- RS. exact IS.
      * right. eapply b64_ltb_trans; eassumption.
    + repeat split; congruence.
Qed.

(** *** Stops in exact arithmetic *)



Lemma exact_constants :
  (f0 : R) = 0%R /\ (f1 : R) = 1%R /\ (f100 : R) = 100%R.
Proof. repeat split. Qed.





Section TrailingExact.

Variable cfg : config.RiskManagementConfig R.
Hypothesis trailing_on : config.EnableTrailingStop cfg = true.
Hypothesis distance : (0 < config.TrailingStopDistance cfg < 100)%R.




End TrailingExact.



Lemma trailing_stop_ratchet_witness :
  let cfg := risk_config (F := float) true true true 2 4 1 in
  let pos := Position.mk "long" 1%float 100%float 0%float 10 "BTC/USDT:USDT"
               98%float 104%float 98%float 100%float 100%float in
  let pos' := fold_left (observe cfg) [110; 105]%float pos in
  Position.TrailingStop pos' = Position.TrailingStop pos \/
  PrimFloat.ltb (Position.TrailingStop pos) (Position.TrailingStop pos') = true.
Proof.
  intros cfg pos pos'.
  refine (proj1 (trailing_stop_ratchet cfg [110; 105]%float pos) _).
  reflexivity.
Defined.

(** ** The trading bot *)

Section BotFacts.

Variable cfg : config.Config.
Variable place_ok : list (Order.t float) -> Order.t float -> bool.
Variable balance : list (Order.t float) -> string -> option float.

Lemma executeTrade_gated (signal : TradeSignal.t) (price : float)
    (currentPosition : option (Position.t float)) (calls : list (Order.t float)) :
  config.TestMode (config.Trading cfg) = true \/
  TradeSignal.Confidence signal = "LOW"%string \/
  (TradeSignal.Signal signal <> "BUY"%string /\ TradeSignal.Signal signal <> "SELL"%string) ->
  executeTrade cfg place_ok balance signal price currentPosition calls = (calls, false).
Proof.
  intros H. unfold executeTrade. cbv zeta.
  destruct (config.TestMode (config.Trading cfg)) eqn:Et.
  - rewrite andb_false_r. reflexivity.
  - destruct H as [H|[H|[Hb Hs]]]; [discriminate| |].
    + rewrite H. reflexivity.
    + rewrite andb_true_r.
      destruct (TradeSignal.Confidence signal =? "LOW")%string; [reflexivity|].
      destruct (TradeSignal.Signal signal =? "HOLD")%string; [reflexivity|].
      unfold placeOrder, executeSpotTrade, executeFuturesTrade. cbv zeta.
      destruct (String.eqb_spec (TradeSignal.Signal signal) "BUY"); [contradiction|].
      destruct (String.eqb_spec (TradeSignal.Signal signal) "SELL"); [contradiction|].
      destruct (config.IsSpotMode cfg); reflexivity.
Qed.

End BotFacts.

(** X26. [executeTrade] calls [PlaceOrder] only for a BUY or SELL signal
    whose confidence is not LOW, outside test mode: in test mode, for a
    LOW-confidence signal and for every other signal label it makes no call
    and returns no error, whatever the exchange answers.  In particular the
    fallback signal of [AnalyzeMarket] is never traded. *)
Theorem executeTrade_places_nothing (cfg : config.Config)
    (place_ok : list (Order.t float) -> Order.t float -> bool)
    (balance : list (Order.t float) -> string -> option float)
    (signal : TradeSignal.t) (price : float)
    (currentPosition : option (Position.t float)) (calls : list (Order.t float))
    (now pair : string) :
  (config.TestMode (config.Trading cfg) = true \/
   TradeSignal.Confidence signal = "LOW"%string \/
   (TradeSignal.Signal signal <> "BUY"%string /\
    TradeSignal.Signal signal <> "SELL"%string) ->
   executeTrade cfg place_ok balance signal price currentPosition calls = (calls, false)) /\
  executeTrade cfg place_ok balance (ai.createFallbackSignal now pair) price
    currentPosition calls = (calls, false).
Proof.
  split.
  - apply executeTrade_gated.
  - apply executeTrade_gated. right. left. reflexivity.
Qed.

Lemma executeTrade_places_nothing_witness :
  executeTrade (sample_config "okx") always_ok balance_1000
    (sample_signal "BUY" "LOW") 50000%float None [] = ([], false).
Proof.
  refine (proj1 (executeTrade_places_nothing (sample_config "okx") always_ok balance_1000
            (sample_signal "BUY" "LOW") 50000%float None [] "now" "BTC-USDT") _).
  right. left. reflexivity.
Defined.

Lemma b64_ltb_irrefl (x : float) : PrimFloat.ltb x x = false.
Proof.
  rewrite ltb_spec. unfold SFltb.
  destruct (Prim2SF x) as [s|s| |s m e]; try destruct s; cbn; try reflexivity;
    try rewrite Z.compare_refl; try rewrite Pos.compare_cont_refl; reflexivity.
Qed.

(** X27. A futures trade, outside test mode, for a BUY or SELL signal whose
    confidence is not LOW.  [executeTrade] makes at most two [PlaceOrder]
    calls, all on the side of the signal.  A reduce-only call comes first,
    only against a position on the opposite side, for the whole size of
    that position; every other call opens the signal's side for the
    configured amount divided by the price, and follows a reduce-only call
    only if that one succeeded.  With a position already on the signal's
    side nothing is called. *)
Theorem futures_trade_orders (cfg : config.Config)
    (place_ok : list (Order.t float) -> Order.t float -> bool)
    (balance : list (Order.t float) -> string -> option float)
    (signal : TradeSignal.t) (price : float)
    (currentPosition : option (Position.t float)) (calls : list (Order.t float)) :
  config.TestMode (config.Trading cfg) = false ->
  config.IsSpotMode cfg = false ->
  TradeSignal.Confidence signal <> "LOW"%string ->
  TradeSignal.Signal signal = "BUY"%string \/ TradeSignal.Signal signal = "SELL"%string ->
  exists new err,
    executeTrade cfg place_ok balance signal price currentPosition calls
    = (calls ++ new, err) /\
    (List.length new <= 2)%nat /\
    (forall o, In o new -> Order.side o = order_side signal) /\
    (forall o, In o new -> Order.reduceOnly o = true ->
       hd_error new = Some o /\
       exists pos, currentPosition = Some pos /\
                   Position.Side pos = closed_side signal /\
                   Order.amount o = Position.Size pos /\
                   Order.posSide o = Some (closed_side signal)) /\
    (forall o, In o new -> Order.reduceOnly o = false ->
       Order.amount o = PrimFloat.div (config.Amount (config.Trading cfg)) price /\
       Order.posSide o = Some (opened_side signal)) /\
    (forall o1 o2, new = [o1; o2] ->
       Order.reduceOnly o1 = true /\ Order.reduceOnly o2 = false /\
       place_ok calls o1 = true) /\
    (forall pos, currentPosition = Some pos ->
       Position.Side pos = opened_side signal -> new = [] /\ err = false).
Proof.
  intros Ht Hspot Hc Hsig.
  unfold executeTrade, placeOrder, executeFuturesTrade. cbv zeta.
  rewrite Ht, Hspot. cbn [negb andb].
  destruct (String.eqb_spec (TradeSignal.Confidence signal) "LOW"); [contradiction|].
  cbn [andb].
  set (amountInBase := PrimFloat.div (config.Amount (config.Trading cfg)) price).
  unfold order_side, opened_side, closed_side.
  assert (Hcases :
    exists side opening closing,
      (if (TradeSignal.Signal signal =? "BUY")%string then "buy" else "sell")%string = side /\
      (if (TradeSignal.Signal signal =? "BUY")%string then "long" else "short")%string
      = opening /\
      (if (TradeSignal.Signal signal =? "BUY")%string then "short" else "long")%string
      = closing /\
      opening <> closing /\
      (if (TradeSignal.Signal signal =? "HOLD")%string then succeeded calls
       else if (TradeSignal.Signal signal =? "BUY")%string
            then executeBuy place_ok currentPosition amountInBase calls
            else if (TradeSignal.Signal signal =? "SELL")%string
                 then executeSell place_ok currentPosition amountInBase calls
                 else succeeded calls)
      = (let open_order := Order.mk side amountInBase false (Some opening) in
         match currentPosition with
         | Some pos =>
             if (Position.Side pos =? closing)%string then
               let close_order := Order.mk side (Position.Size pos) true (Some closing) in
               if place_ok calls close_order
               then (calls ++ [close_order; open_order],
                     negb (place_ok (calls ++ [close_order]) open_order))
               else (calls ++ [close_order], true)
             else if (Position.Side pos =? opening)%string then (calls ++ [], false)
             else (calls ++ [open_order], negb (place_ok calls open_order))
         | None => (calls ++ [open_order], negb (place_ok calls open_order))
         end)).
  { destruct Hsig as [Hs|Hs]; rewrite Hs; cbn [String.eqb Ascii.eqb Bool.eqb];
      eexists _, _, _; (split; [reflexivity|]); (split; [reflexivity|]);
      (split; [reflexivity|]); (split; [discriminate|]);
      [unfold executeBuy | unfold executeSell]; unfold place, failed, succeeded;
      cbv zeta; rewrite app_nil_r;
      (destruct currentPosition as [pos|]; [|reflexivity]);
      repeat match goal with
             | |- context [(Position.Side pos =? ?x)%string] =>
                 destruct (String.eqb_spec (Position.Side pos) x)
             end;
      try congruence;
      try (destruct (place_ok calls _); cbn [negb]);
      rewrite <- ?app_assoc; reflexivity. }
  destruct Hcases as [side [opening [closing [-> [-> [-> [Hne ->]]]]]]]. cbv zeta.
  destruct currentPosition as [pos|].
  - destruct (String.eqb_spec (Position.Side pos) closing) as [Hcl|Hcl].
    + destruct (place_ok calls _) eqn:Ep.
      * eexists _, _. split; [reflexivity|]. split; [cbn; lia|].
        split; [intros o [<-|[<-|[]]]; reflexivity|].
        split.
        { intros o [<-|[<-|[]]] Hr; [|discriminate Hr].
          split; [reflexivity|]. exists pos. repeat split; assumption. }
        split; [intros o [<-|[<-|[]]] Hr; [discriminate Hr|]; now split|].
        split.
        { intros o1 o2 Hn. injection Hn as <- <-. repeat split. exact Ep. }
        intros pos' Hp Hside. injection Hp as <-. congruence.
      * eexists _, _. split; [reflexivity|]. split; [cbn; lia|].
        split; [intros o [<-|[]]; reflexivity|].
        split.
        { intros o [<-|[]] Hr. split; [reflexivity|].
          exists pos. repeat split; assumption. }
        split; [intros o [<-|[]] Hr; discriminate Hr|].
        split; [intros o1 o2 Hn; discriminate Hn|].
        intros pos' Hp Hside. injection Hp as <-. congruence.
    + destruct (String.eqb_spec (Position.Side pos) opening) as [Hop|Hop].
      * exists [], false. split; [reflexivity|]. split; [cbn; lia|].
        split; [intros o []|]. split; [intros o []|]. split; [intros o []|].
        split; [intros o1 o2 Hn; discriminate Hn|]. intros; now split.
      * eexists _, _. split; [reflexivity|]. split; [cbn; lia|].
        split; [intros o [<-|[]]; reflexivity|].
        split; [intros o [<-|[]] Hr; discriminate Hr|].
        split; [intros o [<-|[]] Hr; now split|].
        split; [intros o1 o2 Hn; discriminate Hn|].
        intros pos' Hp Hside. injection Hp as <-. contradiction.
  - eexists _, _. split; [reflexivity|]. split; [cbn; lia|].
    split; [intros o [<-|[]]; reflexivity|].
    split; [intros o [<-|[]] Hr; discriminate Hr|].
    split; [intros o [<-|[]] Hr; now split|].
    split; [intros o1 o2 Hn; discriminate Hn|].
    intros pos' Hp. discriminate Hp.
Qed.

Lemma futures_trade_orders_witness :
  exists new err,
    executeTrade (sample_config "okx") always_ok balance_1000 (sample_signal "BUY" "HIGH")
      50000%float
      (Some (fetched_position "short" 3%float 51000%float 0%float 10 "BTC/USDT:USDT")) []
    = ([] ++ new, err) /\ (List.length new <= 2)%nat.
Proof.
  destruct (futures_trade_orders (sample_config "okx") always_ok balance_1000
              (sample_signal "BUY" "HIGH") 50000%float
              (Some (fetched_position "short" 3%float 51000%float 0%float 10
                       "BTC/USDT:USDT")) []
              eq_refl eq_refl ltac:(discriminate) (or_introl eq_refl))
    as [new [err [H1 [H2 _]]]].
  exists new, err. exact (conj H1 H2).
Defined.

(** X28. A spot trade, outside test mode, for a signal whose confidence is
    not LOW.  [executeTrade] makes at most one [PlaceOrder] call, never
    reduce-only and without a position side.  A BUY is called for the
    configured amount divided by the price, and not at all when the quote
    balance is known to be below the configured amount.  A SELL is called
    only with a known base balance and never for more than that balance:
    for the amount divided by the price if the balance covers it, else for
    the whole (positive) balance. *)
Theorem spot_trade_orders (cfg : config.Config)
    (place_ok : list (Order.t float) -> Order.t float -> bool)
    (balance : list (Order.t float) -> string -> option float)
    (signal : TradeSignal.t) (price : float)
    (currentPosition : option (Position.t float)) (calls : list (Order.t float)) :
  config.TestMode (config.Trading cfg) = false ->
  config.IsSpotMode cfg = true ->
  TradeSignal.Confidence signal <> "LOW"%string ->
  let amountInBase := PrimFloat.div (config.Amount (config.Trading cfg)) price in
  exists new err,
    executeTrade cfg place_ok balance signal price currentPosition calls
    = (calls ++ new, err) /\
    (List.length new <= 1)%nat /\
    (forall o, In o new ->
       Order.reduceOnly o = false /\ Order.posSide o = None /\
       ((TradeSignal.Signal signal = "BUY"%string /\ Order.side o = "buy"%string /\
         Order.amount o = amountInBase /\
         forall b, balance calls (config.SymbolB (config.Trading cfg)) = Some b ->
                   PrimFloat.ltb b (config.Amount (config.Trading cfg)) = false) \/
        (TradeSignal.Signal signal = "SELL"%string /\ Order.side o = "sell"%string /\
         exists b, balance calls (config.SymbolA (config.Trading cfg)) = Some b /\
                   PrimFloat.ltb b (Order.amount o) = false /\
                   (Order.amount o = amountInBase \/
                    (Order.amount o = b /\ PrimFloat.ltb 0 b = true))))).
Proof.
  intros Ht Hspot Hc amountInBase.
  unfold executeTrade, placeOrder, executeSpotTrade. cbv zeta.
  rewrite Ht, Hspot. cbn [negb andb].
  destruct (String.eqb_spec (TradeSignal.Confidence signal) "LOW"); [contradiction|].
  cbn [andb]. fold amountInBase.
  destruct (String.eqb_spec (TradeSignal.Signal signal) "HOLD") as [Hh|Hh].
  { exists [], false. rewrite app_nil_r. split; [reflexivity|].
    split; [cbn; lia|]. intros o []. }
  destruct (String.eqb_spec (TradeSignal.Signal signal) "BUY") as [Hb|Hb].
  - destruct (balance calls (config.SymbolB (config.Trading cfg))) as [b|] eqn:Eb.
    + destruct (PrimFloat.ltb b (config.Amount (config.Trading cfg))) eqn:El.
      * exists [], true. rewrite app_nil_r. split; [reflexivity|].
        split; [cbn; lia|]. intros o [].
      * eexists _, _. split; [reflexivity|]. split; [cbn; lia|].
        intros o [<-|[]]. cbn. split; [reflexivity|]. split; [reflexivity|].
        left. repeat split; try assumption. intros b' Hb'. congruence.
    + eexists _, _. split; [reflexivity|]. split; [cbn; lia|].
      intros o [<-|[]]. cbn. split; [reflexivity|]. split; [reflexivity|].
      left. repeat split; try assumption. intros b' Hb'. discriminate.
  - destruct (String.eqb_spec (TradeSignal.Signal signal) "SELL") as [Hs|Hs].
    + destruct (balance calls (config.SymbolA (config.Trading cfg))) as [b|] eqn:Eb.
      * destruct (PrimFloat.ltb b amountInBase) eqn:El.
        -- destruct (PrimFloat.ltb 0 b) eqn:Ep.
           ++ eexists _, _. split; [reflexivity|]. split; [cbn; lia|].
              intros o [<-|[]]. cbn. split; [reflexivity|]. split; [reflexivity|].
              right. repeat split; try assumption. exists b.
              split; [reflexivity|]. split; [apply b64_ltb_irrefl|].
              right. now split.
           ++ exists [], true. rewrite app_nil_r. split; [reflexivity|].
              split; [cbn; lia|]. intros o [].
        -- eexists _, _. split; [reflexivity|]. split; [cbn; lia|].
           intros o [<-|[]]. cbn. split; [reflexivity|]. split; [reflexivity|].
           right. repeat split; try assumption. exists b.
           split; [reflexivity|]. split; [exact El|]. now left.
      * exists [], true. rewrite app_nil_r. split; [reflexivity|].
        split; [cbn; lia|]. intros o [].
    + exists [], false. rewrite app_nil_r. split; [reflexivity|].
      split; [cbn; lia|]. intros o [].
Qed.

Lemma spot_trade_orders_witness :
  exists new err,
    executeTrade sample_spot_config always_ok balance_1000 (sample_signal "SELL" "HIGH")
      50000%float None [] = ([] ++ new, err) /\ (List.length new <= 1)%nat.
Proof.
  destruct (spot_trade_orders sample_spot_config always_ok balance_1000
              (sample_signal "SELL" "HIGH") 50000%float None []
              eq_refl eq_refl ltac:(discriminate))
    as [new [err [H1 [H2 _]]]].
  exists new, err. exact (conj H1 H2).
Defined.

(** ** Market data *)

Lemma index_second_last {A : Type} (s : list A) (a b : A) :
  index (s ++ [a; b]) (len (s ++ [a; b]) - 2) = Ret a.
Proof.
  assert (Hl : len (s ++ [a; b]) - 2 = len s)
    by (unfold len; rewrite length_app; cbn [List.length]; lia).
  rewrite Hl. apply (index_app_mid s a [b]).
Qed.

Lemma two_last {A : Type} (l : list A) :
  2 <= len l -> exists s a b, l = s ++ [a; b].
Proof.
  intros H. destruct (rev l) as [|b [|a r]] eqn:E.
  - apply (f_equal (@rev A)) in E. rewrite rev_involutive in E. subst l.
    cbn in H. lia.
  - apply (f_equal (@rev A)) in E. rewrite rev_involutive in E. subst l.
    cbn in H. lia.
  - apply (f_equal (@rev A)) in E. rewrite rev_involutive in E. subst l.
    exists (rev r), a, b. cbn [rev]. now rewrite <- app_assoc.
Qed.

(** X29. [fetchMarketData], once the candles are fetched: a fetch error
    and an empty candle list give an error; a list of exactly one candle
    makes it panic, on [ohlcvList[len-2]]; with two candles or more it
    returns market data whose price, high, low and volume are those of the
    last candle, whose price change is taken against the close of the
    candle before it, and whose indicators are the results of the
    calculator under [AggressiveConfig], none of them nil. *)
Theorem fetchMarketData_cases (F : Type) (arith : Arith F) (now timeframe : string)
    (ohlcvList : list (OHLCV F)) :
  len ohlcvList < max_int ->
  fetchMarketData now timeframe (@None (list (OHLCV F))) = Ret None /\
  (len ohlcvList = 0 -> fetchMarketData now timeframe (Some ohlcvList) = Ret None) /\
  (len ohlcvList = 1 -> fetchMarketData now timeframe (Some ohlcvList) = Panic) /\
  (2 <= len ohlcvList ->
   exists s previous current data trend levels,
     ohlcvList = s ++ [previous; current] /\
     Calculate AggressiveConfig ohlcvList = Ret (Some data) /\
     CalculateTrendAnalysis AggressiveConfig ohlcvList (Some data) = Ret (Some trend) /\
     CalculateLevelsAnalysis AggressiveConfig ohlcvList (Some data) = Ret (Some levels) /\
     fetchMarketData now timeframe (Some ohlcvList)
     = Ret (Some
         (MarketData.mk (Close current) now (High current) (Low current)
            (Volume current) timeframe
            (mul (div (sub (Close current) (Close previous)) (Close previous)) f100)
            ohlcvList (Some data) (Some trend) (Some levels)))).
Proof.
  intros Hn. split; [reflexivity|]. split; [|split].
  - intros H0. unfold fetchMarketData. now rewrite H0.
  - intros H1. unfold fetchMarketData. rewrite H1. cbn [Z.eqb].
    destruct (Calculate AggressiveConfig ohlcvList) as [tech|]; [|reflexivity].
    cbn [bind].
    destruct (CalculateTrendAnalysis AggressiveConfig ohlcvList tech); [|reflexivity].
    cbn [bind].
    destruct (CalculateLevelsAnalysis AggressiveConfig ohlcvList tech); [|reflexivity].
    cbn [bind].
    destruct (index ohlcvList (1 - 1)); reflexivity.
  - intros H2. destruct (two_last ohlcvList H2) as [s [previous [current E]]].
    assert (Hne : ohlcvList <> []) by (intros ->; cbn in H2; lia).
    pose proof (Calculate_eq AggressiveConfig ohlcvList AggressiveConfig_periods_ok Hne Hn)
      as Hc.
    destruct (trend_labels_exists AggressiveConfig ohlcvList
                (Technical_ref AggressiveConfig ohlcvList) Hne) as [trend [Htr _]].
    destruct (CalculateLevelsAnalysis_eq AggressiveConfig ohlcvList
                (Technical_ref AggressiveConfig ohlcvList) Hne ltac:(lia)
                ltac:(cbn; lia)) as [levels [Hlv _]].
    exists s, previous, current, (Technical_ref AggressiveConfig ohlcvList), trend, levels.
    split; [exact E|]. split; [exact Hc|]. split; [exact Htr|]. split; [exact Hlv|].
    unfold fetchMarketData.
    destruct (len ohlcvList =? 0) eqn:E0; [apply Z.eqb_eq in E0; lia|].
    rewrite Hc. cbn [bind]. rewrite Htr. cbn [bind]. rewrite Hlv. cbn [bind].
    rewrite (index_last ohlcvList current Hne).
    cbn [bind].
    assert (Hlast : last ohlcvList current = current)
      by (rewrite E; change [previous; current] with ([previous] ++ [current]);
          rewrite app_assoc; apply last_last).
    rewrite Hlast.
    assert (Hprev : index ohlcvList (len ohlcvList - 2) = Ret previous)
      by (rewrite E; apply index_second_last).
    rewrite Hprev. reflexivity.
Qed.

Lemma fetchMarketData_cases_witness :
  fetchMarketData "now" "15m" (Some [bar 1 1 1 1]%float) = Panic.
Proof.
  refine (proj1 (proj2 (proj2 (fetchMarketData_cases float binary64 "now" "15m"
                                 [bar 1 1 1 1]%float _))) _).
  - vm_compute. reflexivity.
  - reflexivity.
Defined.

(** ** Order sizing *)

(** X30. The size [PlaceOrder] orders.  For a client that is not in spot
    mode the size is never below the instrument's minimum size, whatever
    the amount, the contract value and the lot size.  For a spot client the
    size is not below the minimum size either, unless the order was raised
    to the minimum amount: then the ticker gave a positive price at which
    the size so far was worth less than the (positive) minimum amount.
    Rounding to a lot size that is not positive changes nothing. *)
Theorem orderSize_at_least_minimum (c : exchange.OKXClient)
    (instInfo : InstrumentInfo.t) (amount : float) (ticker : option float) :
  let size := orderSize c instInfo amount ticker in
  (exchange.tradingMode c <> "spot"%string ->
   PrimFloat.ltb size (InstrumentInfo.MinSize instInfo) = false) /\
  (exchange.tradingMode c = "spot"%string ->
   PrimFloat.ltb size (InstrumentInfo.MinSize instInfo) = false \/
   exists last sized,
     ticker = Some last /\ PrimFloat.ltb 0 last = true /\
     PrimFloat.ltb 0 (InstrumentInfo.MinAmount instInfo) = true /\
     PrimFloat.ltb sized (InstrumentInfo.MinSize instInfo) = false /\
     PrimFloat.ltb (sized * last) (InstrumentInfo.MinAmount instInfo) = true /\
     size = (if PrimFloat.ltb 0 (InstrumentInfo.LotSize instInfo)
             then roundUpToLotSize (InstrumentInfo.MinAmount instInfo / last)
                    (InstrumentInfo.LotSize instInfo)
             else InstrumentInfo.MinAmount instInfo / last)%float) /\
  (forall size' lotSize, PrimFloat.leb lotSize 0 = true ->
     roundToLotSize size' lotSize = size' /\ roundUpToLotSize size' lotSize = size').
Proof.
  assert (Hclamp : forall x m : float,
            PrimFloat.ltb (if PrimFloat.ltb x m then m else x) m = false).
  { intros x m. destruct (PrimFloat.ltb x m) eqn:E; [apply b64_ltb_irrefl|exact E]. }
  cbv zeta. split; [|split].
  - intros Hm. unfold orderSize. cbv zeta.
    destruct (String.eqb_spec (exchange.tradingMode c) config.TradingModeSpot);
      [contradiction|].
    apply Hclamp.
  - intros Hm. unfold orderSize. cbv zeta. rewrite Hm.
    cbn [String.eqb Ascii.eqb Bool.eqb config.TradingModeSpot].
    set (size1 := if PrimFloat.ltb 0 (InstrumentInfo.LotSize instInfo) then _ else _).
    destruct (PrimFloat.ltb 0 (InstrumentInfo.MinAmount instInfo)) eqn:Ea;
      [|left; apply Hclamp].
    destruct ticker as [last|]; [|left; apply Hclamp].
    destruct (PrimFloat.ltb 0 last) eqn:El; [|left; apply Hclamp].
    destruct (PrimFloat.ltb (PrimFloat.mul _ last) _) eqn:Eo;
      [|left; apply Hclamp].
    right. eexists last, _. split; [reflexivity|]. split; [exact El|].
    split; [reflexivity|]. split; [apply Hclamp|]. split; [exact Eo|]. reflexivity.
  - intros size' lotSize H. unfold roundToLotSize, roundUpToLotSize. now rewrite H.
Qed.

Lemma orderSize_at_least_minimum_witness :
  PrimFloat.ltb
    (orderSize futures_client
       (InstrumentInfo.mk "BTC-USDT-SWAP" 0.5 0.5 0.5 0 0)%float 0.125%float None)
    0.5%float = false.
Proof.
  refine (proj1 (orderSize_at_least_minimum futures_client
            (InstrumentInfo.mk "BTC-USDT-SWAP" 0.5 0.5 0.5 0 0)%float
            0.125%float None) _).
  discriminate.
Defined.
